(** * OpenET data processor: extraction, ET analysis, vegetation summary

    A shallow embedding of [api/services/openet_service.py]
    ([OpenETDataProcessor]) and the properties its specification states.

    Modelling conventions.
    - A JSON number is the rational it denotes: [np.sum], [np.mean],
      [round] and the comparisons are exact rational arithmetic, so the
      rounding error of binary64 is abstracted away.
    - A Python [dict] is a [gmap string pyval]; the fields of a provider
      record hold JSON scalars (null, integer, float, string).
    - [logger] calls append to an explicit log; exceptions are values of
      [exn] and abort the computation, keeping the log written so far. *)

From Stdlib Require Import ZArith QArith Qround Qabs Lqa String Ascii List Lia Bool.
From Stdlib Require Import DecimalString.
From stdpp Require Import gmap strings list fin_maps sorting.
Import ListNotations.

Open Scope string_scope.
Open Scope list_scope.

(* ===================================================================== *)
(** ** Python values *)
(* ===================================================================== *)

Inductive pyval :=
| PNone
| PInt (z : Z)
| PFloat (q : Q)
| PStr (s : string).

(** [bool(v)]: [None], [0], [0.0] and [""] are falsy. *)
Definition truthy (v : pyval) : bool :=
  match v with
  | PNone => false
  | PInt z => negb (Z.eqb z 0)
  | PFloat q => negb (Qeq_bool q 0)
  | PStr EmptyString => false
  | PStr _ => true
  end.

(** [v is not None] *)
Definition is_not_None (v : pyval) : bool :=
  match v with PNone => false | _ => true end.

(** [d.get(k)]: the value, or [None] when the key is missing. *)
Definition dict_get (d : gmap string pyval) (k : string) : pyval :=
  default PNone (d !! k).

(** The element a numpy array holds for a Python value, where it has one. *)
Definition as_number (v : pyval) : option Q :=
  match v with
  | PInt z => Some (inject_Z z)
  | PFloat q => Some q
  | _ => None
  end.

(** [type(v)] as an f-string prints it. *)
Definition type_repr (v : pyval) : string :=
  match v with
  | PNone => "<class 'NoneType'>"
  | PInt _ => "<class 'int'>"
  | PFloat _ => "<class 'float'>"
  | PStr _ => "<class 'str'>"
  end.

(** What the provider call hands over for one variable: the documented
    list of records, or anything else (an error object, a scalar). *)
Inductive payload :=
| Records (items : list (gmap string pyval))
| Object (d : gmap string pyval)
| Scalar (v : pyval).

Definition payload_type_repr (p : payload) : string :=
  match p with
  | Records _ => "<class 'list'>"
  | Object _ => "<class 'dict'>"
  | Scalar v => type_repr v
  end.

(* ===================================================================== *)
(** ** Exceptions and logging *)
(* ===================================================================== *)

Inductive exn :=
| KeyError (k : string)
| TypeError
| IndexError.

Inductive level := ERROR | WARNING.

Definition log_record : Type := level * string.

(** A computation reads the log written so far and returns either an
    exception or a value, with the log extended. *)
Definition M (A : Type) : Type := list log_record -> (exn + A) * list log_record.

Definition ret {A} (a : A) : M A := fun l => (inr a, l).

Definition raise {A} (e : exn) : M A := fun l => (inl e, l).

Definition bind {A B} (m : M A) (k : A -> M B) : M B :=
  fun l =>
    match m l with
    | (inl e, l') => (inl e, l')
    | (inr a, l') => k a l'
    end.

Definition logger (lv : level) (msg : string) : M unit :=
  fun l => (inr tt, l ++ [(lv, msg)]).

(** A step that can only raise: no logging. *)
Definition lift {A} (r : exn + A) : M A := fun l => (r, l).

Declare Scope py_scope.
Delimit Scope py_scope with py.
Notation "x <- m ;; k" := (bind m (fun x => k))
  (at level 100, m at next level, right associativity) : py_scope.
Notation "m ;;; k" := (bind m (fun _ => k))
  (at level 100, right associativity) : py_scope.

(** [l[i]] on a list: [IndexError] out of range (indices here are never
    negative). *)
Definition subscript {A} (l : list A) (i : nat) : exn + A :=
  match l !! i with
  | Some a => inr a
  | None => inl IndexError
  end.

(** [l[-1]] *)
Definition subscript_last {A} (l : list A) : exn + A :=
  match last l with
  | Some a => inr a
  | None => inl IndexError
  end.

(** [d[k]] on a dict: [KeyError] when the key is missing. *)
Definition dict_subscript (d : gmap string pyval) (k : string) : exn + pyval :=
  match d !! k with
  | Some v => inr v
  | None => inl (KeyError k)
  end.

(* ===================================================================== *)
(** ** Strings: [str.lower], [str.upper], decimal output *)
(* ===================================================================== *)

Definition lower_ascii (c : ascii) : ascii :=
  let n := N_of_ascii c in
  if (65 <=? n)%N && (n <=? 90)%N then ascii_of_N (n + 32) else c.

Definition upper_ascii (c : ascii) : ascii :=
  let n := N_of_ascii c in
  if (97 <=? n)%N && (n <=? 122)%N then ascii_of_N (n - 32) else c.

Fixpoint map_string (f : ascii -> ascii) (s : string) : string :=
  match s with
  | EmptyString => EmptyString
  | String c t => String (f c) (map_string f t)
  end.

Definition lower (s : string) : string := map_string lower_ascii s.
Definition upper (s : string) : string := map_string upper_ascii s.

Definition string_of_Z (z : Z) : string := NilZero.string_of_int (Z.to_int z).

(** A non-negative number written with at least [w] digits ([%02d]). *)
Fixpoint zeros (n : nat) : string :=
  match n with
  | O => EmptyString
  | S n' => String "0" (zeros n')
  end.

Definition zero_pad (w : nat) (s : string) : string :=
  zeros (w - String.length s) +:+ s.

(* ===================================================================== *)
(** ** Calendar dates: [datetime.strptime] and [strftime] with [%Y-%m-%d] *)
(* ===================================================================== *)

Record datetime := mk_datetime { year : Z; month : Z; day : Z }.

Definition digit (c : ascii) : option Z :=
  let n := Z.of_N (N_of_ascii c) in
  if (48 <=? n)%Z && (n <=? 57)%Z then Some (n - 48)%Z else None.

Definition digit_in (lo hi : Z) (c : ascii) : option Z :=
  match digit c with
  | Some d => if (lo <=? d)%Z && (d <=? hi)%Z then Some d else None
  | None => None
  end.

Definition is_leap (y : Z) : bool :=
  (y mod 4 =? 0)%Z && (negb (y mod 100 =? 0)%Z || (y mod 400 =? 0)%Z).

Definition days_in_month (y m : Z) : Z :=
  if (m =? 2)%Z then (if is_leap y then 29 else 28)%Z
  else if (m =? 4)%Z || (m =? 6)%Z || (m =? 9)%Z || (m =? 11)%Z then 30%Z
  else 31%Z.

(** [%Y] is four digits. *)
Definition match_year (l : list ascii) : option (Z * list ascii) :=
  match l with
  | a :: b :: c :: d :: rest =>
      match digit a, digit b, digit c, digit d with
      | Some a, Some b, Some c, Some d =>
          Some (1000 * a + 100 * b + 10 * c + d, rest)%Z
      | _, _, _, _ => None
      end
  | _ => None
  end.

(** [%m] is [1[0-2]|0[1-9]|[1-9]], the alternatives tried in this order. *)
Definition match_month (l : list ascii) : option (Z * list ascii) :=
  match l with
  | a :: rest =>
      let two :=
        match rest with
        | b :: rest' =>
            match digit_in 1 1 a, digit_in 0 2 b with
            | Some _, Some b => Some (10 + b, rest')%Z
            | _, _ =>
                match digit_in 0 0 a, digit_in 1 9 b with
                | Some _, Some b => Some (b, rest')
                | _, _ => None
                end
            end
        | [] => None
        end in
      match two with
      | Some r => Some r
      | None =>
          match digit_in 1 9 a with
          | Some a => Some (a, rest)
          | None => None
          end
      end
  | [] => None
  end.

(** [%d] is [3[0-1]|[1-2]\d|0[1-9]|[1-9]| [1-9]]. *)
Definition match_day (l : list ascii) : option (Z * list ascii) :=
  match l with
  | a :: rest =>
      let two :=
        match rest with
        | b :: rest' =>
            match digit_in 3 3 a, digit_in 0 1 b with
            | Some _, Some b => Some (30 + b, rest')%Z
            | _, _ =>
                match digit_in 1 2 a, digit b with
                | Some a, Some b => Some (10 * a + b, rest')%Z
                | _, _ =>
                    match digit_in 0 0 a, digit_in 1 9 b with
                    | Some _, Some b => Some (b, rest')
                    | _, _ => None
                    end
                end
            end
        | [] => None
        end in
      match two with
      | Some r => Some r
      | None =>
          match digit_in 1 9 a with
          | Some a => Some (a, rest)
          | None =>
              match rest with
              | b :: rest' =>
                  if Ascii.eqb a " "%char then
                    match digit_in 1 9 b with
                    | Some b => Some (b, rest')
                    | None => None
                    end
                  else None
              | [] => None
              end
          end
      end
  | [] => None
  end.

Definition expect (c : ascii) (l : list ascii) : option (list ascii) :=
  match l with
  | a :: rest => if Ascii.eqb a c then Some rest else None
  | [] => None
  end.

(** [datetime.strptime(s, '%Y-%m-%d')]; [None] stands for [ValueError]:
    the text does not match the format, text remains after the match, or
    the fields are no calendar date (year 0, 30 February). Each directive
    is followed by a fixed character or by the end of the text, so the
    first alternative that matches is the one the regular expression
    settles on. *)
Definition strptime (s : string) : option datetime :=
  match match_year (list_ascii_of_string s) with
  | Some (y, r1) =>
      match expect "-" r1 with
      | Some r2 =>
          match match_month r2 with
          | Some (m, r3) =>
              match expect "-" r3 with
              | Some r4 =>
                  match match_day r4 with
                  | Some (d, []) =>
                      if (1 <=? y)%Z && (d <=? days_in_month y m)%Z
                      then Some (mk_datetime y m d)
                      else None
                  | _ => None
                  end
              | None => None
              end
          | None => None
          end
      | None => None
      end
  | None => None
  end.

(** [d.strftime('%Y-%m-%d')], the year written with four digits. *)
Definition strftime (d : datetime) : string :=
  zero_pad 4 (string_of_Z (year d)) +:+ "-" +:+
  zero_pad 2 (string_of_Z (month d)) +:+ "-" +:+
  zero_pad 2 (string_of_Z (day d)).

(* ===================================================================== *)
(** ** Numbers: [round], and the numpy reductions the processor calls *)
(* ===================================================================== *)

Open Scope Q_scope.

Definition Qltb (x y : Q) : bool := negb (Qle_bool y x).

(** Nearest integer, ties to the even one: [round] and [np.round] both
    round half to even. *)
Definition rint (q : Q) : Z :=
  let f := Qfloor q in
  match (2 * (q - inject_Z f) ?= 1)%Q with
  | Lt => f
  | Gt => (f + 1)%Z
  | Eq => if Z.even f then f else (f + 1)%Z
  end.

Definition pow10 (n : nat) : Q := inject_Z (10 ^ Z.of_nat n).

(** [round(q, n)] for [n] decimals, in lowest terms. *)
Definition round_nd (n : nat) (q : Q) : Q :=
  Qred (inject_Z (rint (q * pow10 n)) / pow10 n).

(** The integer nearest to the square root of a non-negative rational,
    ties to even. *)
Definition rint_sqrt (q : Q) : Z :=
  let m := Z.sqrt (Qfloor q) in
  match (q ?= (inject_Z m + (1 # 2)) * (inject_Z m + (1 # 2)))%Q with
  | Lt => m
  | Gt => (m + 1)%Z
  | Eq => if Z.even m then m else (m + 1)%Z
  end.

(** [round(sqrt(q), n)] *)
Definition round_sqrt_nd (n : nat) (q : Q) : Q :=
  Qred (inject_Z (rint_sqrt (q * pow10 n * pow10 n)) / pow10 n).

Definition np_sum (a : list Q) : Q := fold_left Qplus a 0.

Definition np_mean (a : list Q) : Q := np_sum a / inject_Z (Z.of_nat (length a)).

Definition np_max (a : list Q) : Q :=
  match a with
  | [] => 0
  | x :: t => fold_left (fun m y => if Qltb m y then y else m) t x
  end.

Definition np_min (a : list Q) : Q :=
  match a with
  | [] => 0
  | x :: t => fold_left (fun m y => if Qltb y m then y else m) t x
  end.

(** [np.argmax]: the index of the first occurrence of the maximum. *)
Fixpoint argmax_from (best : Q) (best_idx idx : nat) (a : list Q) : nat :=
  match a with
  | [] => best_idx
  | x :: t =>
      if Qltb best x then argmax_from x idx (S idx) t
      else argmax_from best best_idx (S idx) t
  end.

Definition np_argmax (a : list Q) : nat :=
  match a with
  | [] => O
  | x :: t => argmax_from x 0 1 t
  end.

(** The population variance; [np.std] is its square root. *)
Definition np_var (a : list Q) : Q :=
  let mu := np_mean a in
  np_mean (map (fun x => (x - mu) * (x - mu)) a).

(** [np.arange(n)] *)
Definition np_arange (n : nat) : list Q := map (fun i => inject_Z (Z.of_nat i)) (seq 0 n).

Definition dot (a b : list Q) : Q :=
  np_sum (map (fun p => fst p * snd p) (combine a b)).

(** The slope [np.polyfit(x, y, 1)] returns first: that of the
    least-squares line through the points [(x_i, y_i)]. *)
Definition polyfit_slope (x y : list Q) : Q :=
  let n := inject_Z (Z.of_nat (length x)) in
  (n * dot x y - np_sum x * np_sum y) / (n * dot x x - np_sum x * np_sum x).

Definition polyfit_intercept (x y : list Q) : Q :=
  let n := inject_Z (Z.of_nat (length x)) in
  (np_sum y - polyfit_slope x y * np_sum x) / n.

(** [np.array(values)] followed by a reduction: a value that is no
    number makes numpy raise. *)
Fixpoint np_array (values : list pyval) : exn + list Q :=
  match values with
  | [] => inr []
  | v :: t =>
      match as_number v with
      | None => inl TypeError
      | Some q =>
          match np_array t with
          | inl e => inl e
          | inr a => inr (q :: a)
          end
      end
  end.

(* ===================================================================== *)
(** ** The structures the processor returns *)
(* ===================================================================== *)

(** The result of [_extract_variable_data]. [mean] is the entry
    [ndvi_mean] or [et_mean] with its key, absent for another variable. *)
Module Extracted.
Record t := mk {
  source : string;
  location : string;
  values_found : nat;
  date_range : string;
  data_points : list (gmap string pyval);
  mean : option (string * Q)
}.
End Extracted.

(** The four buckets of [seasonal_totals]. *)
Record seasonal (A : Type) := mk_seasonal {
  winter : A;
  spring : A;
  summer : A;
  fall : A
}.
Arguments mk_seasonal {A}.
Arguments winter {A}.
Arguments spring {A}.
Arguments summer {A}.
Arguments fall {A}.

(** The non-empty result of [_analyze_et_data]; whole-number results of
    [round(_, 0)] are integers. *)
Module ETAnalysis.
Record variability := mk_variability {
  std_dev_mm : Q;
  coefficient_of_variation : Q;
  consistency : string
}.
Record t := mk {
  total_et_mm : Z;
  mean_monthly_et_mm : Q;
  max_monthly_et_mm : Z;
  min_monthly_et_mm : Z;
  peak_et_month : string;
  total_et_inches : Q;
  growing_season_et_mm : Z;
  growing_season_et_inches : Q;
  observations : nat;
  date_range_start : string;
  date_range_end : string;
  yearly_totals_mm : list (Z * Z);
  seasonal_totals_mm : seasonal Z;
  monthly_trend : string;
  trend_slope_mm_per_month : Q;
  et_variability : variability;
  water_use_classification : string;
  water_use_description : string
}.
End ETAnalysis.

(** The non-empty result of [_generate_vegetation_summary]. *)
Module VegetationSummary.
Record t := mk {
  total_observations : nat;
  mean_ndvi : Q;
  max_ndvi : Q;
  min_ndvi : Q;
  std_dev : Q;
  vigor_classification : string;
  data_sources : list string
}.
End VegetationSummary.

(** The result of [process_response]; [None] is the empty dict [{}]. *)
Module Report.
Record t := mk {
  NDVI : Extracted.t;
  ET : Extracted.t;
  et_analysis : option ETAnalysis.t;
  vegetation_summary : option VegetationSummary.t
}.
End Report.

(* ===================================================================== *)
(** ** [OpenETDataProcessor] *)
(* ===================================================================== *)

Module OpenETDataProcessor.

Local Open Scope py_scope.

Definition mm_to_inches : Q := 393701 # 10000000.

(** *** [_extract_variable_data] *)

(** The data point [{'date': date, variable.upper(): value}]. *)
Definition data_point (variable : string) (date value : pyval) : gmap string pyval :=
  <[upper variable := value]> (<["date" := date]> ∅).

(** The [for item in raw_data] loop, with the two lists it appends to. *)
Fixpoint extract_loop (variable : string) (raw_data : list (gmap string pyval))
    (data_points : list (gmap string pyval)) (values : list pyval)
    : list (gmap string pyval) * list pyval :=
  match raw_data with
  | [] => (data_points, values)
  | item :: rest =>
      let date := dict_get item "time" in
      let value := dict_get item (lower variable) in
      if truthy date && is_not_None value
      then extract_loop variable rest
             (data_points ++ [data_point variable date value]) (values ++ [value])
      else extract_loop variable rest data_points values
  end.

Section Extract.

(** [str] of a float, which the rational model does not determine. *)
Variable float_repr : Q -> string.

(** [str(v)], as an f-string inserts it. *)
Definition py_str (v : pyval) : string :=
  match v with
  | PNone => "None"
  | PInt z => string_of_Z z
  | PFloat q => float_repr q
  | PStr s => s
  end.

Definition _extract_variable_data (raw_data : payload) (variable location : string)
    : M Extracted.t :=
  match raw_data with
  | Records items =>
      let '(data_points, values) := extract_loop variable items [] [] in
      let valid_values := List.filter is_not_None values in
      (match data_points with
       | [] => logger WARNING ("No " +:+ variable +:+ " data found in response")
       | _ => ret tt
       end) ;;;
      date_range <-
        (match data_points with
         | [] => ret "N/A"
         | _ =>
             first <- lift (subscript data_points 0) ;;
             start_date <- lift (dict_subscript first "date") ;;
             final <- lift (subscript_last data_points) ;;
             end_date <- lift (dict_subscript final "date") ;;
             ret (py_str start_date +:+ " to " +:+ py_str end_date)
         end) ;;
      mean_value <-
        (match valid_values with
         | [] => ret 0
         | _ =>
             a <- lift (np_array valid_values) ;;
             ret (round_nd 3 (np_mean a))
         end) ;;
      ret (Extracted.mk "OpenET" location (length valid_values) date_range data_points
             (if String.eqb (lower variable) "ndvi" then Some ("ndvi_mean", mean_value)
              else if String.eqb (lower variable) "et" then Some ("et_mean", mean_value)
              else None))
  | _ =>
      logger ERROR ("Unexpected data format for " +:+ variable +:+
                    ". Expected list, got " +:+ payload_type_repr raw_data) ;;;
      ret (Extracted.mk "OpenET" location 0 "N/A" [] (Some (variable +:+ "_mean", 0)))
  end.

End Extract.

(** *** [_analyze_et_data] *)

(** The [for point in data_points] loop. The ET value is appended before
    the date is parsed; the [continue] of the handler ends the iteration,
    which was at its end already. *)
Fixpoint collect_et (data_points : list (gmap string pyval))
    (et_values : list pyval) (dates : list datetime)
    : M (list pyval * list datetime) :=
  match data_points with
  | [] => ret (et_values, dates)
  | point :: rest =>
      match point !! "ET" with
      | Some et =>
          if is_not_None et then
            let et_values := et_values ++ [et] in
            date <- lift (dict_subscript point "date") ;;
            match date with
            | PStr s =>
                match strptime s with
                | Some d => collect_et rest et_values (dates ++ [d])
                | None =>
                    logger WARNING ("Invalid date format: " +:+ s) ;;;
                    collect_et rest et_values dates
                end
            | _ => raise TypeError
            end
          else collect_et rest et_values dates
      | None => collect_et rest et_values dates
      end
  end.

Definition growing_season (pairs : list (datetime * Q)) : list Q :=
  map snd (List.filter (fun p => (4 <=? month (fst p))%Z && (month (fst p) <=? 10)%Z) pairs).

(** [yearly_totals[date.year] += et_val] on a [defaultdict(float)]. *)
Definition add_year (totals : gmap Z Q) (p : datetime * Q) : gmap Z Q :=
  <[year (fst p) := default 0 (totals !! year (fst p)) + snd p]> totals.

Definition yearly_totals (pairs : list (datetime * Q)) : gmap Z Q :=
  fold_left add_year pairs ∅.

(** The order [sorted] puts the items in: the years are distinct keys. *)
Definition year_le (a b : Z * Q) : Prop := (fst a <= fst b)%Z.

#[global] Instance year_le_dec : RelDecision year_le :=
  fun a b => decide (fst a <= fst b)%Z.

(** [{year: round(total, 0) for year, total in sorted(yearly_totals.items())}] *)
Definition yearly_totals_mm (pairs : list (datetime * Q)) : list (Z * Z) :=
  map (fun yt => (fst yt, rint (snd yt)))
      (merge_sort year_le (map_to_list (yearly_totals pairs))).

Definition mem_Z (z : Z) (l : list Z) : bool := existsb (Z.eqb z) l.

Definition add_season (totals : seasonal Q) (p : datetime * Q) : seasonal Q :=
  let m := month (fst p) in
  let et_val := snd p in
  if mem_Z m [12; 1; 2]%Z then
    mk_seasonal (winter totals + et_val) (spring totals) (summer totals) (fall totals)
  else if mem_Z m [3; 4; 5]%Z then
    mk_seasonal (winter totals) (spring totals + et_val) (summer totals) (fall totals)
  else if mem_Z m [6; 7; 8]%Z then
    mk_seasonal (winter totals) (spring totals) (summer totals + et_val) (fall totals)
  else
    mk_seasonal (winter totals) (spring totals) (summer totals) (fall totals + et_val).

Definition seasonal_totals (pairs : list (datetime * Q)) : seasonal Q :=
  fold_left add_season pairs (mk_seasonal 0 0 0 0).

Definition round_seasons (s : seasonal Q) : seasonal Z :=
  mk_seasonal (rint (winter s)) (rint (spring s)) (rint (summer s)) (rint (fall s)).

Definition classify_trend (slope : Q) : string :=
  if Qltb (Qabs slope) (1 # 10) then "stable"
  else if Qltb 0 slope then "increasing"
  else "decreasing".

Definition classify_consistency (cv : Q) : string :=
  if Qltb cv (3 # 10) then "high"
  else if Qltb cv (6 # 10) then "moderate"
  else "low".

Definition classify_water_use (mean_monthly_et_mm : Q) : string * string :=
  if Qltb mean_monthly_et_mm 30 then ("low_water_use", "Low water consumption")
  else if Qltb mean_monthly_et_mm 50 then ("moderate_water_use", "Moderate water consumption")
  else if Qltb mean_monthly_et_mm 70 then ("high_water_use", "High water consumption")
  else ("very_high_water_use", "Significantly high water consumption").

(** The statistics of [_analyze_et_data], from [et_array = np.array(et_values)]
    to the returned dict. [zip(dates, et_values)] stops at the shorter list. *)
Definition et_statistics (et_values : list pyval) (dates : list datetime)
    : exn + ETAnalysis.t :=
  match np_array et_values with
  | inl e => inl e
  | inr et_array =>
      let total_et_mm := rint (np_sum et_array) in
      let mean_monthly_et_mm := round_nd 1 (np_mean et_array) in
      let max_et := rint (np_max et_array) in
      let min_et := rint (np_min et_array) in
      let max_idx := np_argmax et_array in
      match subscript dates max_idx with
      | inl e => inl e
      | inr peak_date =>
          let peak_month := strftime peak_date in
          let total_et_inches := round_nd 2 (inject_Z total_et_mm * mm_to_inches) in
          let pairs := combine dates et_array in
          let growing_season_et := growing_season pairs in
          let growing_season_et_mm :=
            match growing_season_et with
            | [] => 0%Z
            | _ => rint (np_sum growing_season_et)
            end in
          let growing_season_et_inches :=
            round_nd 2 (inject_Z growing_season_et_mm * mm_to_inches) in
          let trend :=
            if (1 <? length et_values)%nat then
              let x := np_arange (length et_values) in
              let slope := polyfit_slope x et_array in
              (classify_trend slope, round_nd 3 slope)
            else ("stable", 0) in
          let std_dev := round_sqrt_nd 1 (np_var et_array) in
          let cv :=
            if Qltb 0 mean_monthly_et_mm then round_nd 2 (std_dev / mean_monthly_et_mm)
            else 0 in
          let water := classify_water_use mean_monthly_et_mm in
          match subscript dates 0 with
          | inl e => inl e
          | inr first_date =>
              match subscript_last dates with
              | inl e => inl e
              | inr last_date =>
                  inr (ETAnalysis.mk
                         total_et_mm mean_monthly_et_mm max_et min_et peak_month
                         total_et_inches growing_season_et_mm growing_season_et_inches
                         (length et_values)
                         (strftime first_date) (strftime last_date)
                         (yearly_totals_mm pairs)
                         (round_seasons (seasonal_totals pairs))
                         (fst trend) (snd trend)
                         (ETAnalysis.mk_variability std_dev cv (classify_consistency cv))
                         (fst water) (snd water))
              end
          end
      end
  end.

(** [None] is the empty dict [{}]. *)
Definition _analyze_et_data (data_points : list (gmap string pyval))
    : M (option ETAnalysis.t) :=
  match data_points with
  | [] => ret None
  | _ =>
      collected <- collect_et data_points [] [] ;;
      match fst collected with
      | [] => ret None
      | _ =>
          analysis <- lift (et_statistics (fst collected) (snd collected)) ;;
          ret (Some analysis)
      end
  end.

(** *** [_generate_vegetation_summary] *)

Definition ndvi_values_of (data_points : list (gmap string pyval)) : list pyval :=
  omap (fun point : gmap string pyval =>
          match point !! "NDVI" with
          | Some v => if is_not_None v then Some v else None
          | None => None
          end) data_points.

Definition classify_vigor (mean_ndvi : Q) : string :=
  if Qltb mean_ndvi (2 # 10) then "Sparse or no vegetation"
  else if Qltb mean_ndvi (4 # 10) then "Low vegetation"
  else if Qltb mean_ndvi (6 # 10) then "Moderate vegetation"
  else if Qltb mean_ndvi (8 # 10) then "Healthy vegetation"
  else "Very healthy/dense vegetation".

Definition _generate_vegetation_summary (data_points : list (gmap string pyval))
    : exn + option VegetationSummary.t :=
  match data_points with
  | [] => inr None
  | _ =>
      match ndvi_values_of data_points with
      | [] => inr None
      | ndvi_values =>
          match np_array ndvi_values with
          | inl e => inl e
          | inr ndvi_array =>
              let mean_ndvi := round_nd 3 (np_mean ndvi_array) in
              inr (Some (VegetationSummary.mk
                     (length ndvi_values)
                     mean_ndvi
                     (round_nd 3 (np_max ndvi_array))
                     (round_nd 3 (np_min ndvi_array))
                     (round_sqrt_nd 3 (np_var ndvi_array))
                     (classify_vigor mean_ndvi)
                     ["OpenET"]))
          end
      end
  end.

(** *** [process_response] *)

Definition process_response (float_repr : Q -> string) (raw_ndvi raw_et : payload)
    (location : string) : M Report.t :=
  ndvi_data <- _extract_variable_data float_repr raw_ndvi "ndvi" location ;;
  et_data <- _extract_variable_data float_repr raw_et "et" location ;;
  et_analysis <- _analyze_et_data (Extracted.data_points et_data) ;;
  vegetation_summary <-
    lift (_generate_vegetation_summary (Extracted.data_points ndvi_data)) ;;
  ret (Report.mk ndvi_data et_data et_analysis vegetation_summary).

End OpenETDataProcessor.


Import OpenETDataProcessor.

(* ===================================================================== *)
(** ** Vocabulary of the statements *)
(* ===================================================================== *)

(** The ET value a data point carries: the key is present and not null. *)
Definition et_value_of (point : gmap string pyval) : option pyval :=
  match point !! "ET" with
  | Some v => if is_not_None v then Some v else None
  | None => None
  end.

Definition et_values_of (data_points : list (gmap string pyval)) : list pyval :=
  omap et_value_of data_points.

(** The calendar date of a data point, when its [date] is a string that
    parses. *)
Definition date_of (point : gmap string pyval) : option datetime :=
  match point !! "date" with
  | Some (PStr s) => strptime s
  | _ => None
  end.

(** A data point is well dated when it carries no ET value or its date
    parses; an observation is a data point with an ET value. *)
Definition well_dated (point : gmap string pyval) : bool :=
  match et_value_of point with
  | None => true
  | Some _ => match date_of point with Some _ => true | None => false end
  end.

Definition dates_of (data_points : list (gmap string pyval)) : list datetime :=
  omap (fun point => match et_value_of point with
                     | Some _ => date_of point
                     | None => None
                     end) data_points.

Definition numeric (v : pyval) : bool :=
  match as_number v with Some _ => true | None => false end.

(** The data point [{'date': d, 'ET': v}]. *)
Definition et_point (d : string) (v : pyval) : gmap string pyval :=
  <["ET" := v]> (<["date" := PStr d]> ∅).

(** The extractor keeps an item when its [time] is truthy and its value
    is not null. *)
Definition kept (variable : string) (item : gmap string pyval) : bool :=
  truthy (dict_get item "time") && is_not_None (dict_get item (lower variable)).

Definition to_point (variable : string) (item : gmap string pyval) : gmap string pyval :=
  data_point variable (dict_get item "time") (dict_get item (lower variable)).

(** The squared error of the line [a * x + b] on the points [(x_i, y_i)]. *)
Definition squared_error (a b : Q) (x y : list Q) : Q :=
  np_sum (map (fun p => (snd p - (a * fst p + b)) * (snd p - (a * fst p + b))) (combine x y)).

(** The classification of the analysis made for one observation of the
    given ET value. *)
Definition water_use_of_single (et : Q) : option string :=
  match fst (_analyze_et_data [et_point "2021-06-01" (PFloat et)] []) with
  | inr (Some r) => Some (ETAnalysis.water_use_classification r)
  | _ => None
  end.

(** The data point [{'date': d, 'NDVI': v}]. *)
Definition ndvi_point (d : string) (v : pyval) : gmap string pyval :=
  <["NDVI" := v]> (<["date" := PStr d]> ∅).

(** The vigor class of the summary made for one observation of the given
    NDVI value. *)
Definition vigor_of_single (ndvi : Q) : option string :=
  match _generate_vegetation_summary [ndvi_point "2021-06-01" (PFloat ndvi)] with
  | inr (Some r) => Some (VegetationSummary.vigor_classification r)
  | _ => None
  end.

(** [m], at index [k], is the first maximum of [a]. *)
Definition first_maximum (a : list Q) (k : nat) (m : Q) : Prop :=
  a !! k = Some m /\
  (forall y, In y a -> y <= m) /\
  (forall j y, (j < k)%nat -> a !! j = Some y -> y < m).

(** The parts of a successful [et_statistics]. *)
Ltac stats_inv H :=
  unfold et_statistics in H;
  let a := fresh "et_array" in
  let Ha := fresh "Harray" in
  let Hp := fresh "Hpeak" in
  destruct (np_array _) as [?|a] eqn:Ha; [discriminate|];
  destruct (subscript _ (np_argmax a)) as [?|?peak_date] eqn:Hp; [discriminate|];
  destruct (subscript _ 0) as [?|?first_date]; [discriminate|];
  destruct (subscript_last _) as [?|?last_date]; [discriminate|];
  injection H as <-.

(* ===================================================================== *)
(** ** Vocabulary of the further properties *)
(* ===================================================================== *)

(** The message the extractor logs for a payload that is no list. *)
Definition unexpected_format (variable : string) (raw : payload) : log_record :=
  (ERROR, "Unexpected data format for " +:+ variable +:+
          ". Expected list, got " +:+ payload_type_repr raw).

(** A kept item whose [time] is a string that parses. *)
Definition time_parses (item : gmap string pyval) : bool :=
  match dict_get item "time" with
  | PStr s => match strptime s with Some _ => true | None => false end
  | _ => false
  end.

(** The records of a payload: none when it is no list. *)
Definition records (raw : payload) : list (gmap string pyval) :=
  match raw with
  | Records items => items
  | _ => []
  end.

(** The values of the kept items of a list. *)
Definition kept_values (variable : string) (items : list (gmap string pyval)) : list pyval :=
  map (fun item => dict_get item (lower variable)) (List.filter (kept variable) items).






(** The sum of the values dated in the year [y]. *)
Definition year_sum (y : Z) (pairs : list (datetime * Q)) : Q :=
  np_sum (map snd (List.filter (fun p => (year (fst p) =? y)%Z) pairs)).

(** The values [c], [c + b], [c + 2 b], ... *)
Definition arithmetic_series (c b : Q) (n : nat) : list Q :=
  map (fun i => c + b * inject_Z (Z.of_nat i)) (seq 0 n).


(* ===================================================================== *)
(** ** JSON values, as the polygon field receives them *)
(* ===================================================================== *)

(** What [JSONField] hands to [validate_polygon]: any JSON value. A JSON
    [true] or [false] is a Python [bool], which is an [int] for
    [isinstance]. *)
#[local] Set Warnings "-register-all".
Inductive json :=
| JNull
| JBool (b : bool)
| JInt (z : Z)
| JFloat (q : Q)
| JStr (s : string)
| JList (l : list json)
| JObject (d : gmap string json).
#[local] Set Warnings "register-all".

(** [bool(v)] *)
Definition json_truthy (v : json) : bool :=
  match v with
  | JNull => false
  | JBool b => b
  | JInt z => negb (Z.eqb z 0)
  | JFloat q => negb (Qeq_bool q 0)
  | JStr EmptyString => false
  | JStr _ => true
  | JList [] => false
  | JList _ => true
  | JObject d => negb (bool_decide (d = ∅))
  end.

(** [isinstance(v, (int, float))] *)
Definition is_number (v : json) : bool :=
  match v with
  | JBool _ | JInt _ | JFloat _ => true
  | _ => false
  end.

(** [isinstance(v, list) and len(v) == 2] *)
Definition is_pair (v : json) : bool :=
  match v with
  | JList [_; _] => true
  | _ => false
  end.

(** [v == s] for a string [s] *)
Definition is_str (s : string) (v : json) : bool :=
  match v with
  | JStr s' => String.eqb s' s
  | _ => false
  end.

(** [d.get(k)] *)
Definition json_get (d : gmap string json) (k : string) : json :=
  default JNull (d !! k).

(* ===================================================================== *)
(** ** [PolygonQuerySerializer] *)
(* ===================================================================== *)

Module PolygonQuerySerializer.

(** The detail of a [serializers.ValidationError]: its text, with the
    value an f-string inserts kept as a value. *)
Inductive detail :=
| Message (text : string)
| UnsupportedGeoJSONType (geojson_type : json)
| UnsupportedGeometryType (geom_type : json).

Inductive error :=
| ValidationError (d : detail)
| TypeError
| KeyError
| IndexError.

(** [len(v)]: defined on lists, strings and dicts. *)
Definition len (v : json) : error + nat :=
  match v with
  | JList l => inr (length l)
  | JStr s => inr (String.length s)
  | JObject d => inr (size d)
  | _ => inl TypeError
  end.

(** [v[0]]: the first element of a list, the first character of a
    string; a dict of a JSON object has no key [0]. *)
Definition first_item (v : json) : error + json :=
  match v with
  | JList (x :: _) => inr x
  | JStr (String c _) => inr (JStr (String c EmptyString))
  | JList [] | JStr EmptyString => inl IndexError
  | JObject _ => inl KeyError
  | _ => inl TypeError
  end.

Definition _extract_coordinates_from_geometry (geometry : json)
    : error + option (list json) :=
  match geometry with
  | JObject g =>
      let geom_type := json_get g "type" in
      if negb (is_str "Polygon" geom_type)
      then inl (ValidationError (UnsupportedGeometryType geom_type))
      else
        match json_get g "coordinates" with
        | JList (outer_ring :: _) =>
            match outer_ring with
            | JList ring => inr (Some ring)
            | _ => inl (ValidationError (Message "Invalid Polygon outer ring"))
            end
        | _ => inl (ValidationError (Message "Invalid Polygon coordinates"))
        end
  | _ => inr None
  end.

Definition _extract_coordinates_from_geojson (geojson : gmap string json)
    : error + option (list json) :=
  let geojson_type := json_get geojson "type" in
  if is_str "FeatureCollection" geojson_type then
    let features := default (JList []) (geojson !! "features") in
    if negb (json_truthy features)
    then inl (ValidationError (Message "FeatureCollection has no features"))
    else
      match len features with
      | inl e => inl e
      | inr n =>
          if (1 <? n)%nat
          then inl (ValidationError (Message
                 "FeatureCollection contains multiple features. Only single polygon supported."))
          else
            match first_item features with
            | inl e => inl e
            | inr (JObject feature) =>
                if negb (is_str "Feature" (json_get feature "type"))
                then inl (ValidationError (Message "FeatureCollection item is not a Feature"))
                else
                  let geometry := json_get feature "geometry" in
                  if negb (json_truthy geometry)
                  then inl (ValidationError (Message "Feature has no geometry"))
                  else _extract_coordinates_from_geometry geometry
            | inr _ => inl (ValidationError (Message "Invalid feature in FeatureCollection"))
            end
      end
  else if is_str "Feature" geojson_type then
    let geometry := json_get geojson "geometry" in
    if negb (json_truthy geometry)
    then inl (ValidationError (Message "Feature has no geometry"))
    else _extract_coordinates_from_geometry geometry
  else if is_str "Polygon" geojson_type then
    _extract_coordinates_from_geometry (JObject geojson)
  else inl (ValidationError (UnsupportedGeoJSONType geojson_type)).

(** The loop over the coordinates of a GeoJSON ring: longitude and
    latitude of each position, whatever follows them. *)
Fixpoint flatten_ring (coords : list json) (flat_array : list json)
    : error + list json :=
  match coords with
  | [] => inr flat_array
  | JList (lon :: lat :: _) :: rest => flatten_ring rest (flat_array ++ [lon; lat])
  | _ :: _ => inl (ValidationError (Message "Invalid coordinate in GeoJSON"))
  end.

(** The loop [flat_array.extend(coord)] over a list of pairs. *)
Definition flatten_pairs (value : list json) : list json :=
  flat_map (fun coord => match coord with JList l => l | _ => [] end) value.

Definition validate_polygon (value : json) : error + list json :=
  match value with
  | JList ((_ :: _) as items) =>
      if forallb is_number items then
        if (length items <? 6)%nat
        then inl (ValidationError (Message
               "Polygon must have at least 3 coordinate pairs (6 values)"))
        else if negb (Nat.eqb (length items mod 2) 0)
        then inl (ValidationError (Message
               "Polygon array must have an even number of values (lon/lat pairs)"))
        else inr items
      else if forallb is_pair items then
        if (length items <? 3)%nat
        then inl (ValidationError (Message "Polygon must have at least 3 coordinate pairs"))
        else inr (flatten_pairs items)
      else inl (ValidationError (Message
             "Invalid polygon format. Expected flat array or array of coordinate pairs"))
  | JObject geojson =>
      match _extract_coordinates_from_geojson geojson with
      | inl e => inl e
      | inr None =>
          inl (ValidationError (Message
            "Could not extract valid polygon coordinates from GeoJSON"))
      | inr (Some coords) =>
          if (length coords <? 3)%nat
          then inl (ValidationError (Message "Polygon must have at least 3 coordinate pairs"))
          else flatten_ring coords []
      end
  | _ => inl (ValidationError (Message "Polygon must be an array or GeoJSON object"))
  end.

End PolygonQuerySerializer.

(** A position of a ring: longitude, latitude and what follows them. *)
Definition position (p : json * json * list json) : json :=
  JList (fst (fst p) :: snd (fst p) :: snd p).

Definition lon_lat (p : json * json * list json) : list json :=
  [fst (fst p); snd (fst p)].

(** A GeoJSON Polygon: an object of that type with the given rings. *)
Definition is_polygon (g : gmap string json) (rings : list json) : Prop :=
  g !! "type" = Some (JStr "Polygon") /\ g !! "coordinates" = Some (JList rings).

(** A GeoJSON Feature with the given geometry. *)
Definition is_feature (f : gmap string json) (geometry : json) : Prop :=
  f !! "type" = Some (JStr "Feature") /\ f !! "geometry" = Some geometry.

(** A position of exactly two entries. *)
Definition two_entries (p : json * json * list json) : bool :=
  match snd p with [] => true | _ => false end.

(** The one place where something else than a [ValidationError] leaves
    [_extract_coordinates_from_geojson]: the [features] of a
    FeatureCollection. *)
Definition features_raise (e : PolygonQuerySerializer.error) (features : json) : Prop :=
  (e = PolygonQuerySerializer.TypeError /\
   is_number features = true /\ json_truthy features = true) \/
  (e = PolygonQuerySerializer.KeyError /\
   exists d, features = JObject d /\ size d = 1%nat).

(* ===================================================================== *)
(** ** The collecting loop of the analyzer *)
(* ===================================================================== *)

Lemma collect_et_cons point rest et_values dates :
  collect_et (point :: rest) et_values dates =
  match point !! "ET" with
  | Some et =>
      if is_not_None et then
        bind (lift (dict_subscript point "date")) (fun date =>
          match date with
          | PStr s =>
              match strptime s with
              | Some d => collect_et rest (et_values ++ [et]) (dates ++ [d])
              | None =>
                  bind (logger WARNING ("Invalid date format: " +:+ s))
                       (fun _ => collect_et rest (et_values ++ [et]) dates)
              end
          | _ => raise TypeError
          end)
      else collect_et rest et_values dates
  | None => collect_et rest et_values dates
  end.
Proof. reflexivity. Qed.

Lemma et_values_of_cons point rest :
  et_values_of (point :: rest) =
  match et_value_of point with
  | Some v => v :: et_values_of rest
  | None => et_values_of rest
  end.
Proof. reflexivity. Qed.

(** Whatever the dates are, the loop collects every non-null ET value. *)
Lemma collect_et_values data_points :
  forall et_values dates log et_values' dates' log',
    collect_et data_points et_values dates log = (inr (et_values', dates'), log') ->
    et_values' = et_values ++ et_values_of data_points.
Proof.
  induction data_points as [|point rest IH]; intros ev ds log ev' ds' log' H.
  - cbn in H. injection H as <- _ _. now rewrite app_nil_r.
  - rewrite collect_et_cons in H. rewrite et_values_of_cons. unfold et_value_of.
    destruct (point !! "ET") as [et|]; [destruct (is_not_None et)|]; try (now apply IH in H).
    unfold bind, lift in H.
    destruct (dict_subscript point "date") as [e|date]; [discriminate|].
    destruct date as [| | |s]; try discriminate.
    destruct (strptime s).
    + apply IH in H. now rewrite H, <- app_assoc.
    + unfold logger in H. apply IH in H. now rewrite H, <- app_assoc.
Qed.

(** Data points without an ET value leave the lists and the log alone. *)
Lemma collect_et_none data_points :
  forall et_values dates log,
    et_values_of data_points = [] ->
    collect_et data_points et_values dates log = (inr (et_values, dates), log).
Proof.
  induction data_points as [|point rest IH]; intros ev ds log H; [reflexivity|].
  rewrite collect_et_cons. rewrite et_values_of_cons in H. unfold et_value_of in H.
  destruct (point !! "ET") as [et|]; [destruct (is_not_None et)|]; try discriminate; now apply IH.
Qed.

Lemma dates_of_cons point rest :
  dates_of (point :: rest) =
  match (match et_value_of point with Some _ => date_of point | None => None end) with
  | Some d => d :: dates_of rest
  | None => dates_of rest
  end.
Proof. reflexivity. Qed.

(** On well-dated data points the loop pairs every ET value with its
    date and logs nothing. *)
Lemma collect_et_well_dated data_points :
  forall et_values dates log,
    forallb well_dated data_points = true ->
    collect_et data_points et_values dates log =
    (inr (et_values ++ et_values_of data_points, dates ++ dates_of data_points), log).
Proof.
  induction data_points as [|point rest IH]; intros ev ds log H.
  - cbn. now rewrite !app_nil_r.
  - cbn [forallb] in H. apply andb_prop in H as [Hp Hrest].
    rewrite collect_et_cons, et_values_of_cons, dates_of_cons.
    unfold well_dated, date_of in Hp. unfold date_of. unfold et_value_of in *.
    destruct (point !! "ET") as [et|]; [destruct (is_not_None et)|]; try (now apply IH).
    unfold bind, lift, dict_subscript.
    destruct (point !! "date") as [[| | |s]|]; try discriminate.
    destruct (strptime s) as [d|]; [|discriminate].
    rewrite IH by assumption. now rewrite <- !app_assoc.
Qed.

Lemma dates_of_length data_points :
  forallb well_dated data_points = true ->
  length (dates_of data_points) = length (et_values_of data_points).
Proof.
  induction data_points as [|point rest IH]; intros H; [reflexivity|].
  cbn [forallb] in H. apply andb_prop in H as [Hp Hrest].
  rewrite et_values_of_cons, dates_of_cons. unfold well_dated in Hp.
  destruct (et_value_of point); [|now apply IH].
  destruct (date_of point); [|discriminate]. cbn. now rewrite IH.
Qed.

(* ===================================================================== *)
(** ** Rounding *)
(* ===================================================================== *)

(** [rint] returns an integer nearest to its argument. *)
Lemma rint_nearest (q : Q) : Qabs (q - inject_Z (rint q)) <= 1 # 2.
Proof.
  pose proof (Qfloor_le q) as Hlo. pose proof (Qlt_floor q) as Hhi.
  unfold rint. set (f := Qfloor q) in *.
  rewrite inject_Z_plus in Hhi. change (inject_Z 1) with 1 in Hhi.
  apply Qabs_Qle_condition.
  destruct (2 * (q - inject_Z f) ?= 1) eqn:E.
  - apply Qeq_alt in E. destruct (Z.even f).
    + lra.
    + rewrite inject_Z_plus. change (inject_Z 1) with 1. lra.
  - apply Qlt_alt in E. lra.
  - apply Qgt_alt in E. rewrite inject_Z_plus. change (inject_Z 1) with 1. lra.
Qed.

(** A whole number is its own rounding. *)
Lemma rint_inject_Z (z : Z) : rint (inject_Z z) = z.
Proof.
  unfold rint. rewrite Qfloor_Z.
  replace (2 * (inject_Z z - inject_Z z) ?= 1) with Lt; [reflexivity|].
  symmetry. apply Qlt_alt.
  setoid_replace (2 * (inject_Z z - inject_Z z)) with 0 using relation Qeq by ring.
  reflexivity.
Qed.

(** [rint_sqrt q] is an integer nearest to the square root of [q]: the
    square root lies within one half of it. *)
Lemma rint_sqrt_nearest (q : Q) :
  0 <= q ->
  let k := inject_Z (rint_sqrt q) in
  0 <= k /\
  q <= (k + (1 # 2)) * (k + (1 # 2)) /\
  (1 <= k -> (k - (1 # 2)) * (k - (1 # 2)) <= q).
Proof.
  intros Hq. cbv zeta. unfold rint_sqrt.
  pose proof (Qfloor_le q) as Hlo. pose proof (Qlt_floor q) as Hhi.
  assert (Hn : (0 <= Qfloor q)%Z).
  { change 0%Z with (Qfloor 0). now apply Qfloor_resp_le. }
  destruct (Z.sqrt_spec (Qfloor q) Hn) as [Hs1 Hs2].
  pose proof (Z.sqrt_nonneg (Qfloor q)) as Hm.
  set (n := Qfloor q) in *. set (m := Z.sqrt n) in *.
  assert (Hm' : 0 <= inject_Z m) by (change 0 with (inject_Z 0); now rewrite <- Zle_Qle).
  assert (H1 : inject_Z m * inject_Z m <= q).
  { apply Qle_trans with (inject_Z n); [|exact Hlo].
    rewrite <- inject_Z_mult, <- Zle_Qle. exact Hs1. }
  assert (H2 : q < (inject_Z m + 1) * (inject_Z m + 1)).
  { apply Qlt_le_trans with (inject_Z (n + 1)); [exact Hhi|].
    change 1 with (inject_Z 1). rewrite <- inject_Z_plus, <- inject_Z_mult, <- Zle_Qle.
    unfold Z.succ in Hs2. lia. }
  destruct (q ?= (inject_Z m + (1 # 2)) * (inject_Z m + (1 # 2))) eqn:E.
  - apply Qeq_alt in E. destruct (Z.even m).
    + repeat split; [exact Hm'|nra|intros; nra].
    + rewrite inject_Z_plus. change (inject_Z 1) with 1.
      repeat split; [lra|nra|intros; nra].
  - apply Qlt_alt in E. repeat split; [exact Hm'|nra|intros; nra].
  - apply Qgt_alt in E. rewrite inject_Z_plus. change (inject_Z 1) with 1.
    repeat split; [lra|nra|intros; nra].
Qed.

(* ===================================================================== *)
(** ** Arrays and [np.argmax] *)
(* ===================================================================== *)

Lemma Qltb_lt x y : Qltb x y = true <-> x < y.
Proof.
  unfold Qltb. rewrite negb_true_iff. split.
  - intros H. apply Qnot_le_lt. intros Hle. apply Qle_bool_iff in Hle. congruence.
  - intros H. destruct (Qle_bool y x) eqn:E; [|reflexivity].
    apply Qle_bool_iff in E. exfalso. exact (Qlt_not_le _ _ H E).
Qed.

Lemma Qltb_ge x y : Qltb x y = false <-> y <= x.
Proof.
  unfold Qltb. rewrite negb_false_iff. apply Qle_bool_iff.
Qed.


Lemma np_array_length values : forall a, np_array values = inr a -> length a = length values.
Proof.
  induction values as [|v t IH]; intros a H; cbn in H.
  - now injection H as <-.
  - destruct (as_number v); [|discriminate].
    destruct (np_array t) as [e|a']; [discriminate|].
    injection H as <-. cbn. now rewrite (IH a').
Qed.

Lemma np_array_numeric values :
  forallb numeric values = true -> exists a, np_array values = inr a.
Proof.
  induction values as [|v t IH]; intros H; cbn in *; [now exists []|].
  apply andb_prop in H as [Hv Ht]. unfold numeric in Hv.
  destruct (as_number v) as [q|]; [|discriminate].
  destruct (IH Ht) as [a ->]. now exists (q :: a).
Qed.

Lemma argmax_from_lt a : forall best best_idx idx,
  (best_idx < idx)%nat -> (argmax_from best best_idx idx a < idx + length a)%nat.
Proof.
  induction a as [|x t IH]; intros best bi i Hlt; cbn [argmax_from length].
  - lia.
  - destruct (Qltb best x).
    + specialize (IH x i (S i)). lia.
    + specialize (IH best bi (S i)). lia.
Qed.

Lemma np_argmax_lt a : a <> [] -> (np_argmax a < length a)%nat.
Proof.
  destruct a as [|x t]; [congruence|]. intros _. unfold np_argmax.
  pose proof (argmax_from_lt t x 0%nat 1%nat). cbn [length]. lia.
Qed.

Lemma argmax_from_first_maximum t : forall (p : list Q) best best_idx,
  first_maximum p best_idx best ->
  exists m, first_maximum (p ++ t) (argmax_from best best_idx (length p) t) m.
Proof.
  induction t as [|x t IH]; intros p best bi (Hb & Hmax & Hfirst).
  - exists best. rewrite app_nil_r. now repeat split.
  - cbn [argmax_from].
    replace (p ++ x :: t) with ((p ++ [x]) ++ t) by now rewrite <- app_assoc.
    replace (S (length p)) with (length (p ++ [x])) by (rewrite length_app; cbn; lia).
    destruct (Qltb best x) eqn:E.
    + apply Qltb_lt in E. apply IH. repeat split.
      * rewrite lookup_app_r by lia. now rewrite Nat.sub_diag.
      * intros y Hy. apply in_app_or in Hy as [Hy|[<-|[]]]; [|lra].
        specialize (Hmax y Hy). lra.
      * intros j y Hj Hy. rewrite lookup_app_l in Hy by assumption.
        apply list_elem_of_lookup_2, list_elem_of_In in Hy. specialize (Hmax y Hy). lra.
    + apply Qltb_ge in E. apply IH. repeat split.
      * rewrite lookup_app_l; [assumption|]. now apply lookup_lt_Some in Hb.
      * intros y Hy. apply in_app_or in Hy as [Hy|[<-|[]]]; [now apply Hmax|assumption].
      * intros j y Hj Hy. apply lookup_lt_Some in Hb.
        rewrite lookup_app_l in Hy by lia. now apply (Hfirst j).
Qed.

(** [np.argmax] points at the first maximum. *)
Lemma np_argmax_first_maximum a :
  a <> [] -> exists m, first_maximum a (np_argmax a) m.
Proof.
  destruct a as [|x t]; [congruence|]. intros _. unfold np_argmax.
  apply (argmax_from_first_maximum t [x] x 0%nat). repeat split.
  - intros y [<-|[]]. lra.
  - intros j y Hj. lia.
Qed.

(* ===================================================================== *)
(** ** The analyzer, taken apart *)
(* ===================================================================== *)

(** A returned analysis was computed by [et_statistics] from every
    non-null ET value of the input, in input order. *)
Lemma analyze_inv data_points log r log' :
  _analyze_et_data data_points log = (inr (Some r), log') ->
  exists dates,
    collect_et data_points [] [] log = (inr (et_values_of data_points, dates), log') /\
    et_values_of data_points <> [] /\
    et_statistics (et_values_of data_points) dates = inr r.
Proof.
  unfold _analyze_et_data. destruct data_points as [|p rest]; [discriminate|].
  unfold bind. destruct (collect_et (p :: rest) [] [] log) as [[e|[ev ds]] l] eqn:Hc; [discriminate|].
  pose proof (collect_et_values _ _ _ _ _ _ _ Hc) as Hev. cbn [app] in Hev. subst ev.
  cbn [fst snd]. destruct (et_values_of (p :: rest)) as [|v vs] eqn:Hvs; [discriminate|].
  unfold lift, ret. destruct (et_statistics (v :: vs) ds) as [e|r'] eqn:Hs; [discriminate|].
  intros H. injection H as -> ->. exists ds. repeat split; congruence.
Qed.

(** The statistics succeed with a date for every value. *)
Lemma et_statistics_total et_values dates :
  forallb numeric et_values = true ->
  et_values <> [] ->
  length dates = length et_values ->
  exists r, et_statistics et_values dates = inr r.
Proof.
  intros Hnum Hne Hlen. unfold et_statistics.
  destruct (np_array_numeric _ Hnum) as [a Ha]. rewrite Ha.
  pose proof (np_array_length _ _ Ha) as Hla.
  assert (Hane : a <> []) by (destruct a, et_values; cbn in *; congruence).
  pose proof (np_argmax_lt a Hane) as Hidx.
  unfold subscript, subscript_last.
  destruct (lookup_lt_is_Some_2 dates (np_argmax a)) as [d ->]; [lia|].
  destruct (lookup_lt_is_Some_2 dates 0%nat) as [d0 ->];
    [destruct et_values; cbn in *; [congruence|lia]|].
  destruct (last dates) as [dl|] eqn:Hl.
  - eauto.
  - apply last_None in Hl. subst dates. destruct et_values; cbn in *; congruence.
Qed.

(** On well-dated data points with numeric ET values, at least one of
    them, the analyzer returns an analysis, raises nothing and logs
    nothing. *)
Lemma analyze_well_dated data_points log :
  forallb well_dated data_points = true ->
  forallb numeric (et_values_of data_points) = true ->
  et_values_of data_points <> [] ->
  exists r,
    _analyze_et_data data_points log = (inr (Some r), log) /\
    et_statistics (et_values_of data_points) (dates_of data_points) = inr r.
Proof.
  intros Hwd Hnum Hne.
  destruct (et_statistics_total (et_values_of data_points) (dates_of data_points))
    as [r Hr]; auto using dates_of_length.
  exists r. split; [|assumption].
  unfold _analyze_et_data. destruct data_points as [|p rest]; [now cbn in Hne|].
  unfold bind. rewrite (collect_et_well_dated _ [] [] log Hwd). cbn [app fst snd].
  destruct (et_values_of (p :: rest)) as [|v vs] eqn:Hvs; [congruence|].
  unfold lift, ret. now rewrite Hr.
Qed.

(** With well-dated data points the peak month is the date of the first
    maximal ET value: the dates and the values are those of the
    observations, position by position. *)
Lemma peak_month_when_well_dated data_points log :
  forallb well_dated data_points = true ->
  forallb numeric (et_values_of data_points) = true ->
  et_values_of data_points <> [] ->
  exists r et_array d m,
    _analyze_et_data data_points log = (inr (Some r), log) /\
    np_array (et_values_of data_points) = inr et_array /\
    first_maximum et_array (np_argmax et_array) m /\
    dates_of data_points !! np_argmax et_array = Some d /\
    ETAnalysis.peak_et_month r = strftime d.
Proof.
  intros Hwd Hnum Hne.
  destruct (analyze_well_dated data_points log Hwd Hnum Hne) as (r & Hr & Hs).
  stats_inv Hs. unfold subscript in Hpeak.
  destruct (dates_of data_points !! np_argmax et_array) as [d|] eqn:Hd; [|discriminate].
  injection Hpeak as ->.
  assert (Hane : et_array <> []).
  { pose proof (np_array_length _ _ Harray).
    destruct et_array, (et_values_of data_points); cbn in *; congruence. }
  destruct (np_argmax_first_maximum et_array Hane) as [m Hm].
  eexists _, et_array, peak_date, m.
  split; [exact Hr|]. split; [reflexivity|]. split; [exact Hm|]. split; [exact Hd|reflexivity].
Qed.

(* ===================================================================== *)
(** ** Unparseable dates *)
(* ===================================================================== *)

(** C1 (defect of the code). A data point whose date does not parse is
    meant to be skipped with a warning. The loop appends its ET value
    before it parses the date, so the value stays: alone, it leaves
    [dates] empty and the lookup of the peak date raises [IndexError];
    after a well-dated point, it is counted in [observations] and summed
    into [total_et_mm]. The warning is logged in both runs. *)
Theorem unparseable_date_keeps_et_value :
  _analyze_et_data [et_point "2021-13-45" (PInt 10)] [] =
    (inl IndexError, [(WARNING, "Invalid date format: 2021-13-45")]) /\
  exists r,
    _analyze_et_data
      [et_point "2021-01-01" (PInt 5); et_point "2021-13-45" (PInt 1)] [] =
      (inr (Some r), [(WARNING, "Invalid date format: 2021-13-45")]) /\
    ETAnalysis.observations r = 2%nat /\
    ETAnalysis.total_et_mm r = 6%Z /\
    ETAnalysis.min_monthly_et_mm r = 1%Z.
Proof.
  split; [vm_compute; reflexivity|].
  eexists. split; [vm_compute; reflexivity|]. repeat split.
Qed.

(** C3 (defect of the code). The peak month is meant to be the date of
    the first maximal ET value. After a data point whose date does not
    parse, values and dates are paired one position apart: here the
    maximum 5 is observed on 2021-01-01 and the analyzer names
    2021-02-01, the date of the value 0. *)
Theorem peak_month_shifted_by_unparseable_date :
  exists r,
    _analyze_et_data
      [et_point "2021-13-45" (PInt 1); et_point "2021-01-01" (PInt 5);
       et_point "2021-02-01" (PInt 0)] [] =
      (inr (Some r), [(WARNING, "Invalid date format: 2021-13-45")]) /\
    ETAnalysis.max_monthly_et_mm r = 5%Z /\
    ETAnalysis.peak_et_month r = "2021-02-01".
Proof.
  eexists. split; [vm_compute; reflexivity|]. split; reflexivity.
Qed.

(* ===================================================================== *)
(** ** Empty input *)
(* ===================================================================== *)

(** C2. The ET analyzer and the vegetation summarizer return the empty
    structure, raise nothing and log nothing, on the empty sequence and on
    a sequence none of whose data points carries a non-null value. *)
Theorem empty_input_gives_empty_structure :
  (forall log, _analyze_et_data [] log = (inr None, log)) /\
  _generate_vegetation_summary [] = inr None /\
  (forall data_points log,
      et_values_of data_points = [] ->
      _analyze_et_data data_points log = (inr None, log)) /\
  (forall data_points,
      ndvi_values_of data_points = [] ->
      _generate_vegetation_summary data_points = inr None).
Proof.
  repeat split.
  - intros data_points log H. unfold _analyze_et_data.
    destruct data_points as [|p rest]; [reflexivity|].
    unfold bind. rewrite (collect_et_none _ [] [] log H). reflexivity.
  - intros data_points H. unfold _generate_vegetation_summary.
    destruct data_points; [reflexivity|]. now rewrite H.
Qed.

Lemma empty_input_gives_empty_structure_witness :
  let data_points : list (gmap string pyval) :=
    [ {[ "date" := PStr "2021-01-01" ]};
      {[ "date" := PStr "2021-02-01"; "ET" := PNone; "NDVI" := PNone ]} ] in
  et_values_of data_points = [] /\
  ndvi_values_of data_points = [] /\
  _analyze_et_data data_points [] = (inr None, []) /\
  _generate_vegetation_summary data_points = inr None.
Proof.
  cbv zeta.
  assert (He : et_values_of
                 [ {[ "date" := PStr "2021-01-01" ]};
                   {[ "date" := PStr "2021-02-01"; "ET" := PNone; "NDVI" := PNone ]} ] = [])
    by (vm_compute; reflexivity).
  assert (Hn : ndvi_values_of
                 [ {[ "date" := PStr "2021-01-01" ]};
                   {[ "date" := PStr "2021-02-01"; "ET" := PNone; "NDVI" := PNone ]} ] = [])
    by (vm_compute; reflexivity).
  split; [exact He|]. split; [exact Hn|]. split.
  - exact (proj1 (proj2 (proj2 empty_input_gives_empty_structure)) _ [] He).
  - exact (proj2 (proj2 (proj2 empty_input_gives_empty_structure)) _ Hn).
Defined.

(* ===================================================================== *)
(** ** Seasons *)
(* ===================================================================== *)

(** A value added to the winter bucket stays there while the loop runs on. *)
Lemma seasonal_fold_shift pairs : forall (s s' : seasonal Q) (v : Q),
  winter s' == winter s + v -> spring s' = spring s ->
  summer s' = summer s -> fall s' = fall s ->
  winter (fold_left add_season pairs s') == winter (fold_left add_season pairs s) + v /\
  spring (fold_left add_season pairs s') = spring (fold_left add_season pairs s) /\
  summer (fold_left add_season pairs s') = summer (fold_left add_season pairs s) /\
  fall (fold_left add_season pairs s') = fall (fold_left add_season pairs s).
Proof.
  induction pairs as [|p t IH]; intros s s' v Hw Hsp Hsu Hfa; cbn [fold_left].
  - auto.
  - apply IH; unfold add_season;
      (destruct (mem_Z (month (fst p)) [12; 1; 2]%Z);
       [| destruct (mem_Z (month (fst p)) [3; 4; 5]%Z);
          [| destruct (mem_Z (month (fst p)) [6; 7; 8]%Z)]]);
      cbn [winter spring summer fall]; try congruence; try assumption.
    rewrite Hw. ring.
Qed.

(** C4. The series January 20, April 40, July 80, October 40 of 2021 has
    total 180, growing-season total 160 and seasonal totals winter 20,
    spring 40, summer 80, fall 40; the growing season is April to October
    inclusive (March and November are left out). The seasonal totals of
    well-dated data points are those of the loop over their dates and
    values; and wherever a December observation stands in the series, its
    value is added to the winter total while the spring, summer and fall
    totals are those of the series without it. *)
Theorem seasonal_scenario_and_december :
  (exists r,
      _analyze_et_data
        [et_point "2021-01-01" (PInt 20); et_point "2021-04-01" (PInt 40);
         et_point "2021-07-01" (PInt 80); et_point "2021-10-01" (PInt 40)] [] =
        (inr (Some r), []) /\
      ETAnalysis.total_et_mm r = 180%Z /\
      ETAnalysis.growing_season_et_mm r = 160%Z /\
      ETAnalysis.seasonal_totals_mm r = mk_seasonal 20%Z 40%Z 80%Z 40%Z) /\
  (exists r,
      _analyze_et_data
        [et_point "2021-03-31" (PInt 1); et_point "2021-04-01" (PInt 2);
         et_point "2021-10-31" (PInt 4); et_point "2021-11-01" (PInt 8);
         et_point "2021-12-01" (PInt 16)] [] =
        (inr (Some r), []) /\
      ETAnalysis.growing_season_et_mm r = 6%Z /\
      ETAnalysis.seasonal_totals_mm r = mk_seasonal 16%Z 3%Z 0%Z 12%Z) /\
  (forall data_points log,
      forallb well_dated data_points = true ->
      forallb numeric (et_values_of data_points) = true ->
      et_values_of data_points <> [] ->
      exists r et_array,
        _analyze_et_data data_points log = (inr (Some r), log) /\
        np_array (et_values_of data_points) = inr et_array /\
        ETAnalysis.seasonal_totals_mm r =
          round_seasons (seasonal_totals (combine (dates_of data_points) et_array))) /\
  (forall (before after : list (datetime * Q)) (d : datetime) (v : Q),
      month d = 12%Z ->
      winter (seasonal_totals (before ++ (d, v) :: after)) ==
        winter (seasonal_totals (before ++ after)) + v /\
      spring (seasonal_totals (before ++ (d, v) :: after)) =
        spring (seasonal_totals (before ++ after)) /\
      summer (seasonal_totals (before ++ (d, v) :: after)) =
        summer (seasonal_totals (before ++ after)) /\
      fall (seasonal_totals (before ++ (d, v) :: after)) =
        fall (seasonal_totals (before ++ after))).
Proof.
  split; [|split; [|split]].
  - eexists. split; [vm_compute; reflexivity|]. repeat split.
  - eexists. split; [vm_compute; reflexivity|]. repeat split.
  - intros data_points log Hwd Hnum Hne.
    destruct (analyze_well_dated data_points log Hwd Hnum Hne) as (r & Hr & Hs).
    stats_inv Hs. eexists _, et_array. split; [exact Hr|]. split; reflexivity.
  - intros before after d v Hm. unfold seasonal_totals.
    rewrite !fold_left_app. cbn [fold_left].
    apply seasonal_fold_shift; unfold add_season; cbn [fst snd]; rewrite Hm;
      cbn; reflexivity.
Qed.

Lemma seasonal_scenario_and_december_witness :
  let d := mk_datetime 2021 12 15 in
  let before := [(mk_datetime 2021 9 1, 3)] in
  let after := [(mk_datetime 2022 1 1, 4)] in
  let data_points :=
    [et_point "2021-09-01" (PInt 3); et_point "2021-12-15" (PInt 7);
     et_point "2022-01-01" (PInt 4)] in
  month d = 12%Z /\
  winter (seasonal_totals (before ++ (d, 7) :: after)) ==
    winter (seasonal_totals (before ++ after)) + 7 /\
  fall (seasonal_totals (before ++ (d, 7) :: after)) = 3 /\
  forallb well_dated data_points = true /\
  forallb numeric (et_values_of data_points) = true /\
  et_values_of data_points <> [] /\
  exists r,
    _analyze_et_data data_points [] = (inr (Some r), []) /\
    ETAnalysis.seasonal_totals_mm r = mk_seasonal 11%Z 0%Z 0%Z 3%Z.
Proof.
  cbv zeta. split; [reflexivity|].
  destruct (proj2 (proj2 (proj2 seasonal_scenario_and_december))
              [(mk_datetime 2021 9 1, 3)] [(mk_datetime 2022 1 1, 4)]
              (mk_datetime 2021 12 15) 7 eq_refl) as (Hw & _ & _ & Hf).
  split; [exact Hw|]. split; [rewrite Hf; reflexivity|].
  set (data_points :=
         [et_point "2021-09-01" (PInt 3); et_point "2021-12-15" (PInt 7);
          et_point "2022-01-01" (PInt 4)]).
  assert (H1 : forallb well_dated data_points = true) by (vm_compute; reflexivity).
  assert (H2 : forallb numeric (et_values_of data_points) = true)
    by (vm_compute; reflexivity).
  assert (H3 : et_values_of data_points <> []) by (vm_compute; discriminate).
  split; [exact H1|]. split; [exact H2|]. split; [exact H3|].
  destruct (proj1 (proj2 (proj2 seasonal_scenario_and_december)) data_points [] H1 H2 H3)
    as (r & a & Hr & Ha & Hs).
  exists r. split; [exact Hr|]. rewrite Hs.
  vm_compute in Ha. injection Ha as <-. vm_compute. reflexivity.
Defined.

(* ===================================================================== *)
(** ** Threshold ladders *)
(* ===================================================================== *)

(** C5. In every analysis the analyzer returns, the water-use class and
    its description are fixed by strict thresholds on
    [mean_monthly_et_mm], the mean of the ET values rounded to one
    decimal: below 30 low, below 50 moderate, below 70 high, otherwise
    very high. The means 29.9, 30, 49.9, 50, 69.9, 70 classify as low,
    moderate, moderate, high, high, very high. The analyzer returns an
    analysis for all well-dated data points with numeric ET values, at
    least one of them. *)
Theorem water_use_classification_by_thresholds :
  (forall data_points log r log',
      _analyze_et_data data_points log = (inr (Some r), log') ->
      exists et_array,
        np_array (et_values_of data_points) = inr et_array /\
        ETAnalysis.mean_monthly_et_mm r = round_nd 1 (np_mean et_array) /\
        (ETAnalysis.water_use_classification r, ETAnalysis.water_use_description r) =
          classify_water_use (ETAnalysis.mean_monthly_et_mm r)) /\
  (forall m : Q,
      (m < 30 -> classify_water_use m = ("low_water_use", "Low water consumption")) /\
      (30 <= m -> m < 50 ->
       classify_water_use m = ("moderate_water_use", "Moderate water consumption")) /\
      (50 <= m -> m < 70 ->
       classify_water_use m = ("high_water_use", "High water consumption")) /\
      (70 <= m ->
       classify_water_use m =
         ("very_high_water_use", "Significantly high water consumption"))) /\
  map water_use_of_single [29.9; 30; 49.9; 50; 69.9; 70] =
    [Some "low_water_use"; Some "moderate_water_use"; Some "moderate_water_use";
     Some "high_water_use"; Some "high_water_use"; Some "very_high_water_use"] /\
  (forall data_points log,
      forallb well_dated data_points = true ->
      forallb numeric (et_values_of data_points) = true ->
      et_values_of data_points <> [] ->
      exists r, _analyze_et_data data_points log = (inr (Some r), log)).
Proof.
  split; [|split; [|split]].
  - intros data_points log r log' H.
    destruct (analyze_inv _ _ _ _ H) as (dates & _ & _ & Hs).
    stats_inv Hs. exists et_array. repeat split.
    cbn [ETAnalysis.water_use_classification ETAnalysis.water_use_description
         ETAnalysis.mean_monthly_et_mm].
    now destruct (classify_water_use _).
  - intros m. unfold classify_water_use. repeat split.
    + intros H. apply Qltb_lt in H. now rewrite H.
    + intros H1 H2. apply Qltb_ge in H1. apply Qltb_lt in H2. now rewrite H1, H2.
    + intros H1 H2. apply Qltb_ge in H1. apply Qltb_lt in H2.
      assert (H0 : Qltb m 30 = false) by (apply Qltb_ge; apply Qltb_ge in H1;
        apply Qle_trans with 50; [discriminate|assumption]).
      now rewrite H0, H1, H2.
    + intros H1.
      assert (H50 : Qltb m 50 = false)
        by (apply Qltb_ge; apply Qle_trans with 70; [discriminate|assumption]).
      assert (H30 : Qltb m 30 = false)
        by (apply Qltb_ge; apply Qle_trans with 70; [discriminate|assumption]).
      apply Qltb_ge in H1. now rewrite H30, H50, H1.
  - vm_compute. reflexivity.
  - intros data_points log Hwd Hnum Hne.
    destruct (analyze_well_dated data_points log Hwd Hnum Hne) as (r & Hr & _).
    now exists r.
Qed.

Lemma water_use_classification_by_thresholds_witness :
  let data_points :=
    [et_point "2021-06-01" (PFloat 68.2); et_point "2021-07-01" (PInt 72)] in
  forallb well_dated data_points = true /\
  forallb numeric (et_values_of data_points) = true /\
  et_values_of data_points <> [] /\
  (70 <= 70.1 -> classify_water_use 70.1 =
     ("very_high_water_use", "Significantly high water consumption")) /\
  exists r,
    _analyze_et_data data_points [] = (inr (Some r), []) /\
    (ETAnalysis.water_use_classification r, ETAnalysis.water_use_description r) =
      classify_water_use (ETAnalysis.mean_monthly_et_mm r).
Proof.
  cbv zeta.
  assert (H1 : forallb well_dated
                 [et_point "2021-06-01" (PFloat 68.2); et_point "2021-07-01" (PInt 72)] = true)
    by (vm_compute; reflexivity).
  assert (H2 : forallb numeric (et_values_of
                 [et_point "2021-06-01" (PFloat 68.2); et_point "2021-07-01" (PInt 72)]) = true)
    by (vm_compute; reflexivity).
  assert (H3 : et_values_of
                 [et_point "2021-06-01" (PFloat 68.2); et_point "2021-07-01" (PInt 72)] <> [])
    by (vm_compute; discriminate).
  split; [exact H1|]. split; [exact H2|]. split; [exact H3|]. split.
  - exact (proj2 (proj2 (proj2 (proj1 (proj2 water_use_classification_by_thresholds) 70.1)))).
  - destruct (proj2 (proj2 (proj2 water_use_classification_by_thresholds)) _ [] H1 H2 H3)
      as [r Hr].
    exists r. split; [exact Hr|].
    destruct (proj1 water_use_classification_by_thresholds _ _ _ _ Hr) as (a & _ & _ & Hc).
    exact Hc.
Defined.

(** C7. In every summary the vegetation summarizer returns, the vigor
    class is fixed by strict thresholds on [mean_ndvi], the mean of the
    NDVI values rounded to three decimals: below 0.2 sparse, below 0.4
    low, below 0.6 moderate, below 0.8 healthy, otherwise very healthy.
    The means 0.19, 0.2, 0.39, 0.4, 0.59, 0.6, 0.79, 0.8 classify as
    sparse, low, low, moderate, moderate, healthy, healthy, very healthy.
    The summarizer returns a summary whenever the NDVI values are numbers
    and there is at least one. *)
Theorem vigor_classification_by_thresholds :
  (forall data_points r,
      _generate_vegetation_summary data_points = inr (Some r) ->
      exists ndvi_array,
        np_array (ndvi_values_of data_points) = inr ndvi_array /\
        VegetationSummary.mean_ndvi r = round_nd 3 (np_mean ndvi_array) /\
        VegetationSummary.vigor_classification r =
          classify_vigor (VegetationSummary.mean_ndvi r)) /\
  (forall m : Q,
      (m < 0.2 -> classify_vigor m = "Sparse or no vegetation") /\
      (0.2 <= m -> m < 0.4 -> classify_vigor m = "Low vegetation") /\
      (0.4 <= m -> m < 0.6 -> classify_vigor m = "Moderate vegetation") /\
      (0.6 <= m -> m < 0.8 -> classify_vigor m = "Healthy vegetation") /\
      (0.8 <= m -> classify_vigor m = "Very healthy/dense vegetation")) /\
  map vigor_of_single [0.19; 0.2; 0.39; 0.4; 0.59; 0.6; 0.79; 0.8] =
    [Some "Sparse or no vegetation"; Some "Low vegetation"; Some "Low vegetation";
     Some "Moderate vegetation"; Some "Moderate vegetation";
     Some "Healthy vegetation"; Some "Healthy vegetation";
     Some "Very healthy/dense vegetation"] /\
  (forall data_points,
      forallb numeric (ndvi_values_of data_points) = true ->
      ndvi_values_of data_points <> [] ->
      exists r, _generate_vegetation_summary data_points = inr (Some r)).
Proof.
  split; [|split; [|split]].
  - intros data_points r H. unfold _generate_vegetation_summary in H.
    destruct data_points as [|p rest]; [discriminate|].
    destruct (ndvi_values_of (p :: rest)) as [|v vs]; [discriminate|].
    destruct (np_array (v :: vs)) as [e|a]; [discriminate|].
    injection H as <-. exists a. repeat split.
  - intros m. unfold classify_vigor.
    assert (Hge : forall x y : Q, x <= y -> Qltb m y = false -> Qltb m x = false).
    { intros x y Hxy Hy. apply Qltb_ge. apply Qltb_ge in Hy. now apply Qle_trans with y. }
    repeat split.
    + intros H. apply Qltb_lt in H. now rewrite H.
    + intros H1 H2. apply Qltb_ge in H1. apply Qltb_lt in H2. now rewrite H1, H2.
    + intros H1 H2. apply Qltb_ge in H1. apply Qltb_lt in H2.
      rewrite (Hge 0.2 0.4), H1, H2 by (assumption || discriminate). reflexivity.
    + intros H1 H2. apply Qltb_ge in H1. apply Qltb_lt in H2.
      rewrite (Hge 0.2 0.6), (Hge 0.4 0.6), H1, H2 by (assumption || discriminate).
      reflexivity.
    + intros H1. apply Qltb_ge in H1.
      rewrite (Hge 0.2 0.8), (Hge 0.4 0.8), (Hge 0.6 0.8), H1
        by (assumption || discriminate).
      reflexivity.
  - vm_compute. reflexivity.
  - intros data_points Hnum Hne. unfold _generate_vegetation_summary.
    destruct data_points as [|p rest]; [now cbn in Hne|].
    destruct (np_array_numeric _ Hnum) as [a Ha].
    destruct (ndvi_values_of (p :: rest)) as [|v vs]; [congruence|].
    rewrite Ha. eauto.
Qed.

Lemma vigor_classification_by_thresholds_witness :
  let data_points :=
    [ndvi_point "2021-06-01" (PFloat 0.41); ndvi_point "2021-07-01" (PFloat 0.78)] in
  forallb numeric (ndvi_values_of data_points) = true /\
  ndvi_values_of data_points <> [] /\
  (0.8 <= 0.8 -> classify_vigor 0.8 = "Very healthy/dense vegetation") /\
  exists r,
    _generate_vegetation_summary data_points = inr (Some r) /\
    VegetationSummary.vigor_classification r =
      classify_vigor (VegetationSummary.mean_ndvi r).
Proof.
  cbv zeta.
  assert (H1 : forallb numeric (ndvi_values_of
                 [ndvi_point "2021-06-01" (PFloat 0.41);
                  ndvi_point "2021-07-01" (PFloat 0.78)]) = true)
    by (vm_compute; reflexivity).
  assert (H2 : ndvi_values_of
                 [ndvi_point "2021-06-01" (PFloat 0.41);
                  ndvi_point "2021-07-01" (PFloat 0.78)] <> [])
    by (vm_compute; discriminate).
  split; [exact H1|]. split; [exact H2|]. split.
  - exact (proj2 (proj2 (proj2 (proj2 (proj1 (proj2 vigor_classification_by_thresholds) 0.8))))).
  - destruct (proj2 (proj2 (proj2 vigor_classification_by_thresholds)) _ H1 H2) as [r Hr].
    exists r. split; [exact Hr|].
    destruct (proj1 vigor_classification_by_thresholds _ _ Hr) as (a & _ & _ & Hc).
    exact Hc.
Defined.

(* ===================================================================== *)
(** ** Unit conversion *)
(* ===================================================================== *)

(** C8. In every analysis the analyzer returns, [total_et_inches] is the
    total already rounded to a whole number of millimetres, multiplied by
    0.0393701 and rounded to two decimals. It is not the conversion of the
    unrounded sum: for the single value 12.4 the analyzer reports 0.47,
    while 12.4 converted and rounded is 0.49. *)
Theorem total_et_inches_from_rounded_total :
  (forall data_points log r log',
      _analyze_et_data data_points log = (inr (Some r), log') ->
      exists et_array,
        np_array (et_values_of data_points) = inr et_array /\
        ETAnalysis.total_et_mm r = rint (np_sum et_array) /\
        ETAnalysis.total_et_inches r =
          round_nd 2 (inject_Z (rint (np_sum et_array)) * (393701 # 10000000))) /\
  (exists r,
      _analyze_et_data [et_point "2021-06-01" (PFloat 12.4)] [] = (inr (Some r), []) /\
      ETAnalysis.total_et_mm r = 12%Z /\
      ETAnalysis.total_et_inches r = 0.47 /\
      round_nd 2 (12.4 * (393701 # 10000000)) = 0.49) /\
  (forall data_points log,
      forallb well_dated data_points = true ->
      forallb numeric (et_values_of data_points) = true ->
      et_values_of data_points <> [] ->
      exists r, _analyze_et_data data_points log = (inr (Some r), log)).
Proof.
  split; [|split].
  - intros data_points log r log' H.
    destruct (analyze_inv _ _ _ _ H) as (dates & _ & _ & Hs).
    stats_inv Hs. exists et_array. repeat split.
  - eexists. split; [vm_compute; reflexivity|]. repeat split.
  - intros data_points log Hwd Hnum Hne.
    destruct (analyze_well_dated data_points log Hwd Hnum Hne) as (r & Hr & _).
    now exists r.
Qed.

Lemma total_et_inches_from_rounded_total_witness :
  let data_points :=
    [et_point "2021-06-01" (PFloat 12.4); et_point "2021-07-01" (PFloat 30.3)] in
  forallb well_dated data_points = true /\
  forallb numeric (et_values_of data_points) = true /\
  et_values_of data_points <> [] /\
  exists r et_array,
    _analyze_et_data data_points [] = (inr (Some r), []) /\
    ETAnalysis.total_et_inches r =
      round_nd 2 (inject_Z (rint (np_sum et_array)) * (393701 # 10000000)).
Proof.
  cbv zeta.
  assert (H1 : forallb well_dated
                 [et_point "2021-06-01" (PFloat 12.4);
                  et_point "2021-07-01" (PFloat 30.3)] = true)
    by (vm_compute; reflexivity).
  assert (H2 : forallb numeric (et_values_of
                 [et_point "2021-06-01" (PFloat 12.4);
                  et_point "2021-07-01" (PFloat 30.3)]) = true)
    by (vm_compute; reflexivity).
  assert (H3 : et_values_of
                 [et_point "2021-06-01" (PFloat 12.4);
                  et_point "2021-07-01" (PFloat 30.3)] <> [])
    by (vm_compute; discriminate).
  split; [exact H1|]. split; [exact H2|]. split; [exact H3|].
  destruct (proj2 (proj2 total_et_inches_from_rounded_total) _ [] H1 H2 H3) as [r Hr].
  destruct (proj1 total_et_inches_from_rounded_total _ _ _ _ Hr) as (a & _ & _ & Hc).
  exists r, a. split; [exact Hr|exact Hc].
Defined.

(* ===================================================================== *)
(** ** The series extractor *)
(* ===================================================================== *)

Lemma extract_loop_cons variable item rest data_points values :
  extract_loop variable (item :: rest) data_points values =
  if kept variable item
  then extract_loop variable rest
         (data_points ++ [to_point variable item])
         (values ++ [dict_get item (lower variable)])
  else extract_loop variable rest data_points values.
Proof. reflexivity. Qed.

(** The loop appends, in input order, the data points and the values of
    the items it keeps. *)
Lemma extract_loop_spec variable items : forall data_points values,
  extract_loop variable items data_points values =
  (data_points ++ map (to_point variable) (List.filter (kept variable) items),
   values ++ map (fun item => dict_get item (lower variable))
                 (List.filter (kept variable) items)).
Proof.
  induction items as [|item rest IH]; intros dps vals.
  - cbn. now rewrite !app_nil_r.
  - rewrite extract_loop_cons. cbn [List.filter].
    destruct (kept variable item); [|apply IH].
    rewrite IH. cbn [map]. now rewrite <- !app_assoc.
Qed.

(** No kept value is null, so the filter on [values] removes nothing. *)
Lemma kept_values_not_None variable items :
  List.filter is_not_None
    (map (fun item => dict_get item (lower variable)) (List.filter (kept variable) items)) =
  map (fun item => dict_get item (lower variable)) (List.filter (kept variable) items).
Proof.
  induction items as [|item rest IH]; [reflexivity|].
  cbn [List.filter]. destruct (kept variable item) eqn:Hk; [|exact IH].
  cbn [map List.filter]. unfold kept in Hk. apply andb_prop in Hk as [_ Hv].
  rewrite Hv. now rewrite IH.
Qed.

Lemma upper_ascii_not_d c : upper_ascii c <> "d"%char.
Proof. destruct c as [[] [] [] [] [] [] [] []]; vm_compute; discriminate. Qed.

(** [variable.upper()] is never the key ['date']. *)
Lemma upper_not_date variable : upper variable <> "date".
Proof.
  destruct variable as [|c t]; [discriminate|].
  cbn. intros H. injection H as H _. exact (upper_ascii_not_d c H).
Qed.

Lemma to_point_date variable item :
  to_point variable item !! "date" = Some (dict_get item "time").
Proof.
  unfold to_point, data_point.
  rewrite lookup_insert_ne by apply upper_not_date.
  apply lookup_insert_eq.
Qed.

Lemma to_point_value variable item :
  to_point variable item !! upper variable = Some (dict_get item (lower variable)).
Proof. unfold to_point, data_point. apply lookup_insert_eq. Qed.

(** A result of the extractor on a list holds the data points of the
    kept items, and counts them. *)
Lemma extract_records float_repr items variable location log r log' :
  _extract_variable_data float_repr (Records items) variable location log = (inr r, log') ->
  Extracted.data_points r = map (to_point variable) (List.filter (kept variable) items) /\
  Extracted.values_found r = length (List.filter (kept variable) items).
Proof.
  unfold _extract_variable_data. rewrite extract_loop_spec. cbn [app].
  rewrite kept_values_not_None.
  set (dps := map (to_point variable) _). set (vals := map _ _).
  unfold bind.
  repeat match goal with
         | |- context [let (_, _) := ?m in _] => destruct m as [[?|?] ?]; [discriminate|]
         end.
  unfold ret. intros H. injection H as <- <-. cbn. split; [reflexivity|].
  unfold vals. now rewrite length_map.
Qed.

Lemma last_map_cons {A B} (f : A -> B) (x : A) (l : list A) :
  exists y, last (map f (x :: l)) = Some (f y).
Proof.
  revert x. induction l as [|z t IH]; intros x; [now exists x|].
  destruct (IH z) as [y Hy]. exists y. cbn [map] in *. now rewrite last_cons_cons.
Qed.

(** On a list whose kept values are numbers the extractor returns. *)
Lemma extract_records_total float_repr items variable location log :
  forallb numeric
    (map (fun item => dict_get item (lower variable))
         (List.filter (kept variable) items)) = true ->
  exists r log',
    _extract_variable_data float_repr (Records items) variable location log = (inr r, log').
Proof.
  intros Hnum. unfold _extract_variable_data. rewrite extract_loop_spec. cbn [app].
  rewrite kept_values_not_None.
  destruct (np_array_numeric _ Hnum) as [a Ha].
  destruct (List.filter (kept variable) items) as [|k ks].
  - cbn. unfold bind, logger, ret. eauto.
  - destruct (last_map_cons (to_point variable) k ks) as [y Hy].
    cbn [map] in *. unfold bind, lift, ret, subscript, subscript_last.
    cbn [lookup list_lookup]. rewrite Hy. unfold dict_subscript.
    rewrite !to_point_date, Ha. eauto.
Qed.

(** The extractor on anything but a list: the default result, after one
    message at level ERROR. *)
Lemma extract_non_list float_repr raw variable location log :
  (forall items, raw <> Records items) ->
  _extract_variable_data float_repr raw variable location log =
    (inr (Extracted.mk "OpenET" location 0 "N/A" [] (Some (variable +:+ "_mean", 0))),
     log ++ [(ERROR, "Unexpected data format for " +:+ variable +:+
                     ". Expected list, got " +:+ payload_type_repr raw)]).
Proof.
  intros H. destruct raw as [items| |]; [now destruct (H items)| |]; reflexivity.
Qed.

(** C9, as the code has it. On a payload that is no list the extractor
    does not raise: it returns zero values found, the date range "N/A", no
    data points and the mean 0, and it writes one message, at level ERROR,
    to the log. *)
Theorem non_list_payload_fails_soft :
  forall float_repr raw variable location log,
    (forall items, raw <> Records items) ->
    exists r msg,
      _extract_variable_data float_repr raw variable location log =
        (inr r, log ++ [(ERROR, msg)]) /\
      Extracted.values_found r = 0%nat /\
      Extracted.date_range r = "N/A" /\
      Extracted.data_points r = [] /\
      Extracted.mean r = Some (variable +:+ "_mean", 0).
Proof.
  intros float_repr raw variable location log H.
  do 2 eexists. split; [apply extract_non_list; exact H|]. repeat split.
Qed.

Lemma non_list_payload_fails_soft_witness :
  let raw := Object {[ "detail" := PStr "Unauthorized" ]} in
  (forall items, raw <> Records items) /\
  exists r msg,
    _extract_variable_data (fun _ => "") raw "et" "36.5, -119.5" [] =
      (inr r, [(ERROR, msg)]) /\
    Extracted.values_found r = 0%nat /\
    Extracted.date_range r = "N/A".
Proof.
  cbv zeta.
  assert (H : forall items, Object {[ "detail" := PStr "Unauthorized" ]} <> Records items)
    by (intros items; discriminate).
  split; [exact H|].
  destruct (non_list_payload_fails_soft (fun _ => "") _ "et" "36.5, -119.5" [] H)
    as (r & msg & Hr & Hv & Hd & _).
  exists r, msg. split; [exact Hr|]. split; [exact Hv|exact Hd].
Defined.

(** C9, as the specification words it, fails: on the error object
    [{"detail": "Unauthorized"}] the extractor returns the default result
    but no message at level WARNING is in the log. *)
Lemma non_list_payload_logs_no_warning :
  ~ exists r log' msg,
      _extract_variable_data (fun _ => "")
        (Object {[ "detail" := PStr "Unauthorized" ]}) "et" "36.5, -119.5" [] =
        (inr r, log') /\
      Extracted.values_found r = 0%nat /\
      Extracted.date_range r = "N/A" /\
      Extracted.data_points r = [] /\
      In (WARNING, msg) log'.
Proof.
  intros (r & log' & msg & H & _ & _ & _ & Hin).
  rewrite extract_non_list in H by (intros items; discriminate).
  injection H as _ <-. cbn [app In] in Hin.
  destruct Hin as [Heq|[]]. discriminate Heq.
Qed.

(** C10. Whatever the extractor returns for a list of records:
    [values_found] is the number of data points; the data points are
    those of the items whose [time] is truthy and whose value is not null,
    in input order; each carries a value that is not null. An item with
    the empty string as [time] is dropped, an item with the value 0 and a
    truthy [time] is kept. The extractor returns whenever the kept values
    are numbers. *)
Theorem extracted_points_are_the_kept_items :
  forall float_repr items variable location log,
    (forall r log',
        _extract_variable_data float_repr (Records items) variable location log =
          (inr r, log') ->
        Extracted.values_found r = length (Extracted.data_points r) /\
        Extracted.data_points r =
          map (to_point variable) (List.filter (kept variable) items) /\
        Forall (fun point => exists v, point !! upper variable = Some v /\ v <> PNone)
               (Extracted.data_points r)) /\
    (forall item, item !! "time" = Some (PStr "") -> kept variable item = false) /\
    (forall item,
        truthy (dict_get item "time") = true ->
        item !! lower variable = Some (PInt 0) ->
        kept variable item = true) /\
    (forallb numeric
       (map (fun item => dict_get item (lower variable))
            (List.filter (kept variable) items)) = true ->
     exists r log',
       _extract_variable_data float_repr (Records items) variable location log =
         (inr r, log')).
Proof.
  intros float_repr items variable location log. split; [|split; [|split]].
  - intros r log' H. destruct (extract_records _ _ _ _ _ _ _ H) as [Hd Hv].
    rewrite Hd, Hv, length_map. split; [reflexivity|]. split; [reflexivity|].
    apply List.Forall_forall. intros point Hin. apply in_map_iff in Hin as (item & <- & Hin).
    apply filter_In in Hin as [_ Hk]. unfold kept in Hk. apply andb_prop in Hk as [_ Hv'].
    exists (dict_get item (lower variable)). split; [apply to_point_value|].
    intros Hnone. now rewrite Hnone in Hv'.
  - intros item H. unfold kept, dict_get. now rewrite H.
  - intros item Ht Hv. unfold kept. rewrite Ht. unfold dict_get. now rewrite Hv.
  - apply extract_records_total.
Qed.

Lemma extracted_points_are_the_kept_items_witness :
  let items : list (gmap string pyval) :=
    [ {[ "time" := PStr "2020-03-01"; "et" := PInt 31 ]};
      {[ "time" := PStr ""; "et" := PInt 3 ]};
      {[ "time" := PStr "2020-01-01"; "et" := PInt 0 ]};
      {[ "time" := PStr "2020-04-01"; "et" := PNone ]};
      {[ "time" := PStr "2020-02-01" ]} ] in
  forallb numeric
    (map (fun item => dict_get item (lower "ET")) (List.filter (kept "ET") items)) = true /\
  exists r log',
    _extract_variable_data (fun _ => "") (Records items) "ET" "36.5, -119.5" [] =
      (inr r, log') /\
    Extracted.values_found r = length (Extracted.data_points r) /\
    Extracted.data_points r =
      [ data_point "ET" (PStr "2020-03-01") (PInt 31);
        data_point "ET" (PStr "2020-01-01") (PInt 0) ].
Proof.
  cbv zeta.
  set (items := [ {[ "time" := PStr "2020-03-01"; "et" := PInt 31 ]};
                  {[ "time" := PStr ""; "et" := PInt 3 ]};
                  {[ "time" := PStr "2020-01-01"; "et" := PInt 0 ]};
                  {[ "time" := PStr "2020-04-01"; "et" := PNone ]};
                  {[ "time" := PStr "2020-02-01" ]} ] : list (gmap string pyval)).
  assert (H : forallb numeric
                (map (fun item => dict_get item (lower "ET"))
                     (List.filter (kept "ET") items)) = true)
    by (vm_compute; reflexivity).
  split; [exact H|].
  destruct (proj2 (proj2 (proj2
              (extracted_points_are_the_kept_items (fun _ => "") items "ET"
                 "36.5, -119.5" []))) H) as (r & log' & Hr).
  exists r, log'. split; [exact Hr|].
  destruct (proj1 (extracted_points_are_the_kept_items (fun _ => "") items "ET"
                     "36.5, -119.5" []) r log' Hr) as (Hv & Hd & _).
  split; [exact Hv|]. rewrite Hd. vm_compute. reflexivity.
Defined.

(* ===================================================================== *)
(** ** The trend: a least-squares line over the observation index *)
(* ===================================================================== *)

Lemma fold_left_Qplus_acc l : forall a, fold_left Qplus l a == a + fold_left Qplus l 0.
Proof.
  induction l as [|x t IH]; intros a; cbn [fold_left].
  - ring.
  - rewrite (IH (a + x)), (IH (0 + x)). ring.
Qed.

Lemma np_sum_cons x l : np_sum (x :: l) == x + np_sum l.
Proof. unfold np_sum. cbn [fold_left]. rewrite fold_left_Qplus_acc. ring. Qed.

Lemma np_sum_app l1 l2 : np_sum (l1 ++ l2) == np_sum l1 + np_sum l2.
Proof.
  unfold np_sum. rewrite fold_left_app. apply fold_left_Qplus_acc.
Qed.

Lemma inject_Z_S n : inject_Z (Z.of_nat (S n)) == inject_Z (Z.of_nat n) + 1.
Proof. rewrite Nat2Z.inj_succ. unfold Z.succ. rewrite inject_Z_plus. reflexivity. Qed.

(** The squared error is a quadratic in the line's coefficients. *)
Lemma squared_error_expand a b : forall x y, length x = length y ->
  squared_error a b x y ==
    dot y y - 2 * a * dot x y - 2 * b * np_sum y
    + a * a * dot x x + 2 * a * b * np_sum x
    + b * b * inject_Z (Z.of_nat (length x)).
Proof.
  induction x as [|u x IH]; intros [|v y] Hlen; try discriminate.
  - unfold squared_error, dot, np_sum. cbn [combine map length fold_left].
    change (inject_Z (Z.of_nat 0)) with 0. ring.
  - injection Hlen as Hlen. specialize (IH y Hlen).
    unfold squared_error, dot in *. cbn [combine map length fst snd].
    rewrite !np_sum_cons, inject_Z_S, IH. ring.
Qed.

(** The sums of [np.arange(n)] and of its squares. *)
Lemma arange_S n : np_arange (S n) = np_arange n ++ [inject_Z (Z.of_nat n)].
Proof. unfold np_arange. rewrite seq_S, map_app. reflexivity. Qed.

Lemma length_arange n : length (np_arange n) = n.
Proof. unfold np_arange. now rewrite length_map, length_seq. Qed.

Lemma combine_app_same {A B} (x1 x2 : list A) (y1 y2 : list B) :
  length x1 = length y1 ->
  combine (x1 ++ x2) (y1 ++ y2) = combine x1 y1 ++ combine x2 y2.
Proof.
  revert y1. induction x1 as [|u x1 IH]; intros [|v y1] H; try discriminate; [reflexivity|].
  injection H as H. cbn. now rewrite IH.
Qed.

Lemma dot_app x1 x2 y1 y2 : length x1 = length y1 ->
  dot (x1 ++ x2) (y1 ++ y2) == dot x1 y1 + dot x2 y2.
Proof.
  intros H. unfold dot. rewrite combine_app_same by assumption.
  rewrite map_app. apply np_sum_app.
Qed.

Lemma arange_sums n :
  2 * np_sum (np_arange n) == inject_Z (Z.of_nat n) * (inject_Z (Z.of_nat n) - 1) /\
  6 * dot (np_arange n) (np_arange n) ==
    (inject_Z (Z.of_nat n) - 1) * inject_Z (Z.of_nat n) * (2 * inject_Z (Z.of_nat n) - 1).
Proof.
  induction n as [|n [IH1 IH2]].
  - split; vm_compute; reflexivity.
  - rewrite arange_S, np_sum_app, dot_app, inject_Z_S by reflexivity.
    unfold dot at 2. cbn [combine map fst snd]. rewrite !np_sum_cons.
    change (np_sum []) with 0. split; nra.
Qed.

(** The denominator of the slope is positive from two points on. *)
Lemma arange_denominator_pos n : (2 <= n)%nat ->
  0 < inject_Z (Z.of_nat n) * dot (np_arange n) (np_arange n)
      - np_sum (np_arange n) * np_sum (np_arange n).
Proof.
  intros Hn. destruct (arange_sums n) as [H1 H2].
  set (q := inject_Z (Z.of_nat n)) in *.
  assert (Hq : 2 <= q).
  { unfold q. change 2 with (inject_Z 2). rewrite <- Zle_Qle. lia. }
  set (s := np_sum (np_arange n)) in *. set (d := dot (np_arange n) (np_arange n)) in *.
  assert (E : 12 * (q * d - s * s) == 2 * q * (6 * d) - 3 * ((2 * s) * (2 * s))) by ring.
  rewrite H2, H1 in E.
  assert (P : 0 < q * q * (q - 1) * (q + 1)) by nra.
  nra.
Qed.

Lemma Qsquare_nonneg (q : Q) : 0 <= q * q.
Proof. nra. Qed.

(** [np.polyfit(x, y, 1)] on the indices: no line has a smaller squared
    error than the one with the returned slope and intercept. *)
Lemma polyfit_least_squares (y : list Q) (a b : Q) :
  (2 <= length y)%nat ->
  squared_error (polyfit_slope (np_arange (length y)) y)
                (polyfit_intercept (np_arange (length y)) y)
                (np_arange (length y)) y
  <= squared_error a b (np_arange (length y)) y.
Proof.
  intros Hn.
  pose proof (arange_denominator_pos _ Hn) as HD.
  rewrite !squared_error_expand by apply length_arange.
  unfold polyfit_intercept, polyfit_slope. rewrite length_arange.
  set (x := np_arange (length y)) in *.
  set (n := inject_Z (Z.of_nat (length y))) in *.
  assert (Hq : 2 <= n).
  { unfold n. change 2 with (inject_Z 2). rewrite <- Zle_Qle. lia. }
  set (Sx := np_sum x) in *. set (Sxx := dot x x) in *.
  set (Sy := np_sum y). set (Sxy := dot x y). set (Syy := dot y y).
  set (D := n * Sxx - Sx * Sx) in *.
  set (m := (n * Sxy - Sx * Sy) / D).
  set (c := (Sy - m * Sx) / n).
  assert (Hn0 : ~ n == 0) by lra.
  assert (HD0 : ~ D == 0) by lra.
  assert (N2 : Sy == m * Sx + c * n) by (unfold c; field; exact Hn0).
  assert (N1 : Sxy == m * Sxx + c * Sx).
  { unfold c, m, D. field. split; first [exact Hn0 | exact HD0]. }
  assert (E : (Syy - 2 * a * Sxy - 2 * b * Sy + a * a * Sxx + 2 * a * b * Sx + b * b * n)
              - (Syy - 2 * m * Sxy - 2 * c * Sy + m * m * Sxx + 2 * m * c * Sx + c * c * n)
              == Sxx * ((a - m) * (a - m)) + 2 * Sx * ((a - m) * (b - c))
                 + n * ((b - c) * (b - c))).
  { rewrite N1, N2. ring. }
  assert (P : n * (Sxx * ((a - m) * (a - m)) + 2 * Sx * ((a - m) * (b - c))
                   + n * ((b - c) * (b - c)))
              == (n * (b - c) + (a - m) * Sx) * (n * (b - c) + (a - m) * Sx)
                 + ((a - m) * (a - m)) * D) by (unfold D; ring).
  assert (R : 0 <= Sxx * ((a - m) * (a - m)) + 2 * Sx * ((a - m) * (b - c))
                   + n * ((b - c) * (b - c))).
  { apply (Qmult_le_l _ _ n); [lra|]. rewrite P, Qmult_0_r.
    pose proof (Qsquare_nonneg (n * (b - c) + (a - m) * Sx)).
    pose proof (Qsquare_nonneg (a - m)).
    assert (0 <= (a - m) * (a - m) * D) by (apply Qmult_le_0_compat; lra).
    lra. }
  rewrite <- E in R. lra.
Qed.

Lemma classify_trend_spec (slope : Q) :
  (- (1 # 10) < slope /\ slope < 1 # 10 /\ classify_trend slope = "stable") \/
  (1 # 10 <= slope /\ classify_trend slope = "increasing") \/
  (slope <= - (1 # 10) /\ classify_trend slope = "decreasing").
Proof.
  unfold classify_trend. destruct (Qltb (Qabs slope) (1 # 10)) eqn:E1.
  - apply Qltb_lt, Qabs_Qlt_condition in E1. left. tauto.
  - apply Qltb_ge in E1. destruct (Qltb 0 slope) eqn:E2.
    + apply Qltb_lt in E2. rewrite Qabs_pos in E1 by lra. right. left. tauto.
    + apply Qltb_ge in E2. rewrite Qabs_neg in E1 by lra. right. right.
      split; [lra|reflexivity].
Qed.

(** C6. In every analysis the analyzer returns for two or more
    observations, the slope is the rounded slope of [np.polyfit] on the
    indices 0, 1, 2, ... and the ET values, and the trend is the class of
    the unrounded slope; for one observation the trend is stable with
    slope 0. The dates take no part: a series sampled in January,
    February and December has the slope of its values over 0, 1, 2. The
    line [np.polyfit] returns has the least squared error over the
    indices. The class is stable when the absolute slope is below 0.1,
    else increasing when the slope is positive, else decreasing; it is
    monotone in the slope, and the slopes -5, -0.05, 0, 0.05, 5 classify
    as decreasing, stable, stable, stable, increasing. *)
Theorem trend_is_least_squares_on_index :
  (forall data_points log r log',
      _analyze_et_data data_points log = (inr (Some r), log') ->
      exists et_array,
        np_array (et_values_of data_points) = inr et_array /\
        ETAnalysis.observations r = length et_array /\
        ((2 <= length et_array)%nat ->
         ETAnalysis.trend_slope_mm_per_month r =
           round_nd 3 (polyfit_slope (np_arange (length et_array)) et_array) /\
         ETAnalysis.monthly_trend r =
           classify_trend (polyfit_slope (np_arange (length et_array)) et_array)) /\
        ((length et_array < 2)%nat ->
         ETAnalysis.monthly_trend r = "stable" /\
         ETAnalysis.trend_slope_mm_per_month r = 0)) /\
  (forall (y : list Q) (a b : Q),
      (2 <= length y)%nat ->
      squared_error (polyfit_slope (np_arange (length y)) y)
                    (polyfit_intercept (np_arange (length y)) y)
                    (np_arange (length y)) y
      <= squared_error a b (np_arange (length y)) y) /\
  (forall slope : Q,
      (Qabs slope < 1 # 10 -> classify_trend slope = "stable") /\
      (1 # 10 <= Qabs slope -> 0 < slope -> classify_trend slope = "increasing") /\
      (1 # 10 <= Qabs slope -> slope <= 0 -> classify_trend slope = "decreasing")) /\
  (forall s1 s2 : Q,
      s1 <= s2 ->
      (classify_trend s1 = "increasing" -> classify_trend s2 = "increasing") /\
      (classify_trend s2 = "decreasing" -> classify_trend s1 = "decreasing")) /\
  map classify_trend [-5; -0.05; 0; 0.05; 5] =
    ["decreasing"; "stable"; "stable"; "stable"; "increasing"] /\
  (exists r,
      _analyze_et_data
        [et_point "2021-01-01" (PInt 1); et_point "2021-02-01" (PInt 2);
         et_point "2021-12-01" (PInt 3)] [] = (inr (Some r), []) /\
      ETAnalysis.trend_slope_mm_per_month r = 1 /\
      ETAnalysis.monthly_trend r = "increasing") /\
  (forall data_points log,
      forallb well_dated data_points = true ->
      forallb numeric (et_values_of data_points) = true ->
      et_values_of data_points <> [] ->
      exists r, _analyze_et_data data_points log = (inr (Some r), log)).
Proof.
  split; [|split; [|split; [|split; [|split; [|split]]]]].
  - intros data_points log r log' H.
    destruct (analyze_inv _ _ _ _ H) as (dates & _ & _ & Hs).
    stats_inv Hs. exists et_array. pose proof (np_array_length _ _ Harray) as Hlen.
    cbn [ETAnalysis.observations ETAnalysis.trend_slope_mm_per_month
         ETAnalysis.monthly_trend].
    rewrite <- Hlen. split; [reflexivity|]. split; [reflexivity|]. split.
    + intros Hn. apply Nat.ltb_lt in Hn. rewrite !Hn. split; reflexivity.
    + intros Hn. assert (Hf : (1 <? length et_array)%nat = false) by (apply Nat.ltb_ge; lia).
      rewrite !Hf. split; reflexivity.
  - apply polyfit_least_squares.
  - intros slope. unfold classify_trend. repeat split.
    + intros H. apply Qltb_lt in H. now rewrite H.
    + intros H1 H2. apply Qltb_ge in H1. apply Qltb_lt in H2. now rewrite H1, H2.
    + intros H1 H2. apply Qltb_ge in H1. apply Qltb_ge in H2. now rewrite H1, H2.
  - intros s1 s2 Hle.
    destruct (classify_trend_spec s1) as [(? & ? & E1)|[(? & E1)|(? & E1)]];
      destruct (classify_trend_spec s2) as [(? & ? & E2)|[(? & E2)|(? & E2)]];
      rewrite E1, E2; split; intros; try reflexivity; try discriminate; lra.
  - vm_compute. reflexivity.
  - eexists. split; [vm_compute; reflexivity|]. split; reflexivity.
  - intros data_points log Hwd Hnum Hne.
    destruct (analyze_well_dated data_points log Hwd Hnum Hne) as (r & Hr & _).
    now exists r.
Qed.

Lemma trend_is_least_squares_on_index_witness :
  let data_points :=
    [et_point "2021-01-01" (PInt 20); et_point "2021-04-01" (PInt 40);
     et_point "2021-07-01" (PInt 80); et_point "2021-10-01" (PInt 40)] in
  forallb well_dated data_points = true /\
  forallb numeric (et_values_of data_points) = true /\
  et_values_of data_points <> [] /\
  (2 <= length [20; 40; 80; 40])%nat /\
  squared_error (polyfit_slope (np_arange 4) [20; 40; 80; 40])
                (polyfit_intercept (np_arange 4) [20; 40; 80; 40])
                (np_arange 4) [20; 40; 80; 40]
    <= squared_error 12 25 (np_arange 4) [20; 40; 80; 40] /\
  exists r et_array,
    _analyze_et_data data_points [] = (inr (Some r), []) /\
    np_array (et_values_of data_points) = inr et_array /\
    ETAnalysis.observations r = length et_array.
Proof.
  cbv zeta.
  set (data_points :=
         [et_point "2021-01-01" (PInt 20); et_point "2021-04-01" (PInt 40);
          et_point "2021-07-01" (PInt 80); et_point "2021-10-01" (PInt 40)]).
  assert (H1 : forallb well_dated data_points = true) by (vm_compute; reflexivity).
  assert (H2 : forallb numeric (et_values_of data_points) = true)
    by (vm_compute; reflexivity).
  assert (H3 : et_values_of data_points <> []) by (vm_compute; discriminate).
  assert (H4 : (2 <= length [20; 40; 80; 40])%nat) by (cbn; lia).
  split; [exact H1|]. split; [exact H2|]. split; [exact H3|]. split; [exact H4|]. split.
  - exact (proj1 (proj2 trend_is_least_squares_on_index) [20; 40; 80; 40] 12 25 H4).
  - destruct (proj2 (proj2 (proj2 (proj2 (proj2 (proj2 trend_is_least_squares_on_index)))))
                data_points [] H1 H2 H3) as [r Hr].
    destruct (proj1 trend_is_least_squares_on_index _ _ _ _ Hr) as (a & Ha & Ho & _).
    exists r, a. split; [exact Hr|]. split; [exact Ha|exact Ho].
Defined.

(* ===================================================================== *)
(** ** The extractor and the analyzers, composed *)
(* ===================================================================== *)

(** Whatever the payload, a result of the extractor holds the data points
    of some kept items and counts them. *)
Lemma extract_shape float_repr raw variable location log r log' :
  _extract_variable_data float_repr raw variable location log = (inr r, log') ->
  exists items,
    forallb (kept variable) items = true /\
    Extracted.data_points r = map (to_point variable) items /\
    Extracted.values_found r = length items.
Proof.
  destruct raw as [items|d|v]; intros H.
  - destruct (extract_records _ _ _ _ _ _ _ H) as [Hd Hv].
    exists (List.filter (kept variable) items). split; [|now split].
    apply forallb_forall. intros item Hin. now apply filter_In in Hin.
  - rewrite extract_non_list in H by discriminate. injection H as <- _.
    now exists [].
  - rewrite extract_non_list in H by discriminate. injection H as <- _.
    now exists [].
Qed.

Lemma et_values_of_to_point items :
  forallb (kept "et") items = true ->
  et_values_of (map (to_point "et") items) = map (fun item => dict_get item "et") items.
Proof.
  induction items as [|item rest IH]; intros H; [reflexivity|].
  cbn [forallb] in H. apply andb_prop in H as [Hk Hrest].
  cbn [map]. rewrite et_values_of_cons. unfold et_value_of.
  change "ET" with (upper "et"). rewrite to_point_value.
  unfold kept in Hk. apply andb_prop in Hk as [_ Hv].
  change (lower "et") with "et" in *. rewrite Hv. now rewrite IH.
Qed.

Lemma ndvi_values_of_to_point items :
  forallb (kept "ndvi") items = true ->
  ndvi_values_of (map (to_point "ndvi") items) =
  map (fun item => dict_get item "ndvi") items.
Proof.
  induction items as [|item rest IH]; intros H; [reflexivity|].
  cbn [forallb] in H. apply andb_prop in H as [Hk Hrest].
  specialize (IH Hrest). unfold ndvi_values_of in *. cbn [map omap list_omap].
  change "NDVI" with (upper "ndvi"). rewrite to_point_value.
  unfold kept in Hk. apply andb_prop in Hk as [_ Hv].
  change (lower "ndvi") with "ndvi" in *. rewrite Hv. now rewrite <- IH.
Qed.

(** The analyzer answers with the empty structure only when no data point
    carries an ET value. *)
Lemma analyze_none data_points log log' :
  _analyze_et_data data_points log = (inr None, log') ->
  et_values_of data_points = [].
Proof.
  unfold _analyze_et_data. destruct data_points as [|p rest]; [reflexivity|].
  unfold bind.
  destruct (collect_et (p :: rest) [] [] log) as [[e|[ev ds]] l] eqn:Hc; [discriminate|].
  pose proof (collect_et_values _ _ _ _ _ _ _ Hc) as Hev. cbn [app] in Hev. subst ev.
  cbn [fst snd]. destruct (et_values_of (p :: rest)) as [|v vs]; [reflexivity|].
  unfold lift, ret. destruct (et_statistics (v :: vs) ds); discriminate.
Qed.

Lemma analyze_observations data_points log r log' :
  _analyze_et_data data_points log = (inr (Some r), log') ->
  ETAnalysis.observations r = length (et_values_of data_points) /\
  et_values_of data_points <> [].
Proof.
  intros H. destruct (analyze_inv _ _ _ _ H) as (dates & _ & Hne & Hs).
  stats_inv Hs. now split.
Qed.

Lemma summary_observations data_points :
  match _generate_vegetation_summary data_points with
  | inr (Some r) =>
      VegetationSummary.total_observations r = length (ndvi_values_of data_points) /\
      ndvi_values_of data_points <> []
  | inr None => ndvi_values_of data_points = []
  | inl _ => True
  end.
Proof.
  unfold _generate_vegetation_summary. destruct data_points as [|p rest]; [reflexivity|].
  destruct (ndvi_values_of (p :: rest)) as [|v vs]; [reflexivity|].
  destruct (np_array (v :: vs)); [exact I|]. now split.
Qed.

Lemma process_response_inv float_repr raw_ndvi raw_et location log rep log' :
  process_response float_repr raw_ndvi raw_et location log = (inr rep, log') ->
  exists l1 l2,
    _extract_variable_data float_repr raw_ndvi "ndvi" location log =
      (inr (Report.NDVI rep), l1) /\
    _extract_variable_data float_repr raw_et "et" location l1 =
      (inr (Report.ET rep), l2) /\
    _analyze_et_data (Extracted.data_points (Report.ET rep)) l2 =
      (inr (Report.et_analysis rep), log') /\
    _generate_vegetation_summary (Extracted.data_points (Report.NDVI rep)) =
      inr (Report.vegetation_summary rep).
Proof.
  unfold process_response, bind, lift, ret.
  destruct (_extract_variable_data float_repr raw_ndvi "ndvi" location log)
    as [[e|nd] l1] eqn:Hn; [discriminate|].
  destruct (_extract_variable_data float_repr raw_et "et" location l1)
    as [[e|ed] l2] eqn:He; [discriminate|].
  destruct (_analyze_et_data (Extracted.data_points ed) l2) as [[e|an] l3] eqn:Ha;
    [discriminate|].
  destruct (_generate_vegetation_summary (Extracted.data_points nd)) as [e|vs] eqn:Hv;
    [discriminate|].
  intros H. injection H as <- <-. cbn. now exists l1, l2.
Qed.

(** X1. In every report [process_response] returns, the counts agree: the
    ET analysis is present exactly when the ET series has values, and its
    [observations] is the series' [values_found]; likewise the vegetation
    summary and [total_observations] for the NDVI series. *)
Theorem report_counts_agree :
  forall float_repr raw_ndvi raw_et location log rep log',
    process_response float_repr raw_ndvi raw_et location log = (inr rep, log') ->
    (forall a, Report.et_analysis rep = Some a ->
               ETAnalysis.observations a = Extracted.values_found (Report.ET rep)) /\
    (Report.et_analysis rep = None <-> Extracted.values_found (Report.ET rep) = 0%nat) /\
    (forall v, Report.vegetation_summary rep = Some v ->
               VegetationSummary.total_observations v =
                 Extracted.values_found (Report.NDVI rep)) /\
    (Report.vegetation_summary rep = None <->
       Extracted.values_found (Report.NDVI rep) = 0%nat).
Proof.
  intros float_repr raw_ndvi raw_et location log rep log' H.
  destruct (process_response_inv _ _ _ _ _ _ _ H) as (l1 & l2 & Hn & He & Ha & Hv).
  destruct (extract_shape _ _ _ _ _ _ _ Hn) as (ni & Hnk & Hnd & Hnv).
  destruct (extract_shape _ _ _ _ _ _ _ He) as (ei & Hek & Hed & Hev).
  pose proof (summary_observations (Extracted.data_points (Report.NDVI rep))) as Hs.
  rewrite Hv, Hnd, (ndvi_values_of_to_point _ Hnk), length_map in Hs.
  rewrite Hnv, Hev. clear Hn He Hv.
  assert (Hel : length (et_values_of (Extracted.data_points (Report.ET rep))) = length ei)
    by now rewrite Hed, (et_values_of_to_point _ Hek), length_map.
  repeat split.
  - intros a Ea. rewrite Ea in Ha. apply analyze_observations in Ha as [-> _]. exact Hel.
  - intros En. rewrite En in Ha. apply analyze_none in Ha. now rewrite Ha in Hel.
  - intros Hz. destruct (Report.et_analysis rep) as [a|]; [|reflexivity].
    apply analyze_observations in Ha as [_ Hne].
    destruct (et_values_of _); [congruence|]. cbn in Hel. lia.
  - intros v Ev. rewrite Ev in Hs. destruct Hs as [-> _]. reflexivity.
  - intros En. rewrite En in Hs. destruct ni; [reflexivity|discriminate].
  - intros Hz. destruct (Report.vegetation_summary rep) as [v|]; [|reflexivity].
    destruct Hs as [_ Hne]. destruct ni; [now cbn in Hne|discriminate].
Qed.

Lemma bind_ok {A B} (m : M A) (k : A -> M B) l a l' :
  m l = (inr a, l') -> bind m k l = k a l'.
Proof. unfold bind. now intros ->. Qed.

Lemma bind_error {A B} (m : M A) (k : A -> M B) l e l' :
  m l = (inl e, l') -> bind m k l = (inl e, l').
Proof. unfold bind. now intros ->. Qed.

(** X2. One variable failing does not stop the other. With an NDVI
    payload that is no list, [process_response] returns the report of the
    ET series alone, with the default NDVI series and no vegetation
    summary; with an ET payload that is no list, it returns the NDVI
    series and its summary, the default ET series and no ET analysis. *)
Theorem one_variable_failing_leaves_the_other :
  forall float_repr location log,
    (forall raw_ndvi raw_et et_data l1 analysis l2,
        (forall items, raw_ndvi <> Records items) ->
        _extract_variable_data float_repr raw_et "et" location
          (log ++ [unexpected_format "ndvi" raw_ndvi]) = (inr et_data, l1) ->
        _analyze_et_data (Extracted.data_points et_data) l1 = (inr analysis, l2) ->
        process_response float_repr raw_ndvi raw_et location log =
          (inr (Report.mk
                  (Extracted.mk "OpenET" location 0 "N/A" [] (Some ("ndvi_mean", 0)))
                  et_data analysis None), l2)) /\
    (forall raw_ndvi raw_et ndvi_data l1 summary,
        (forall items, raw_et <> Records items) ->
        _extract_variable_data float_repr raw_ndvi "ndvi" location log =
          (inr ndvi_data, l1) ->
        _generate_vegetation_summary (Extracted.data_points ndvi_data) = inr summary ->
        process_response float_repr raw_ndvi raw_et location log =
          (inr (Report.mk ndvi_data
                  (Extracted.mk "OpenET" location 0 "N/A" [] (Some ("et_mean", 0)))
                  None summary), l1 ++ [unexpected_format "et" raw_et])).
Proof.
  intros float_repr location log. split.
  - intros raw_ndvi raw_et et_data l1 analysis l2 Hraw He Ha.
    unfold process_response.
    erewrite bind_ok by (apply extract_non_list; exact Hraw).
    erewrite bind_ok by exact He. erewrite bind_ok by exact Ha. reflexivity.
  - intros raw_ndvi raw_et ndvi_data l1 summary Hraw Hn Hv.
    unfold process_response.
    erewrite bind_ok by exact Hn.
    erewrite bind_ok by (apply extract_non_list; exact Hraw).
    erewrite bind_ok by reflexivity. unfold bind, lift, ret. rewrite Hv. reflexivity.
Qed.

(* --------------------------------------------------------------------- *)

Lemma np_array_error values e : np_array values = inl e -> e = TypeError.
Proof.
  induction values as [|v t IH]; cbn; [discriminate|].
  destruct (as_number v); [|now intros [= <-]].
  destruct (np_array t); [|discriminate]. intros [= <-]. now apply IH.
Qed.

(** On a list the extractor raises only when a kept value is no number. *)
Lemma extract_records_error float_repr items variable location log e log' :
  _extract_variable_data float_repr (Records items) variable location log = (inl e, log') ->
  e = TypeError /\ forallb numeric (kept_values variable items) = false.
Proof.
  unfold _extract_variable_data. rewrite extract_loop_spec. cbn [app].
  rewrite kept_values_not_None. fold (kept_values variable items).
  unfold kept_values.
  destruct (List.filter (kept variable) items) as [|k ks].
  - cbn. unfold bind, logger, ret. discriminate.
  - destruct (last_map_cons (to_point variable) k ks) as [y Hy].
    cbn [map] in *. unfold bind, lift, ret, subscript, subscript_last.
    cbn [lookup list_lookup]. rewrite Hy. unfold dict_subscript.
    rewrite !to_point_date.
    destruct (np_array (dict_get k (lower variable) ::
                        map (fun item => dict_get item (lower variable)) ks))
      as [e'|a] eqn:Ha; [|discriminate].
    intros [= <- _]. split; [now apply np_array_error in Ha|].
    destruct (forallb numeric _) eqn:Hn; [|reflexivity].
    destruct (np_array_numeric _ Hn) as [a Ha']. congruence.
Qed.

Lemma extract_error float_repr raw variable location log e log' :
  _extract_variable_data float_repr raw variable location log = (inl e, log') ->
  e = TypeError.
Proof.
  destruct raw as [items|d|v]; intros H.
  - now apply extract_records_error in H.
  - rewrite extract_non_list in H by discriminate. discriminate.
  - rewrite extract_non_list in H by discriminate. discriminate.
Qed.

(** Data points made by the extractor have their [date]: the loop of the
    analyzer can only stop on a [time] that is no string. *)
Lemma collect_et_extracted_error items :
  forall et_values dates log e log',
    collect_et (map (to_point "et") items) et_values dates log = (inl e, log') ->
    e = TypeError.
Proof.
  induction items as [|item rest IH]; intros ev ds log e log' H; [discriminate|].
  cbn [map] in H. rewrite collect_et_cons in H.
  destruct (to_point "et" item !! "ET") as [et|]; [destruct (is_not_None et)|];
    try (now apply IH in H).
  unfold bind, lift, dict_subscript in H. rewrite to_point_date in H.
  destruct (dict_get item "time") as [| | |s]; try (now injection H as <-).
  destruct (strptime s); [now apply IH in H|].
  unfold logger in H. now apply IH in H.
Qed.

Lemma et_statistics_error et_values dates e :
  et_statistics et_values dates = inl e ->
  (e = TypeError /\ forallb numeric et_values = false) \/ e = IndexError.
Proof.
  unfold et_statistics. destruct (np_array et_values) as [e'|a] eqn:Ha.
  - intros [= <-]. left. split; [now apply np_array_error in Ha|].
    destruct (forallb numeric et_values) eqn:Hn; [|reflexivity].
    destruct (np_array_numeric _ Hn) as [a Ha']. congruence.
  - unfold subscript, subscript_last.
    destruct (dates !! np_argmax a); [|intros [= <-]; now right].
    destruct (dates !! 0%nat); [|intros [= <-]; now right].
    destruct (last dates); [discriminate|intros [= <-]; now right].
Qed.

Lemma analyze_error_inv data_points log e log' :
  _analyze_et_data data_points log = (inl e, log') ->
  (exists l, collect_et data_points [] [] log = (inl e, l)) \/
  (exists dates, et_statistics (et_values_of data_points) dates = inl e).
Proof.
  unfold _analyze_et_data. destruct data_points as [|p rest]; [discriminate|].
  unfold bind.
  destruct (collect_et (p :: rest) [] [] log) as [[e'|[ev ds]] l] eqn:Hc.
  - intros [= <- <-]. left. now exists l.
  - pose proof (collect_et_values _ _ _ _ _ _ _ Hc) as Hev. cbn [app] in Hev. subst ev.
    cbn [fst snd]. destruct (et_values_of (p :: rest)) as [|v vs]; [discriminate|].
    unfold lift, ret. destruct (et_statistics (v :: vs) ds) as [e'|r] eqn:Hs; [|discriminate].
    intros [= <- <-]. right. now exists ds.
Qed.

Lemma analyze_empty data_points log :
  et_values_of data_points = [] ->
  _analyze_et_data data_points log = (inr None, log).
Proof.
  intros H. unfold _analyze_et_data. destruct data_points as [|p rest]; [reflexivity|].
  unfold bind. rewrite (collect_et_none _ [] [] log H). reflexivity.
Qed.

(** Well-dated data points with numeric ET values are analyzed without
    an exception and without a message. *)
Lemma analyze_returns data_points log :
  forallb well_dated data_points = true ->
  forallb numeric (et_values_of data_points) = true ->
  exists r, _analyze_et_data data_points log = (inr r, log).
Proof.
  intros Hwd Hnum. destruct (et_values_of data_points) as [|v vs] eqn:Hv.
  - exists None. now apply analyze_empty.
  - destruct (analyze_well_dated data_points log Hwd) as (r & Hr & _);
      [now rewrite Hv|now rewrite Hv|]. now exists (Some r).
Qed.

Lemma well_dated_to_point items :
  forallb time_parses items = true ->
  forallb well_dated (map (to_point "et") items) = true.
Proof.
  induction items as [|item rest IH]; intros H; [reflexivity|].
  cbn [forallb map] in *. apply andb_prop in H as [Ht Hrest]. rewrite (IH Hrest), andb_true_r.
  unfold well_dated, date_of. rewrite to_point_date. unfold time_parses in Ht.
  destruct (et_value_of _); [|reflexivity].
  destruct (dict_get item "time") as [| | |s]; try discriminate.
  now destruct (strptime s).
Qed.

Lemma filter_forallb {A} (f : A -> bool) (l : list A) :
  forallb f (List.filter f l) = true.
Proof.
  apply forallb_forall. intros x Hin. now apply filter_In in Hin.
Qed.

Lemma extract_records_data float_repr raw variable location log r log' :
  _extract_variable_data float_repr raw variable location log = (inr r, log') ->
  Extracted.data_points r =
    map (to_point variable) (List.filter (kept variable) (records raw)).
Proof.
  destruct raw as [items|d|v]; intros H.
  - now destruct (extract_records _ _ _ _ _ _ _ H).
  - rewrite extract_non_list in H by discriminate. now injection H as <- _.
  - rewrite extract_non_list in H by discriminate. now injection H as <- _.
Qed.

Lemma extract_error_cause float_repr raw variable location log e log' :
  _extract_variable_data float_repr raw variable location log = (inl e, log') ->
  e = TypeError /\ forallb numeric (kept_values variable (records raw)) = false.
Proof.
  destruct raw as [items|d|v]; intros H.
  - now apply extract_records_error in H.
  - rewrite extract_non_list in H by discriminate. discriminate.
  - rewrite extract_non_list in H by discriminate. discriminate.
Qed.

(** X3. What makes [process_response] raise. The exception is
    [TypeError] or [IndexError], never [KeyError]: the data points the
    extractor builds always have their [date]. And there is a cause in the
    payloads: a kept NDVI or ET value that is no number, or a kept ET
    record whose [time] is no string that parses as a date. Payloads
    without such a record are processed without an exception. *)
Theorem process_response_raises_only_on_bad_records :
  forall float_repr raw_ndvi raw_et location log,
    (forall e log',
        process_response float_repr raw_ndvi raw_et location log = (inl e, log') ->
        (e = TypeError \/ e = IndexError) /\
        (forallb numeric (kept_values "ndvi" (records raw_ndvi)) = false \/
         forallb numeric (kept_values "et" (records raw_et)) = false \/
         forallb time_parses (List.filter (kept "et") (records raw_et)) = false)) /\
    (forallb numeric (kept_values "ndvi" (records raw_ndvi)) = true ->
     forallb numeric (kept_values "et" (records raw_et)) = true ->
     forallb time_parses (List.filter (kept "et") (records raw_et)) = true ->
     exists rep log',
       process_response float_repr raw_ndvi raw_et location log = (inr rep, log')).
Proof.
  intros float_repr raw_ndvi raw_et location log.
  assert (Herr : forall e log',
    process_response float_repr raw_ndvi raw_et location log = (inl e, log') ->
    (e = TypeError \/ e = IndexError) /\
    (forallb numeric (kept_values "ndvi" (records raw_ndvi)) = false \/
     forallb numeric (kept_values "et" (records raw_et)) = false \/
     forallb time_parses (List.filter (kept "et") (records raw_et)) = false)).
  { intros e log'. unfold process_response, bind, lift, ret.
    destruct (_extract_variable_data float_repr raw_ndvi "ndvi" location log)
      as [[e1|nd] l1] eqn:Hn.
    { intros [= <- <-]. apply extract_error_cause in Hn as [-> Hn]. auto. }
    destruct (_extract_variable_data float_repr raw_et "et" location l1)
      as [[e2|ed] l2] eqn:He.
    { intros [= <- <-]. apply extract_error_cause in He as [-> He]. auto. }
    pose proof (extract_records_data _ _ _ _ _ _ _ Hn) as Hnd.
    pose proof (extract_records_data _ _ _ _ _ _ _ He) as Hed.
    destruct (_analyze_et_data (Extracted.data_points ed) l2) as [[e3|an] l3] eqn:Ha.
    { intros [= <- <-]. split.
      - apply analyze_error_inv in Ha as [[l Hc]|[ds Hs]].
        + left. rewrite Hed in Hc. now apply collect_et_extracted_error in Hc.
        + apply et_statistics_error in Hs as [[-> _] | ->]; auto.
      - destruct (forallb numeric (kept_values "et" (records raw_et))) eqn:Hnum; [|auto].
        destruct (forallb time_parses (List.filter (kept "et") (records raw_et))) eqn:Ht;
          [|auto].
        exfalso. rewrite Hed in Ha.
        destruct (analyze_returns (map (to_point "et")
                    (List.filter (kept "et") (records raw_et))) l2) as [r Hr].
        + now apply well_dated_to_point.
        + rewrite et_values_of_to_point by apply filter_forallb. exact Hnum.
        + congruence. }
    destruct (_generate_vegetation_summary (Extracted.data_points nd)) as [e4|vs] eqn:Hv;
      [|discriminate].
    intros [= <- <-]. unfold _generate_vegetation_summary in Hv.
    destruct (Extracted.data_points nd) as [|p ps] eqn:Hp; [discriminate|].
    destruct (ndvi_values_of (p :: ps)) as [|v vs] eqn:Hvs; [discriminate|].
    destruct (np_array (v :: vs)) eqn:Ha'; [|discriminate].
    injection Hv as <-. split; [left; now apply np_array_error in Ha'|]. left.
    destruct (forallb numeric (kept_values "ndvi" (records raw_ndvi))) eqn:Hnum;
      [|reflexivity].
    exfalso. rewrite Hnd, ndvi_values_of_to_point in Hvs by apply filter_forallb.
    unfold kept_values in Hnum. change (lower "ndvi") with "ndvi" in Hnum.
    rewrite Hvs in Hnum. destruct (np_array_numeric _ Hnum) as [a Ha'']. congruence. }
  split; [exact Herr|].
  intros H1 H2 H3.
  destruct (process_response float_repr raw_ndvi raw_et location log) as [[e|rep] l] eqn:Hp.
  - destruct (Herr e l eq_refl) as [_ [H|[H|H]]]; congruence.
  - eauto.
Qed.

(* ===================================================================== *)
(** ** What the analyzer raises *)
(* ===================================================================== *)

Lemma forallb_app_true {A} (f : A -> bool) (l1 l2 : list A) :
  forallb f (l1 ++ l2) = true -> forallb f l1 = true /\ forallb f l2 = true.
Proof. rewrite forallb_app. apply andb_prop. Qed.

(** The loop run over a well-dated prefix, then the rest. *)
Lemma collect_et_app before after :
  forall et_values dates log,
    forallb well_dated before = true ->
    collect_et (before ++ after) et_values dates log =
    collect_et after (et_values ++ et_values_of before) (dates ++ dates_of before) log.
Proof.
  induction before as [|point rest IH]; intros ev ds log H.
  - cbn. now rewrite !app_nil_r.
  - cbn [forallb] in H. apply andb_prop in H as [Hp Hrest].
    cbn [app]. rewrite collect_et_cons, et_values_of_cons, dates_of_cons.
    unfold well_dated, date_of in Hp. unfold date_of. unfold et_value_of in *.
    destruct (point !! "ET") as [et|]; [destruct (is_not_None et)|]; try (now apply IH).
    unfold bind, lift, dict_subscript.
    destruct (point !! "date") as [[| | |s]|]; try discriminate.
    destruct (strptime s) as [d|]; [|discriminate].
    rewrite IH by assumption. now rewrite <- !app_assoc.
Qed.

(** X4. The exceptions of [_analyze_et_data]. After data points that
    are well dated, a data point with an ET value and no [date] key makes
    the analyzer raise [KeyError('date')], and one whose [date] is not a
    string makes it raise [TypeError] (only [ValueError] is handled);
    when all data points are well dated, an ET value that is no number
    makes it raise [TypeError]. Nothing is logged before the exception. *)
Theorem analyzer_exceptions :
  (forall before point after log et,
      forallb well_dated before = true ->
      et_value_of point = Some et ->
      point !! "date" = None ->
      _analyze_et_data (before ++ point :: after) log = (inl (KeyError "date"), log)) /\
  (forall before point after log et date,
      forallb well_dated before = true ->
      et_value_of point = Some et ->
      point !! "date" = Some date ->
      (forall s, date <> PStr s) ->
      _analyze_et_data (before ++ point :: after) log = (inl TypeError, log)) /\
  (forall data_points log,
      forallb well_dated data_points = true ->
      forallb numeric (et_values_of data_points) = false ->
      _analyze_et_data data_points log = (inl TypeError, log)).
Proof.
  split; [|split].
  - intros before point after log et Hwd Het Hdate.
    unfold _analyze_et_data. destruct (before ++ point :: after) eqn:E;
      [now destruct before|]. rewrite <- E. clear E.
    erewrite bind_error; [reflexivity|].
    rewrite collect_et_app by assumption. rewrite collect_et_cons.
    unfold et_value_of in Het. destruct (point !! "ET") as [v|]; [|discriminate].
    destruct (is_not_None v); [|discriminate].
    unfold bind, lift, dict_subscript. now rewrite Hdate.
  - intros before point after log et date Hwd Het Hdate Hns.
    unfold _analyze_et_data. destruct (before ++ point :: after) eqn:E;
      [now destruct before|]. rewrite <- E. clear E.
    erewrite bind_error; [reflexivity|].
    rewrite collect_et_app by assumption. rewrite collect_et_cons.
    unfold et_value_of in Het. destruct (point !! "ET") as [v|]; [|discriminate].
    destruct (is_not_None v); [|discriminate].
    unfold bind, lift, dict_subscript. rewrite Hdate.
    destruct date as [| | |s]; try reflexivity. now destruct (Hns s).
  - intros data_points log Hwd Hnum.
    unfold _analyze_et_data. destruct data_points as [|p rest]; [discriminate|].
    erewrite bind_ok by (apply collect_et_well_dated; exact Hwd).
    cbn [app fst snd]. destruct (et_values_of (p :: rest)) as [|v vs] eqn:Hv; [discriminate|].
    unfold bind, lift, et_statistics.
    destruct (np_array (v :: vs)) as [e|a] eqn:Ha.
    + now rewrite (np_array_error _ _ Ha).
    + assert (forallb numeric (v :: vs) = true); [|congruence].
      clear -Ha. revert a Ha. generalize (v :: vs). intros l.
      induction l as [|x t IH]; intros a Ha; [reflexivity|].
      cbn in Ha. cbn [forallb]. unfold numeric at 1.
      destruct (as_number x); [|discriminate].
      destruct (np_array t) as [|a'] eqn:Ht; [discriminate|]. now rewrite (IH a').
Qed.

(* ===================================================================== *)
(** ** Dates: [strptime] and [strftime] *)
(* ===================================================================== *)



















(* ===================================================================== *)
(** ** Totals *)
(* ===================================================================== *)

Lemma map_snd_combine {A B} (l : list A) (k : list B) :
  length l = length k -> map snd (combine l k) = k.
Proof.
  revert k. induction l as [|x l IH]; intros [|y k] H; try discriminate; [reflexivity|].
  injection H as H. cbn. now rewrite IH.
Qed.

(** Every pair is added to exactly one bucket. *)
Lemma seasonal_fold_sum pairs : forall s : seasonal Q,
  winter (fold_left add_season pairs s) + spring (fold_left add_season pairs s)
  + summer (fold_left add_season pairs s) + fall (fold_left add_season pairs s)
  == winter s + spring s + summer s + fall s + np_sum (map snd pairs).
Proof.
  induction pairs as [|p t IH]; intros s; cbn [fold_left map].
  - change (np_sum []) with 0. ring.
  - rewrite IH, np_sum_cons. unfold add_season.
    destruct (mem_Z (month (fst p)) [12; 1; 2]%Z);
      [| destruct (mem_Z (month (fst p)) [3; 4; 5]%Z);
         [| destruct (mem_Z (month (fst p)) [6; 7; 8]%Z)]];
      cbn [winter spring summer fall]; ring.
Qed.

Lemma Z_near (z : Z) (q : Q) : - q <= inject_Z z <= q -> q < 3 -> (Z.abs z <= 2)%Z.
Proof.
  intros [H1 H2] Hq.
  assert (Hlt : inject_Z z < inject_Z 3) by (change (inject_Z 3) with 3; lra).
  assert (Hgt : inject_Z (-3) < inject_Z z) by (change (inject_Z (-3)) with (-3); lra).
  rewrite <- Zlt_Qlt in Hlt, Hgt. lia.
Qed.

(** X6. Every observation is counted in exactly one season: for
    well-dated data points the four seasonal totals, each rounded to a
    whole number, add up to [total_et_mm] to within 2. *)
Theorem seasonal_totals_add_up_to_total :
  forall data_points log,
    forallb well_dated data_points = true ->
    forallb numeric (et_values_of data_points) = true ->
    et_values_of data_points <> [] ->
    exists r,
      _analyze_et_data data_points log = (inr (Some r), log) /\
      (Z.abs (ETAnalysis.total_et_mm r -
              (winter (ETAnalysis.seasonal_totals_mm r) +
               spring (ETAnalysis.seasonal_totals_mm r) +
               summer (ETAnalysis.seasonal_totals_mm r) +
               fall (ETAnalysis.seasonal_totals_mm r))) <= 2)%Z.
Proof.
  intros data_points log Hwd Hnum Hne.
  destruct (analyze_well_dated data_points log Hwd Hnum Hne) as (r & Hr & Hs).
  exists r. split; [exact Hr|]. stats_inv Hs.
  cbn [ETAnalysis.total_et_mm ETAnalysis.seasonal_totals_mm].
  unfold round_seasons. cbn [winter spring summer fall].
  pose proof (seasonal_fold_sum (combine (dates_of data_points) et_array)
                (mk_seasonal 0 0 0 0)) as Hsum.
  fold (seasonal_totals (combine (dates_of data_points) et_array)) in Hsum.
  rewrite map_snd_combine in Hsum
    by (rewrite (np_array_length _ _ Harray); now apply dates_of_length).
  cbn [winter spring summer fall] in Hsum.
  set (s := seasonal_totals (combine (dates_of data_points) et_array)) in *.
  pose proof (rint_nearest (np_sum et_array)) as H0.
  pose proof (rint_nearest (winter s)) as H1. pose proof (rint_nearest (spring s)) as H2.
  pose proof (rint_nearest (summer s)) as H3. pose proof (rint_nearest (fall s)) as H4.
  apply Qabs_Qle_condition in H0, H1, H2, H3, H4.
  apply (Z_near _ (5 # 2)); [|reflexivity].
  unfold Z.sub. rewrite inject_Z_plus, inject_Z_opp, !inject_Z_plus. lra.
Qed.

Lemma rint_Qeq (x y : Q) : x == y -> rint x = rint y.
Proof.
  intros H. unfold rint. rewrite <- (Qfloor_comp _ _ H).
  replace (2 * (y - inject_Z (Qfloor x)) ?= 1) with (2 * (x - inject_Z (Qfloor x)) ?= 1);
    [reflexivity|].
  apply Qcompare_comp; [lra|reflexivity].
Qed.

Lemma fold_add_year_lookup pairs : forall (m : gmap Z Q) y,
  default 0 (fold_left add_year pairs m !! y) == default 0 (m !! y) + year_sum y pairs.
Proof.
  induction pairs as [|p t IH]; intros m y; cbn [fold_left].
  - unfold year_sum. cbn [List.filter map]. change (np_sum []) with 0. ring.
  - rewrite IH. unfold year_sum, add_year. cbn [List.filter].
    destruct (Z.eqb_spec (year (fst p)) y) as [->|Hne].
    + rewrite lookup_insert_eq. cbn [map from_option]. unfold id.
      rewrite np_sum_cons. ring.
    + rewrite lookup_insert_ne by exact Hne. reflexivity.
Qed.

Lemma fold_add_year_dom pairs : forall (m : gmap Z Q) y,
  is_Some (fold_left add_year pairs m !! y) <->
  is_Some (m !! y) \/ exists p, In p pairs /\ year (fst p) = y.
Proof.
  induction pairs as [|p t IH]; intros m y; cbn [fold_left].
  - split; [auto|]. intros [H|(p & [] & _)]. exact H.
  - rewrite IH. unfold add_year. split.
    + intros [H|(q & Hin & Hq)].
      * destruct (Z.eq_dec (year (fst p)) y) as [E|E].
        -- right. exists p. split; [now left|exact E].
        -- rewrite lookup_insert_ne in H by exact E. now left.
      * right. exists q. split; [now right|exact Hq].
    + intros [H|(q & [<-|Hin] & Hq)].
      * left. destruct (Z.eq_dec (year (fst p)) y) as [E|E].
        -- rewrite E, lookup_insert_eq. eauto.
        -- now rewrite lookup_insert_ne.
      * left. rewrite Hq, lookup_insert_eq. eauto.
      * right. eauto.
Qed.

Lemma year_le_total : Total year_le.
Proof. intros a b. unfold year_le. lia. Qed.

Lemma year_le_transitive : Transitive year_le.
Proof. intros a b c. unfold year_le. lia. Qed.

Lemma strictly_sorted_keys (l : list (Z * Q)) :
  StronglySorted year_le l -> List.NoDup (map fst l) -> StronglySorted Z.lt (map fst l).
Proof.
  induction 1 as [|a l Hs IH Hall]; intros Hnd; cbn [map]; constructor.
  - apply IH. now inversion Hnd.
  - inversion Hnd as [|? ? Hnotin _]; subst.
    apply List.Forall_forall. intros y Hy.
    apply in_map_iff in Hy as (b & <- & Hb).
    rewrite List.Forall_forall in Hall. specialize (Hall b Hb). unfold year_le in Hall.
    assert (fst a <> fst b) by (intros E; apply Hnotin; rewrite E; now apply in_map).
    lia.
Qed.

Lemma fmap_is_map {A B} (f : A -> B) (l : list A) : f <$> l = map f l.
Proof. induction l as [|x l IH]; cbn; [reflexivity|]. now rewrite <- IH. Qed.

Lemma yearly_totals_mm_spec (pairs : list (datetime * Q)) :
  StronglySorted Z.lt (map fst (yearly_totals_mm pairs)) /\
  (forall y t,
      In (y, t) (yearly_totals_mm pairs) <->
      (exists p, In p pairs /\ year (fst p) = y) /\ t = rint (year_sum y pairs)).
Proof.
  unfold yearly_totals_mm.
  set (m := yearly_totals pairs).
  set (sorted := merge_sort year_le (map_to_list m)).
  assert (Hperm : sorted ≡ₚ map_to_list m) by apply merge_sort_Permutation.
  assert (Hin : forall y q, In (y, q) sorted <-> m !! y = Some q).
  { intros y q. rewrite <- list_elem_of_In, Hperm. apply elem_of_map_to_list. }
  split.
  - rewrite map_map. cbn [fst].
    apply strictly_sorted_keys.
    + apply (@StronglySorted_merge_sort _ year_le _ year_le_transitive year_le_total).
    + apply NoDup_ListNoDup. rewrite <- fmap_is_map, Hperm.
      apply NoDup_fst_map_to_list.
  - intros y t. rewrite in_map_iff. split.
    + intros ([y' q] & [= -> <-] & Hq). cbn [fst snd]. apply Hin in Hq.
      pose proof (fold_add_year_lookup pairs ∅ y) as Hl.
      pose proof (proj1 (fold_add_year_dom pairs ∅ y)) as Hd.
      fold (yearly_totals pairs) in Hl, Hd. fold m in Hl, Hd. rewrite Hq in Hl, Hd.
      rewrite lookup_empty in Hl. cbn [from_option] in Hl. unfold id in Hl. split.
      * destruct Hd as [[? Hd]|Hd]; [eauto| |exact Hd]. now rewrite lookup_empty in Hd.
      * apply rint_Qeq. rewrite Hl. ring.
    + intros [Hex ->].
      pose proof (fold_add_year_lookup pairs ∅ y) as Hl.
      pose proof (proj2 (fold_add_year_dom pairs ∅ y) (or_intror Hex)) as [q Hq].
      fold (yearly_totals pairs) in Hl, Hq. fold m in Hl, Hq. rewrite Hq in Hl.
      rewrite lookup_empty in Hl. cbn [from_option] in Hl. unfold id in Hl.
      exists (y, q). cbn [fst snd]. split; [|now apply Hin].
      f_equal. apply rint_Qeq. rewrite Hl. ring.
Qed.

Lemma np_array_numeric_values et_values a :
  np_array et_values = inr a -> forallb numeric et_values = true.
Proof.
  revert a. induction et_values as [|x t IH]; intros a Ha; [reflexivity|].
  cbn in Ha. cbn [forallb]. unfold numeric at 1.
  destruct (as_number x); [|discriminate].
  destruct (np_array t) as [|a'] eqn:Ht; [discriminate|]. now rewrite (IH a').
Qed.

(** X7. [yearly_totals_mm] of an analysis of well-dated data points
    lists the years that occur among the dates, each once and in
    ascending order, and gives for each year the sum of the ET values
    dated in that year, rounded to a whole number. *)
Theorem yearly_totals_by_ascending_year :
  forall data_points log et_array,
    forallb well_dated data_points = true ->
    np_array (et_values_of data_points) = inr et_array ->
    et_array <> [] ->
    exists r,
      _analyze_et_data data_points log = (inr (Some r), log) /\
      StronglySorted Z.lt (map fst (ETAnalysis.yearly_totals_mm r)) /\
      (forall y t,
          In (y, t) (ETAnalysis.yearly_totals_mm r) <->
          (exists p, In p (combine (dates_of data_points) et_array) /\ year (fst p) = y) /\
          t = rint (year_sum y (combine (dates_of data_points) et_array))).
Proof.
  intros data_points log a Hwd Ha Hne.
  pose proof (np_array_length _ _ Ha) as Hlen.
  pose proof (np_array_numeric_values _ _ Ha) as Hnum.
  assert (Hne' : et_values_of data_points <> []).
  { destruct (et_values_of data_points); [|discriminate].
    destruct a; [congruence|discriminate]. }
  destruct (analyze_well_dated data_points log Hwd Hnum Hne') as (r & Hr & Hs).
  exists r. split; [exact Hr|]. stats_inv Hs. injection Ha as <-.
  cbn [ETAnalysis.yearly_totals_mm]. apply yearly_totals_mm_spec.
Qed.

(* ===================================================================== *)
(** ** Extremes *)
(* ===================================================================== *)



Lemma pow10_pos n : 0 < pow10 n.
Proof.
  unfold pow10. change 0 with (inject_Z 0). rewrite <- Zlt_Qlt.
  apply Z.pow_pos_nonneg; lia.
Qed.









(* ===================================================================== *)
(** ** Variability *)
(* ===================================================================== *)

Lemma np_sum_nonneg a : Forall (fun y => 0 <= y) a -> 0 <= np_sum a.
Proof.
  induction 1 as [|x t Hx _ IH]; [change (np_sum []) with 0; lra|].
  rewrite np_sum_cons. lra.
Qed.

Lemma np_var_nonneg a : 0 <= np_var a.
Proof.
  unfold np_var, np_mean at 1. rewrite length_map.
  set (sq := map _ a).
  assert (Hs : 0 <= np_sum sq).
  { apply np_sum_nonneg. unfold sq. apply List.Forall_forall. intros y Hy.
    apply in_map_iff in Hy as (x & <- & _). apply Qsquare_nonneg. }
  destruct a as [|x t].
  - cbn [length]. unfold Qdiv. change (/ inject_Z (Z.of_nat 0)) with 0. lra.
  - apply Qle_shift_div_l; [|lra].
    change 0 with (inject_Z 0). rewrite <- Zlt_Qlt. cbn. lia.
Qed.

Lemma round_sqrt_nd_nonneg n q : 0 <= q -> 0 <= round_sqrt_nd n q.
Proof.
  intros Hq. unfold round_sqrt_nd. rewrite Qred_correct.
  pose proof (pow10_pos n) as Hp.
  assert (H0 : 0 <= q * pow10 n * pow10 n).
  { apply Qmult_le_0_compat; [apply Qmult_le_0_compat|]; lra. }
  destruct (rint_sqrt_nearest _ H0) as [Hk _].
  apply Qle_shift_div_l; [exact Hp|]. lra.
Qed.

(** X9. The variability block of every analysis: [std_dev_mm] is not
    negative; the coefficient of variation is 0 when
    [mean_monthly_et_mm] is not positive (no division by zero, and no
    negative coefficient), else the rounded quotient of the two rounded
    values; [consistency] is "high" below 0.3, "moderate" below 0.6 and
    "low" from 0.6 on, so it is "high" whenever the mean is not
    positive. *)
Theorem variability_block :
  forall data_points log r log',
    _analyze_et_data data_points log = (inr (Some r), log') ->
    let v := ETAnalysis.et_variability r in
    let mean := ETAnalysis.mean_monthly_et_mm r in
    0 <= ETAnalysis.std_dev_mm v /\
    (mean <= 0 ->
     ETAnalysis.coefficient_of_variation v = 0 /\ ETAnalysis.consistency v = "high") /\
    (0 < mean ->
     ETAnalysis.coefficient_of_variation v = round_nd 2 (ETAnalysis.std_dev_mm v / mean)) /\
    (ETAnalysis.coefficient_of_variation v < 3 # 10 -> ETAnalysis.consistency v = "high") /\
    (3 # 10 <= ETAnalysis.coefficient_of_variation v ->
     ETAnalysis.coefficient_of_variation v < 6 # 10 ->
     ETAnalysis.consistency v = "moderate") /\
    (6 # 10 <= ETAnalysis.coefficient_of_variation v -> ETAnalysis.consistency v = "low").
Proof.
  intros data_points log r log' H.
  destruct (analyze_inv _ _ _ _ H) as (dates & _ & _ & Hs). stats_inv Hs.
  cbv zeta.
  cbn [ETAnalysis.et_variability ETAnalysis.mean_monthly_et_mm ETAnalysis.std_dev_mm
       ETAnalysis.coefficient_of_variation ETAnalysis.consistency].
  set (mean := round_nd 1 (np_mean et_array)).
  set (sd := round_sqrt_nd 1 (np_var et_array)).
  split; [apply round_sqrt_nd_nonneg, np_var_nonneg|].
  split; [|split].
  - intros Hm. apply Qltb_ge in Hm. rewrite Hm. split; reflexivity.
  - intros Hm. apply Qltb_lt in Hm. now rewrite Hm.
  - generalize (if Qltb 0 mean then round_nd 2 (sd / mean) else 0). intros cv.
    unfold classify_consistency. repeat split.
    + intros Hc. apply Qltb_lt in Hc. now rewrite Hc.
    + intros H1 H2. apply Qltb_ge in H1. apply Qltb_lt in H2. now rewrite H1, H2.
    + intros H1.
      assert (H0 : Qltb cv (3 # 10) = false) by (apply Qltb_ge; lra).
      apply Qltb_ge in H1. now rewrite H0, H1.
Qed.

(* ===================================================================== *)
(** ** A series that grows by a fixed step *)
(* ===================================================================== *)

Lemma np_sum_Forall2 l l' : Forall2 Qeq l l' -> np_sum l == np_sum l'.
Proof.
  induction 1 as [|x y l l' Hxy _ IH]; [reflexivity|].
  rewrite !np_sum_cons, Hxy, IH. reflexivity.
Qed.

Lemma dot_Forall2 x l l' : Forall2 Qeq l l' -> dot x l == dot x l'.
Proof.
  intros H. revert x. induction H as [|a b l l' Hab _ IH]; intros [|u x]; try reflexivity.
  unfold dot in *. cbn [combine map fst snd]. rewrite !np_sum_cons, Hab, (IH x). reflexivity.
Qed.

Lemma arithmetic_series_S c b n :
  arithmetic_series c b (S n) =
  arithmetic_series c b n ++ [c + b * inject_Z (Z.of_nat n)].
Proof. unfold arithmetic_series. rewrite seq_S, map_app. reflexivity. Qed.

Lemma length_arithmetic_series c b n : length (arithmetic_series c b n) = n.
Proof. unfold arithmetic_series. now rewrite length_map, length_seq. Qed.

Lemma arithmetic_series_sums c b n :
  np_sum (arithmetic_series c b n) ==
    inject_Z (Z.of_nat n) * c + b * np_sum (np_arange n) /\
  dot (np_arange n) (arithmetic_series c b n) ==
    c * np_sum (np_arange n) + b * dot (np_arange n) (np_arange n).
Proof.
  induction n as [|n [IH1 IH2]].
  - unfold arithmetic_series, np_arange, dot, np_sum. cbn [seq map combine fold_left].
    change (inject_Z (Z.of_nat 0)) with 0. split; ring.
  - rewrite arithmetic_series_S, arange_S, !np_sum_app, !dot_app, inject_Z_S
      by (now rewrite length_arange, ?length_arithmetic_series).
    rewrite IH1, IH2. unfold dot at 2 4. cbn [combine map fst snd].
    rewrite !np_sum_cons. change (np_sum []) with 0. split; ring.
Qed.

(** [np.polyfit] finds the step of an arithmetic series. *)
Lemma polyfit_slope_arithmetic c b n y :
  (2 <= n)%nat ->
  Forall2 Qeq y (arithmetic_series c b n) ->
  polyfit_slope (np_arange n) y == b.
Proof.
  intros Hn Hy. unfold polyfit_slope. rewrite length_arange.
  rewrite (np_sum_Forall2 _ _ Hy), (dot_Forall2 _ _ _ Hy).
  destruct (arithmetic_series_sums c b n) as [-> ->].
  pose proof (arange_denominator_pos n Hn) as HD.
  set (q := inject_Z (Z.of_nat n)) in *. set (Sx := np_sum (np_arange n)) in *.
  set (Sxx := dot (np_arange n) (np_arange n)) in *.
  field. lra.
Qed.

Lemma round_nd_Qeq n x y : x == y -> round_nd n x = round_nd n y.
Proof.
  intros H. unfold round_nd. rewrite (rint_Qeq (x * pow10 n) (y * pow10 n)); [reflexivity|].
  now rewrite H.
Qed.

Lemma Qltb_Qeq x y x' y' : x == x' -> y == y' -> Qltb x y = Qltb x' y'.
Proof.
  intros Hx Hy. destruct (Qltb x' y') eqn:E.
  - apply Qltb_lt. apply Qltb_lt in E. lra.
  - apply Qltb_ge. apply Qltb_ge in E. lra.
Qed.

Lemma classify_trend_Qeq x y : x == y -> classify_trend x = classify_trend y.
Proof.
  intros H. unfold classify_trend.
  rewrite (Qltb_Qeq (Qabs x) (1 # 10) (Qabs y) (1 # 10)), (Qltb_Qeq 0 x 0 y);
    try reflexivity; try assumption. now rewrite H.
Qed.

(** X10. A series that grows by the same step [b] from one observation
    to the next is reported with exactly that step: for two or more
    well-dated observations whose ET values are [c], [c + b], [c + 2 b],
    ..., the slope is [b] rounded to three decimals and the trend is the
    class of [b], whatever the dates. A constant series is stable with
    slope 0. *)
Theorem arithmetic_series_has_its_step_as_slope :
  forall data_points log et_array (c b : Q),
    forallb well_dated data_points = true ->
    np_array (et_values_of data_points) = inr et_array ->
    (2 <= length et_array)%nat ->
    Forall2 Qeq et_array (arithmetic_series c b (length et_array)) ->
    exists r,
      _analyze_et_data data_points log = (inr (Some r), log) /\
      ETAnalysis.trend_slope_mm_per_month r = round_nd 3 b /\
      ETAnalysis.monthly_trend r = classify_trend b /\
      (b == 0 ->
       ETAnalysis.trend_slope_mm_per_month r = 0 /\
       ETAnalysis.monthly_trend r = "stable").
Proof.
  intros data_points log a c b Hwd Ha Hn Hy.
  pose proof (np_array_length _ _ Ha) as Hlen.
  assert (Hnum : forallb numeric (et_values_of data_points) = true).
  { clear -Ha. revert a Ha. induction (et_values_of data_points) as [|x t IH];
      intros a Ha; [reflexivity|].
    cbn in Ha. cbn [forallb]. unfold numeric at 1.
    destruct (as_number x); [|discriminate].
    destruct (np_array t) as [|a'] eqn:Ht; [discriminate|]. now rewrite (IH a'). }
  assert (Hne : et_values_of data_points <> []).
  { destruct (et_values_of data_points); [cbn in Hlen; lia|discriminate]. }
  destruct (analyze_well_dated data_points log Hwd Hnum Hne) as (r & Hr & Hs).
  exists r. split; [exact Hr|]. stats_inv Hs. injection Ha as <-.
  cbn [ETAnalysis.trend_slope_mm_per_month ETAnalysis.monthly_trend].
  rewrite <- Hlen. assert (Hlt : (1 <? length et_array)%nat = true) by (apply Nat.ltb_lt; lia).
  rewrite Hlt. cbn [fst snd].
  pose proof (polyfit_slope_arithmetic c b (length et_array) et_array Hn Hy) as Hslope.
  rewrite (round_nd_Qeq 3 _ _ Hslope), (classify_trend_Qeq _ _ Hslope).
  split; [reflexivity|]. split; [reflexivity|].
  intros Hb. rewrite (round_nd_Qeq 3 _ _ Hb), (classify_trend_Qeq _ _ Hb). split; reflexivity.
Qed.

(* ===================================================================== *)
(** ** The extracted series *)
(* ===================================================================== *)

Lemma last_map {A B} (f : A -> B) (l : list A) : last (map f l) = option_map f (last l).
Proof.
  induction l as [|x [|y t] IH]; [reflexivity|reflexivity|].
  cbn [map] in *. rewrite !last_cons_cons. exact IH.
Qed.

(** X11. The series the extractor returns for a list. When no item is
    kept it logs the warning "No <variable> data found in response" and
    returns 0 values, the date range "N/A" and the mean 0. Otherwise it
    logs nothing; the date range is "<time> to <time>" of the first and
    the last kept item in list order (not the earliest and latest date),
    and the mean is that of the kept values rounded to three decimals.
    The mean is stored under [ndvi_mean] or [et_mean], the variable name
    in lower case, and not at all for another variable. *)
Theorem extracted_series_summary :
  forall float_repr items variable location log,
    let kept_items := List.filter (kept variable) items in
    let mean_entry := fun m : Q =>
      if String.eqb (lower variable) "ndvi" || String.eqb (lower variable) "et"
      then Some (lower variable +:+ "_mean", m) else None in
    (kept_items = [] ->
     _extract_variable_data float_repr (Records items) variable location log =
       (inr (Extracted.mk "OpenET" location 0 "N/A" [] (mean_entry 0)),
        log ++ [(WARNING, "No " +:+ variable +:+ " data found in response")])) /\
    (forall first final a,
        kept_items !! 0%nat = Some first ->
        last kept_items = Some final ->
        np_array (kept_values variable items) = inr a ->
        _extract_variable_data float_repr (Records items) variable location log =
          (inr (Extracted.mk "OpenET" location (length kept_items)
                  (py_str float_repr (dict_get first "time") +:+ " to " +:+
                   py_str float_repr (dict_get final "time"))
                  (map (to_point variable) kept_items)
                  (mean_entry (round_nd 3 (np_mean a)))),
           log)).
Proof.
  intros float_repr items variable location log. cbv zeta.
  assert (Hkey : forall m : Q,
    (if String.eqb (lower variable) "ndvi" then Some ("ndvi_mean", m)
     else if String.eqb (lower variable) "et" then Some ("et_mean", m) else None) =
    (if String.eqb (lower variable) "ndvi" || String.eqb (lower variable) "et"
     then Some (lower variable +:+ "_mean", m) else None)).
  { intros m. destruct (String.eqb_spec (lower variable) "ndvi") as [->|_]; [reflexivity|].
    destruct (String.eqb_spec (lower variable) "et") as [->|_]; reflexivity. }
  unfold _extract_variable_data. rewrite extract_loop_spec. cbn [app].
  rewrite kept_values_not_None. fold (kept_values variable items). unfold kept_values.
  split.
  - intros ->. cbn [map length]. unfold bind, logger, ret. now rewrite Hkey.
  - intros first final a H0 Hl Ha.
    destruct (List.filter (kept variable) items) as [|k ks] eqn:Hk; [discriminate|].
    cbn [lookup list_lookup] in H0. injection H0 as ->.
    assert (Hlast : last (map (to_point variable) (first :: ks)) =
                    Some (to_point variable final)) by now rewrite last_map, Hl.
    cbn [map] in *. unfold bind, lift, ret, subscript, subscript_last.
    cbn [lookup list_lookup]. rewrite Hlast. unfold dict_subscript.
    rewrite !to_point_date, Ha, Hkey. cbn [length]. rewrite length_map. reflexivity.
Qed.

(* ===================================================================== *)
(** ** A single observation *)
(* ===================================================================== *)




(* ===================================================================== *)
(** ** The properties above, on sample payloads *)
(* ===================================================================== *)

Lemma report_counts_agree_witness :
  let raw_ndvi := Records [ {[ "time" := PStr "2021-06-01"; "ndvi" := PFloat 0.5 ]};
                            {[ "time" := PStr "2021-07-01"; "ndvi" := PNone ]} ] in
  let raw_et := Records [ {[ "time" := PStr "2021-06-01"; "et" := PNone ]} ] in
  exists rep log',
    process_response (fun _ => "") raw_ndvi raw_et "36.5, -119.5" [] = (inr rep, log') /\
    (Report.et_analysis rep = None <-> Extracted.values_found (Report.ET rep) = 0%nat) /\
    (forall v, Report.vegetation_summary rep = Some v ->
               VegetationSummary.total_observations v =
                 Extracted.values_found (Report.NDVI rep)).
Proof.
  cbv zeta.
  destruct (process_response (fun _ => "")
              (Records [ {[ "time" := PStr "2021-06-01"; "ndvi" := PFloat 0.5 ]};
                         {[ "time" := PStr "2021-07-01"; "ndvi" := PNone ]} ])
              (Records [ {[ "time" := PStr "2021-06-01"; "et" := PNone ]} ])
              "36.5, -119.5" []) as [[e|rep] log'] eqn:E;
    [vm_compute in E; discriminate|].
  exists rep, log'. split; [reflexivity|].
  destruct (report_counts_agree _ _ _ _ _ _ _ E) as (_ & H2 & H3 & _).
  split; [exact H2|exact H3].
Defined.

Lemma one_variable_failing_leaves_the_other_witness :
  let raw_ndvi := Object {[ "detail" := PStr "Rate limit exceeded" ]} in
  let raw_et := Records [ {[ "time" := PStr "2021-06-01"; "et" := PInt 100 ]} ] in
  (forall items, raw_ndvi <> Records items) /\
  exists et_data analysis l2,
    process_response (fun _ => "") raw_ndvi raw_et "Polygon area" [] =
      (inr (Report.mk
              (Extracted.mk "OpenET" "Polygon area" 0 "N/A" [] (Some ("ndvi_mean", 0)))
              et_data analysis None), l2).
Proof.
  cbv zeta.
  assert (H : forall items,
             Object {[ "detail" := PStr "Rate limit exceeded" ]} <> Records items)
    by (intros items; discriminate).
  split; [exact H|].
  destruct (_extract_variable_data (fun _ => "")
              (Records [ {[ "time" := PStr "2021-06-01"; "et" := PInt 100 ]} ])
              "et" "Polygon area"
              ([] ++ [unexpected_format "ndvi"
                        (Object {[ "detail" := PStr "Rate limit exceeded" ]})]))
    as [[e|et_data] l1] eqn:E1; [vm_compute in E1; discriminate|].
  destruct (_analyze_et_data (Extracted.data_points et_data) l1)
    as [[e|analysis] l2] eqn:E2.
  { exfalso. vm_compute in E1. injection E1 as <- <-. vm_compute in E2. discriminate. }
  exists et_data, analysis, l2.
  exact (proj1 (one_variable_failing_leaves_the_other (fun _ => "") "Polygon area" [])
           _ _ _ _ _ _ H E1 E2).
Defined.

Lemma process_response_raises_only_on_bad_records_witness :
  let raw_ndvi := Records [ {[ "time" := PStr "2021-06-01"; "ndvi" := PFloat 0.5 ]} ] in
  let raw_et := Records [ {[ "time" := PStr "2021-06-01"; "et" := PInt 100 ]};
                          {[ "time" := PStr "June"; "et" := PNone ]} ] in
  forallb numeric (kept_values "ndvi" (records raw_ndvi)) = true /\
  forallb numeric (kept_values "et" (records raw_et)) = true /\
  forallb time_parses (List.filter (kept "et") (records raw_et)) = true /\
  exists rep log',
    process_response (fun _ => "") raw_ndvi raw_et "36.5, -119.5" [] = (inr rep, log').
Proof.
  cbv zeta.
  set (raw_ndvi := Records [ {[ "time" := PStr "2021-06-01"; "ndvi" := PFloat 0.5 ]} ]).
  set (raw_et := Records [ {[ "time" := PStr "2021-06-01"; "et" := PInt 100 ]};
                           {[ "time" := PStr "June"; "et" := PNone ]} ]).
  assert (H1 : forallb numeric (kept_values "ndvi" (records raw_ndvi)) = true)
    by (vm_compute; reflexivity).
  assert (H2 : forallb numeric (kept_values "et" (records raw_et)) = true)
    by (vm_compute; reflexivity).
  assert (H3 : forallb time_parses (List.filter (kept "et") (records raw_et)) = true)
    by (vm_compute; reflexivity).
  split; [exact H1|]. split; [exact H2|]. split; [exact H3|].
  exact (proj2 (process_response_raises_only_on_bad_records
                  (fun _ => "") raw_ndvi raw_et "36.5, -119.5" []) H1 H2 H3).
Defined.

Lemma analyzer_exceptions_witness :
  let before := [et_point "2021-06-01" (PInt 100)] in
  let point : gmap string pyval := {[ "ET" := PInt 90 ]} in
  forallb well_dated before = true /\
  et_value_of point = Some (PInt 90) /\
  point !! "date" = None /\
  _analyze_et_data (before ++ point :: [et_point "2021-08-01" (PInt 80)]) [] =
    (inl (KeyError "date"), []).
Proof.
  cbv zeta.
  assert (H1 : forallb well_dated [et_point "2021-06-01" (PInt 100)] = true)
    by (vm_compute; reflexivity).
  assert (H2 : et_value_of ({[ "ET" := PInt 90 ]} : gmap string pyval) = Some (PInt 90))
    by (vm_compute; reflexivity).
  assert (H3 : ({[ "ET" := PInt 90 ]} : gmap string pyval) !! "date" = None)
    by (vm_compute; reflexivity).
  split; [exact H1|]. split; [exact H2|]. split; [exact H3|].
  exact (proj1 analyzer_exceptions _ _ _ [] _ H1 H2 H3).
Defined.


Lemma seasonal_totals_add_up_to_total_witness :
  let data_points :=
    [et_point "2021-01-01" (PFloat 10.4); et_point "2021-04-01" (PFloat 10.4);
     et_point "2021-07-01" (PFloat 10.4); et_point "2021-10-01" (PFloat 10.4)] in
  forallb well_dated data_points = true /\
  forallb numeric (et_values_of data_points) = true /\
  et_values_of data_points <> [] /\
  exists r,
    _analyze_et_data data_points [] = (inr (Some r), []) /\
    (Z.abs (ETAnalysis.total_et_mm r -
            (winter (ETAnalysis.seasonal_totals_mm r) +
             spring (ETAnalysis.seasonal_totals_mm r) +
             summer (ETAnalysis.seasonal_totals_mm r) +
             fall (ETAnalysis.seasonal_totals_mm r))) <= 2)%Z.
Proof.
  cbv zeta.
  set (data_points :=
         [et_point "2021-01-01" (PFloat 10.4); et_point "2021-04-01" (PFloat 10.4);
          et_point "2021-07-01" (PFloat 10.4); et_point "2021-10-01" (PFloat 10.4)]).
  assert (H1 : forallb well_dated data_points = true) by (vm_compute; reflexivity).
  assert (H2 : forallb numeric (et_values_of data_points) = true)
    by (vm_compute; reflexivity).
  assert (H3 : et_values_of data_points <> []) by (vm_compute; discriminate).
  split; [exact H1|]. split; [exact H2|]. split; [exact H3|].
  exact (seasonal_totals_add_up_to_total data_points [] H1 H2 H3).
Defined.

Lemma yearly_totals_by_ascending_year_witness :
  let data_points :=
    [et_point "2022-01-01" (PInt 10); et_point "2021-06-01" (PFloat 20.5);
     et_point "2022-02-01" (PInt 30)] in
  forallb well_dated data_points = true /\
  np_array (et_values_of data_points) = inr [10; 20.5; 30] /\
  exists r,
    _analyze_et_data data_points [] = (inr (Some r), []) /\
    StronglySorted Z.lt (map fst (ETAnalysis.yearly_totals_mm r)).
Proof.
  cbv zeta.
  set (data_points :=
         [et_point "2022-01-01" (PInt 10); et_point "2021-06-01" (PFloat 20.5);
          et_point "2022-02-01" (PInt 30)]).
  assert (H1 : forallb well_dated data_points = true) by (vm_compute; reflexivity).
  assert (H2 : np_array (et_values_of data_points) = inr [10; 20.5; 30])
    by (vm_compute; reflexivity).
  assert (H3 : [10; 20.5; 30] <> []) by discriminate.
  split; [exact H1|]. split; [exact H2|].
  destruct (yearly_totals_by_ascending_year data_points [] _ H1 H2 H3) as (r & Hr & Hs & _).
  exists r. split; [exact Hr|exact Hs].
Defined.


Lemma variability_block_witness :
  exists r log',
    _analyze_et_data
      [et_point "2021-06-01" (PInt (-4)); et_point "2021-07-01" (PInt 2)] [] =
      (inr (Some r), log') /\
    0 <= ETAnalysis.std_dev_mm (ETAnalysis.et_variability r) /\
    (ETAnalysis.mean_monthly_et_mm r <= 0 ->
     ETAnalysis.coefficient_of_variation (ETAnalysis.et_variability r) = 0 /\
     ETAnalysis.consistency (ETAnalysis.et_variability r) = "high").
Proof.
  destruct (_analyze_et_data
              [et_point "2021-06-01" (PInt (-4)); et_point "2021-07-01" (PInt 2)] [])
    as [[e|[r|]] log'] eqn:E;
    [vm_compute in E; discriminate| |vm_compute in E; discriminate].
  exists r, log'. split; [reflexivity|].
  destruct (variability_block _ _ _ _ E) as (H1 & H2 & _).
  split; [exact H1|exact H2].
Defined.

Lemma arithmetic_series_has_its_step_as_slope_witness :
  let data_points :=
    [et_point "2021-05-01" (PInt 50); et_point "2021-06-01" (PFloat 51.5);
     et_point "2021-07-01" (PInt 53)] in
  forallb well_dated data_points = true /\
  np_array (et_values_of data_points) = inr [50; 51.5; 53] /\
  (2 <= length [50; 51.5; 53]%Q)%nat /\
  Forall2 Qeq [50; 51.5; 53] (arithmetic_series 50 1.5 (length [50; 51.5; 53])) /\
  exists r,
    _analyze_et_data data_points [] = (inr (Some r), []) /\
    ETAnalysis.trend_slope_mm_per_month r = round_nd 3 1.5 /\
    ETAnalysis.monthly_trend r = classify_trend 1.5.
Proof.
  cbv zeta.
  set (data_points :=
         [et_point "2021-05-01" (PInt 50); et_point "2021-06-01" (PFloat 51.5);
          et_point "2021-07-01" (PInt 53)]).
  assert (H1 : forallb well_dated data_points = true) by (vm_compute; reflexivity).
  assert (H2 : np_array (et_values_of data_points) = inr [50; 51.5; 53])
    by (vm_compute; reflexivity).
  assert (H3 : (2 <= length [50; 51.5; 53]%Q)%nat) by (cbn; lia).
  assert (H4 : Forall2 Qeq [50; 51.5; 53]
                 (arithmetic_series 50 1.5 (length [50; 51.5; 53])))
    by (repeat constructor; vm_compute; reflexivity).
  split; [exact H1|]. split; [exact H2|]. split; [exact H3|]. split; [exact H4|].
  destruct (arithmetic_series_has_its_step_as_slope data_points [] _ 50 1.5 H1 H2 H3 H4)
    as (r & Hr & Hs & Ht & _).
  exists r. split; [exact Hr|]. split; [exact Hs|exact Ht].
Defined.

Lemma extracted_series_summary_witness :
  let items : list (gmap string pyval) :=
    [ {[ "time" := PStr "2021-07-01"; "ndvi" := PFloat 0.5 ]};
      {[ "time" := PStr "2021-08-01"; "ndvi" := PNone ]};
      {[ "time" := PStr "2021-06-01"; "ndvi" := PFloat 0.25 ]} ] in
  List.filter (kept "NDVI") [] = [] /\
  _extract_variable_data (fun _ => "") (Records []) "NDVI" "36.5, -119.5" [] =
    (inr (Extracted.mk "OpenET" "36.5, -119.5" 0 "N/A" [] (Some ("ndvi_mean", 0))),
     [(WARNING, "No NDVI data found in response")]) /\
  np_array (kept_values "NDVI" items) = inr [0.5; 0.25] /\
  exists r,
    _extract_variable_data (fun _ => "") (Records items) "NDVI" "36.5, -119.5" [] =
      (inr r, []) /\
    Extracted.values_found r = 2%nat /\
    Extracted.date_range r = "2021-07-01 to 2021-06-01" /\
    Extracted.mean r = Some ("ndvi_mean", round_nd 3 (np_mean [0.5; 0.25])).
Proof.
  cbv zeta.
  set (items := [ {[ "time" := PStr "2021-07-01"; "ndvi" := PFloat 0.5 ]};
                  {[ "time" := PStr "2021-08-01"; "ndvi" := PNone ]};
                  {[ "time" := PStr "2021-06-01"; "ndvi" := PFloat 0.25 ]} ]
                : list (gmap string pyval)).
  assert (H0 : List.filter (kept "NDVI") [] = []) by reflexivity.
  assert (H1 : List.filter (kept "NDVI") items !! 0%nat =
               Some {[ "time" := PStr "2021-07-01"; "ndvi" := PFloat 0.5 ]})
    by (vm_compute; reflexivity).
  assert (H2 : last (List.filter (kept "NDVI") items) =
               Some {[ "time" := PStr "2021-06-01"; "ndvi" := PFloat 0.25 ]})
    by (vm_compute; reflexivity).
  assert (H3 : np_array (kept_values "NDVI" items) = inr [0.5; 0.25])
    by (vm_compute; reflexivity).
  split; [exact H0|]. split.
  { exact (proj1 (extracted_series_summary (fun _ => "") [] "NDVI" "36.5, -119.5" []) H0). }
  split; [exact H3|].
  eexists. split.
  { exact (proj2 (extracted_series_summary (fun _ => "") items "NDVI" "36.5, -119.5" [])
             _ _ _ H1 H2 H3). }
  cbn [Extracted.values_found Extracted.date_range Extracted.mean].
  split; [vm_compute; reflexivity|]. split; vm_compute; reflexivity.
Defined.


(* ===================================================================== *)
(** ** The polygon field *)
(* ===================================================================== *)

Import PolygonQuerySerializer.

Lemma flatten_ring_length coords : forall acc flat,
  flatten_ring coords acc = inr flat ->
  length flat = (length acc + 2 * length coords)%nat.
Proof.
  induction coords as [|c rest IH]; intros acc flat H; cbn [flatten_ring] in H.
  - injection H as <-. cbn. lia.
  - destruct c as [| | | | |[|lon [|lat extra]]|]; try discriminate.
    apply IH in H. rewrite H, length_app. cbn. lia.
Qed.

Lemma flatten_pairs_length items :
  forallb is_pair items = true -> length (flatten_pairs items) = (2 * length items)%nat.
Proof.
  induction items as [|c rest IH]; intros H; [reflexivity|].
  cbn [forallb] in H. apply andb_prop in H as [Hc Hrest].
  unfold flatten_pairs in *. cbn [flat_map]. rewrite length_app, (IH Hrest).
  destruct c as [| | | | |[|a [|b [|? ?]]]|]; try discriminate. cbn. lia.
Qed.

Lemma accepted_shape value flat :
  validate_polygon value = inr flat ->
  (6 <= length flat)%nat /\ Nat.even (length flat) = true.
Proof.
  intros H. unfold validate_polygon in H.
  destruct value as [| | | | |[|x items]|geojson]; try discriminate.
  - destruct (forallb is_number (x :: items)).
    + destruct (length (x :: items) <? 6)%nat eqn:E6; [discriminate|].
      destruct (negb (length (x :: items) mod 2 =? 0)%nat) eqn:E2; [discriminate|].
      injection H as <-. apply Nat.ltb_ge in E6. apply negb_false_iff, Nat.eqb_eq in E2.
      split; [exact E6|]. apply Nat.even_spec. exists (length (x :: items) / 2)%nat.
      pose proof (Nat.div_mod_eq (length (x :: items)) 2). lia.
    + destruct (forallb is_pair (x :: items)) eqn:Ep; [|discriminate].
      destruct (length (x :: items) <? 3)%nat eqn:E3; [discriminate|].
      apply Nat.ltb_ge in E3. pose proof (flatten_pairs_length _ Ep) as Hlen.
      assert (Hflat : flat = flatten_pairs (x :: items)) by congruence.
      rewrite Hflat, Hlen.
      split; [lia|]. apply Nat.even_spec. now exists (length (x :: items)).
  - destruct (_extract_coordinates_from_geojson geojson) as [e|[coords|]]; try discriminate.
    destruct (length coords <? 3)%nat eqn:E3; [discriminate|].
    apply Nat.ltb_ge in E3. apply flatten_ring_length in H. rewrite H. cbn [length].
    split; [lia|]. apply Nat.even_spec. exists (length coords). lia.
Qed.

(* --------------------------------------------------------------------- *)

Lemma object_with_member (g : gmap string json) k v :
  g !! k = Some v -> bool_decide (g = ∅) = false.
Proof.
  intros H. apply bool_decide_eq_false. intros ->. now rewrite lookup_empty in H.
Qed.

Lemma truthy_object (g : gmap string json) k v :
  g !! k = Some v -> json_truthy (JObject g) = true.
Proof.
  intros H. cbn. now rewrite (object_with_member g k v H).
Qed.

Lemma geojson_polygon g rings :
  is_polygon g rings ->
  _extract_coordinates_from_geojson g = _extract_coordinates_from_geometry (JObject g).
Proof.
  intros [Ht _]. unfold _extract_coordinates_from_geojson, json_get. rewrite Ht. reflexivity.
Qed.

Lemma geojson_feature f g rings :
  is_feature f (JObject g) -> is_polygon g rings ->
  _extract_coordinates_from_geojson f = _extract_coordinates_from_geometry (JObject g).
Proof.
  intros [Ht Hg] [Hp _]. unfold _extract_coordinates_from_geojson, json_get.
  rewrite Ht, Hg. cbn [default from_option is_str String.eqb]. unfold id.
  cbv [is_str String.eqb Ascii.eqb Bool.eqb]. cbv beta iota.
  cbv [json_truthy negb]. now rewrite (object_with_member g _ _ Hp).
Qed.

(** X13. The GeoJSON wrappers are transparent: a Feature holding a
    Polygon, and a FeatureCollection holding that one Feature, are
    validated exactly as the Polygon itself, to the same flat array or
    the same error, whatever other members the wrappers have. *)
Theorem geojson_wrappers_are_transparent :
  forall (g f c : gmap string json) rings,
    is_polygon g rings ->
    is_feature f (JObject g) ->
    c !! "type" = Some (JStr "FeatureCollection") ->
    c !! "features" = Some (JList [JObject f]) ->
    validate_polygon (JObject f) = validate_polygon (JObject g) /\
    validate_polygon (JObject c) = validate_polygon (JObject g).
Proof.
  intros g f c rings Hg Hf Hc Hfs. unfold validate_polygon.
  rewrite (geojson_polygon g rings Hg), (geojson_feature f g rings Hf Hg).
  split; [reflexivity|].
  assert (Hcg : _extract_coordinates_from_geojson c =
                _extract_coordinates_from_geometry (JObject g)).
  { destruct Hf as [Ht Hgeo]. destruct Hg as [Hp _].
    unfold _extract_coordinates_from_geojson, json_get. rewrite Hc, Hfs.
    cbv [default from_option id is_str String.eqb Ascii.eqb Bool.eqb json_truthy negb len
         length Nat.ltb Nat.leb first_item]. cbv beta iota.
    rewrite Ht, Hgeo.
    cbv [default from_option id is_str String.eqb Ascii.eqb Bool.eqb negb]. cbv beta iota.
    cbv [json_truthy negb]. now rewrite (object_with_member g _ _ Hp). }
  now rewrite Hcg.
Qed.

(* --------------------------------------------------------------------- *)

Lemma flatten_ring_positions ps : forall acc,
  flatten_ring (map position ps) acc = inr (acc ++ flat_map lon_lat ps).
Proof.
  induction ps as [|[[lon lat] extra] rest IH]; intros acc; cbn [map flat_map flatten_ring].
  - now rewrite app_nil_r.
  - unfold position at 1. cbn [fst snd]. rewrite IH. unfold lon_lat at 2. cbn [fst snd].
    now rewrite <- app_assoc.
Qed.

Lemma is_pair_position p : is_pair (position p) = two_entries p.
Proof. destruct p as [[lon lat] [|? ?]]; reflexivity. Qed.

Lemma forallb_is_pair_positions ps :
  forallb is_pair (map position ps) = forallb two_entries ps.
Proof.
  induction ps as [|p rest IH]; [reflexivity|].
  cbn [map forallb]. now rewrite is_pair_position, IH.
Qed.

Lemma flatten_pairs_positions ps :
  forallb two_entries ps = true -> flatten_pairs (map position ps) = flat_map lon_lat ps.
Proof.
  induction ps as [|[[lon lat] extra] rest IH]; intros H; [reflexivity|].
  cbn [forallb] in H. apply andb_prop in H as [Hp Hrest].
  unfold flatten_pairs in *. cbn [map flat_map]. rewrite (IH Hrest).
  destruct extra; [reflexivity|discriminate].
Qed.

Lemma length_lon_lat ps : length (flat_map lon_lat ps) = (2 * length ps)%nat.
Proof. induction ps as [|p rest IH]; [reflexivity|]. cbn [flat_map length app lon_lat]. lia. Qed.

Lemma even_double n : ((2 * n) mod 2 =? 0)%nat = true.
Proof. apply Nat.eqb_eq. rewrite Nat.mul_comm. apply Nat.Div0.mod_mul. Qed.

Lemma validate_polygon_list items :
  items <> [] ->
  validate_polygon (JList items) =
  if forallb is_number items then
    if (length items <? 6)%nat
    then inl (ValidationError (Message
           "Polygon must have at least 3 coordinate pairs (6 values)"))
    else if negb (Nat.eqb (length items mod 2) 0)
    then inl (ValidationError (Message
           "Polygon array must have an even number of values (lon/lat pairs)"))
    else inr items
  else if forallb is_pair items then
    if (length items <? 3)%nat
    then inl (ValidationError (Message "Polygon must have at least 3 coordinate pairs"))
    else inr (flatten_pairs items)
  else inl (ValidationError (Message
         "Invalid polygon format. Expected flat array or array of coordinate pairs")).
Proof. destruct items; [congruence|reflexivity]. Qed.

Lemma validate_flat_array items :
  items <> [] -> forallb is_number items = true ->
  (6 <= length items)%nat -> Nat.even (length items) = true ->
  validate_polygon (JList items) = inr items.
Proof.
  intros Hne Hnum H6 Heven. rewrite (validate_polygon_list items Hne), Hnum.
  apply Nat.ltb_ge in H6. rewrite H6.
  apply Nat.even_spec in Heven as [k Hk]. rewrite Hk, even_double. reflexivity.
Qed.

(** X14. One ring, every accepted notation, one flat array. For a ring
    of at least 3 positions (longitude, latitude, possibly more entries,
    of any JSON type: coordinates are not checked to be numbers):
    - as the outer ring of a GeoJSON Polygon, whatever inner rings
      follow, the result is the longitudes and latitudes in order, and
      further entries of a position (an altitude) are dropped;
    - as an array of pairs the result is the same when every position
      has exactly two entries, and the array is rejected as an invalid
      format when some position has more;
    - when the coordinates are numbers, the flat array itself is
      accepted and returned unchanged. *)
Theorem ring_notations_agree :
  forall (ps : list (json * json * list json)) (g : gmap string json) inner_rings,
    (3 <= length ps)%nat ->
    is_polygon g (JList (map position ps) :: inner_rings) ->
    validate_polygon (JObject g) = inr (flat_map lon_lat ps) /\
    (forallb two_entries ps = true ->
       validate_polygon (JList (map position ps)) = inr (flat_map lon_lat ps)) /\
    (forallb two_entries ps = false ->
       validate_polygon (JList (map position ps)) =
       inl (ValidationError (Message
         "Invalid polygon format. Expected flat array or array of coordinate pairs"))) /\
    (forallb is_number (flat_map lon_lat ps) = true ->
       validate_polygon (JList (flat_map lon_lat ps)) = inr (flat_map lon_lat ps)).
Proof.
  intros ps g inner Hlen Hg.
  assert (Hnum : forallb is_number (map position ps) = false).
  { destruct ps as [|p rest]; [cbn in Hlen; lia|]. reflexivity. }
  assert (Hne : map position ps <> []).
  { destruct ps as [|p rest]; [cbn in Hlen; lia|]. discriminate. }
  assert (Hl3 : (length (map position ps) <? 3)%nat = false).
  { apply Nat.ltb_ge. now rewrite length_map. }
  repeat split.
  - unfold validate_polygon. rewrite (geojson_polygon g _ Hg).
    destruct Hg as [Ht Hc]. unfold _extract_coordinates_from_geometry, json_get.
    rewrite Ht, Hc. cbn [default from_option]. unfold id.
    change (is_str "Polygon" (JStr "Polygon")) with true. cbn [negb].
    rewrite Hl3. apply (flatten_ring_positions ps []).
  - intros Hpairs.
    rewrite (validate_polygon_list _ Hne), Hnum, forallb_is_pair_positions, Hpairs, Hl3.
    now rewrite (flatten_pairs_positions ps Hpairs).
  - intros Hpairs.
    now rewrite (validate_polygon_list _ Hne), Hnum, forallb_is_pair_positions, Hpairs.
  - intros Hnums. apply validate_flat_array; trivial.
    + destruct ps as [|[[lon lat] extra] rest]; [cbn in Hlen; lia|]. discriminate.
    + rewrite length_lon_lat. lia.
    + rewrite length_lon_lat. apply Nat.even_spec. now exists (length ps).
Qed.

(** X15. Whatever [validate_polygon] accepts, it returns a flat array of
    at least 3 pairs: an even number of entries, 6 or more. And
    validation is idempotent on numeric polygons: the returned array, if
    its entries are numbers, is accepted again and returned unchanged. *)
Theorem validated_polygon_has_three_pairs :
  forall value flat_array,
    validate_polygon value = inr flat_array ->
    (6 <= length flat_array)%nat /\
    Nat.even (length flat_array) = true /\
    (forallb is_number flat_array = true ->
     validate_polygon (JList flat_array) = inr flat_array).
Proof.
  intros value flat H.
  destruct (accepted_shape value flat H) as [H6 Heven].
  split; [exact H6|]. split; [exact Heven|].
  intros Hnum. apply validate_flat_array; trivial.
  intros ->. cbn in H6. lia.
Qed.

(* --------------------------------------------------------------------- *)

Lemma is_str_eq s v : is_str s v = true <-> v = JStr s.
Proof.
  destruct v; cbn; try (split; [discriminate|congruence]).
  rewrite String.eqb_eq. split; congruence.
Qed.

Lemma geometry_raises_validation_error geometry e :
  _extract_coordinates_from_geometry geometry = inl e -> exists d, e = ValidationError d.
Proof.
  unfold _extract_coordinates_from_geometry. intros H.
  destruct geometry as [| | | | | |g]; try discriminate.
  destruct (negb _); [injection H as <-; eauto|].
  destruct (json_get g "coordinates") as [| | | | |[|[| | | | |ring|] ?]|];
    first [discriminate | injection H as <-; eauto].
Qed.

Lemma flatten_ring_raises_validation_error coords : forall acc e,
  flatten_ring coords acc = inl e -> exists d, e = ValidationError d.
Proof.
  induction coords as [|c rest IH]; intros acc e H; cbn [flatten_ring] in H; [discriminate|].
  destruct c as [| | | | |[|lon [|lat extra]]|];
    first [injection H as <-; eauto | eapply IH; eassumption].
Qed.

Lemma geojson_error geojson e :
  _extract_coordinates_from_geojson geojson = inl e ->
  (exists d, e = ValidationError d) \/
  (exists features,
     geojson !! "type" = Some (JStr "FeatureCollection") /\
     geojson !! "features" = Some features /\ features_raise e features).
Proof.
  unfold _extract_coordinates_from_geojson. intros H.
  destruct (is_str "FeatureCollection" (json_get geojson "type")) eqn:Efc.
  - apply is_str_eq in Efc.
    assert (Ht : geojson !! "type" = Some (JStr "FeatureCollection")).
    { unfold json_get in Efc. destruct (geojson !! "type"); [cbn in Efc; congruence|discriminate]. }
    destruct (geojson !! "features") as [features|] eqn:Ef; [|cbn in H; injection H as <-; eauto].
    cbn [default from_option] in H. unfold id in H.
    destruct (negb (json_truthy features)) eqn:Etruthy; [injection H as <-; eauto|].
    apply negb_false_iff in Etruthy.
    destruct features as [|b|z|q|s|l|d]; cbn [len] in H.
    + discriminate.
    + injection H as <-. right. exists (JBool b). split; [exact Ht|]. split; [reflexivity|].
      left. auto.
    + injection H as <-. right. exists (JInt z). split; [exact Ht|]. split; [reflexivity|].
      left. auto.
    + injection H as <-. right. exists (JFloat q). split; [exact Ht|]. split; [reflexivity|].
      left. auto.
    + destruct (1 <? String.length s)%nat; [injection H as <-; eauto|].
      destruct s as [|c s]; [discriminate|]. cbn [first_item] in H.
      injection H as <-; eauto.
    + destruct (1 <? length l)%nat; [injection H as <-; eauto|].
      destruct l as [|feature l]; [discriminate|]. cbn [first_item] in H.
      destruct feature as [| | | | | |feature]; try (injection H as <-; eauto).
      destruct (negb (is_str "Feature" _)); [injection H as <-; eauto|].
      destruct (negb (json_truthy _)); [injection H as <-; eauto|].
      left. eapply geometry_raises_validation_error; eassumption.
    + destruct (1 <? size d)%nat eqn:E1; [injection H as <-; eauto|].
      cbn [first_item] in H. injection H as <-.
      right. exists (JObject d). split; [exact Ht|]. split; [reflexivity|].
      right. split; [reflexivity|].
      exists d. split; [reflexivity|].
      apply Nat.ltb_ge in E1. cbn in Etruthy. apply negb_true_iff, bool_decide_eq_false in Etruthy.
      assert (size d <> 0)%nat by (intros Hs; apply Etruthy, map_size_empty_iff, Hs). lia.
  - left. destruct (is_str "Feature" _).
    + destruct (negb (json_truthy _)); [injection H as <-; eauto|].
      eapply geometry_raises_validation_error; eassumption.
    + destruct (is_str "Polygon" _); [|injection H as <-; eauto].
      eapply geometry_raises_validation_error; eassumption.
Qed.

Lemma feature_collection_raises geojson features e :
  geojson !! "type" = Some (JStr "FeatureCollection") ->
  geojson !! "features" = Some features ->
  features_raise e features ->
  _extract_coordinates_from_geojson geojson = inl e.
Proof.
  intros Ht Hf Hr. unfold _extract_coordinates_from_geojson, json_get. rewrite Ht, Hf.
  cbn [default from_option]. unfold id.
  change (is_str "FeatureCollection" (JStr "FeatureCollection")) with true. cbv iota.
  destruct Hr as [(-> & Hnum & Htruthy)|(-> & d & -> & Hsize)].
  - rewrite Htruthy. destruct features; try discriminate; reflexivity.
  - assert (Hd : json_truthy (JObject d) = true).
    { cbn. apply negb_true_iff, bool_decide_eq_false. intros ->.
      rewrite map_size_empty in Hsize. discriminate. }
    rewrite Hd. cbn [negb len first_item]. now rewrite Hsize.
Qed.

(** X16. What [validate_polygon] raises. It raises a [TypeError] exactly
    on a FeatureCollection whose [features] is a non-zero number or
    [true], a [KeyError] exactly on a FeatureCollection whose
    [features] is an object with one member, and never an
    [IndexError]; every other rejection is a [ValidationError]. So a
    request with such a FeatureCollection is not answered with the
    validation error of a bad polygon: the exception leaves the
    serializer. *)
Theorem polygon_rejections :
  forall value e,
    (validate_polygon value = inl e ->
     (exists d, e = ValidationError d) \/
     (exists geojson features,
        value = JObject geojson /\
        geojson !! "type" = Some (JStr "FeatureCollection") /\
        geojson !! "features" = Some features /\
        features_raise e features)) /\
    (forall geojson features,
       value = JObject geojson ->
       geojson !! "type" = Some (JStr "FeatureCollection") ->
       geojson !! "features" = Some features ->
       features_raise e features ->
       validate_polygon value = inl e).
Proof.
  intros value e. split.
  - intros H. unfold validate_polygon in H.
    destruct value as [| | | | |[|x items]|geojson];
      try (injection H as <-; left; eauto).
    + destruct (forallb is_number _).
      * destruct (_ <? _)%nat; [injection H as <-; left; eauto|].
        destruct (negb _); [injection H as <-; left; eauto|discriminate].
      * destruct (forallb is_pair _); [|injection H as <-; left; eauto].
        destruct (_ <? _)%nat; [injection H as <-; left; eauto|discriminate].
    + destruct (_extract_coordinates_from_geojson geojson) as [e'|[coords|]] eqn:E.
      * injection H as ->. destruct (geojson_error _ _ E) as [[d ->]|(features & Ht & Hf & Hr)].
        -- left; eauto.
        -- right. exists geojson, features. auto.
      * destruct (_ <? _)%nat; [injection H as <-; left; eauto|].
        destruct (flatten_ring_raises_validation_error _ _ _ H) as [d ->]. left; eauto.
      * injection H as <-; left; eauto.
  - intros geojson features -> Ht Hf Hr.
    unfold validate_polygon. now rewrite (feature_collection_raises _ _ _ Ht Hf Hr).
Qed.

(* --------------------------------------------------------------------- *)

Lemma geojson_wrappers_are_transparent_witness :
  let ring := JList [JList [JFloat (-119.5); JFloat 36.5];
                     JList [JFloat (-119.4); JFloat 36.5];
                     JList [JFloat (-119.4); JFloat 36.6];
                     JList [JFloat (-119.5); JFloat 36.5]] in
  let g : gmap string json := {[ "type" := JStr "Polygon"; "coordinates" := JList [ring] ]} in
  let f : gmap string json :=
    {[ "type" := JStr "Feature"; "properties" := JNull; "geometry" := JObject g ]} in
  let c : gmap string json :=
    {[ "type" := JStr "FeatureCollection"; "features" := JList [JObject f] ]} in
  is_polygon g [ring] /\
  is_feature f (JObject g) /\
  c !! "type" = Some (JStr "FeatureCollection") /\
  c !! "features" = Some (JList [JObject f]) /\
  validate_polygon (JObject f) = validate_polygon (JObject g) /\
  validate_polygon (JObject c) = validate_polygon (JObject g).
Proof.
  cbv zeta.
  set (ring := JList [JList [JFloat (-119.5); JFloat 36.5];
                      JList [JFloat (-119.4); JFloat 36.5];
                      JList [JFloat (-119.4); JFloat 36.6];
                      JList [JFloat (-119.5); JFloat 36.5]]).
  set (g := {[ "type" := JStr "Polygon"; "coordinates" := JList [ring] ]}
            : gmap string json).
  set (f := {[ "type" := JStr "Feature"; "properties" := JNull; "geometry" := JObject g ]}
            : gmap string json).
  set (c := {[ "type" := JStr "FeatureCollection"; "features" := JList [JObject f] ]}
            : gmap string json).
  assert (H1 : is_polygon g [ring]) by (split; reflexivity).
  assert (H2 : is_feature f (JObject g)) by (split; reflexivity).
  assert (H3 : c !! "type" = Some (JStr "FeatureCollection")) by reflexivity.
  assert (H4 : c !! "features" = Some (JList [JObject f])) by reflexivity.
  split; [exact H1|]. split; [exact H2|]. split; [exact H3|]. split; [exact H4|].
  exact (geojson_wrappers_are_transparent g f c [ring] H1 H2 H3 H4).
Defined.

Lemma ring_notations_agree_witness :
  let ps : list (json * json * list json) :=
    [ (JFloat (-119.5), JFloat 36.5, [JInt 90]); (JFloat (-119.4), JFloat 36.5, []);
      (JFloat (-119.4), JFloat 36.6, []) ] in
  let g : gmap string json :=
    {[ "type" := JStr "Polygon"; "coordinates" := JList [JList (map position ps)] ]} in
  (3 <= length ps)%nat /\
  is_polygon g [JList (map position ps)] /\
  forallb two_entries ps = false /\
  forallb is_number (flat_map lon_lat ps) = true /\
  validate_polygon (JObject g) = inr (flat_map lon_lat ps) /\
  validate_polygon (JList (map position ps)) =
    inl (ValidationError (Message
      "Invalid polygon format. Expected flat array or array of coordinate pairs")) /\
  validate_polygon (JList (flat_map lon_lat ps)) = inr (flat_map lon_lat ps).
Proof.
  cbv zeta.
  set (ps := [ (JFloat (-119.5), JFloat 36.5, [JInt 90]); (JFloat (-119.4), JFloat 36.5, []);
               (JFloat (-119.4), JFloat 36.6, []) ] : list (json * json * list json)).
  set (g := {[ "type" := JStr "Polygon"; "coordinates" := JList [JList (map position ps)] ]}
            : gmap string json).
  assert (H1 : (3 <= length ps)%nat) by (cbn; lia).
  assert (H2 : is_polygon g [JList (map position ps)]) by (split; reflexivity).
  assert (H3 : forallb two_entries ps = false) by reflexivity.
  assert (H4 : forallb is_number (flat_map lon_lat ps) = true) by reflexivity.
  split; [exact H1|]. split; [exact H2|]. split; [exact H3|]. split; [exact H4|].
  destruct (ring_notations_agree ps g [] H1 H2) as (Ha & _ & Hc & Hd).
  split; [exact Ha|]. split; [exact (Hc H3)|exact (Hd H4)].
Defined.

Lemma validated_polygon_has_three_pairs_witness :
  let g : gmap string json :=
    {[ "type" := JStr "Polygon";
       "coordinates" := JList [JList [JList [JInt 1; JInt 2; JInt 0]; JList [JInt 3; JInt 4];
                                      JList [JInt 5; JInt 6]]] ]} in
  let flat_array := [JInt 1; JInt 2; JInt 3; JInt 4; JInt 5; JInt 6] in
  validate_polygon (JObject g) = inr flat_array /\
  forallb is_number flat_array = true /\
  (6 <= length flat_array)%nat /\
  Nat.even (length flat_array) = true /\
  validate_polygon (JList flat_array) = inr flat_array.
Proof.
  cbv zeta.
  set (g := {[ "type" := JStr "Polygon";
               "coordinates" := JList [JList [JList [JInt 1; JInt 2; JInt 0];
                                              JList [JInt 3; JInt 4];
                                              JList [JInt 5; JInt 6]]] ]}
            : gmap string json).
  assert (H1 : validate_polygon (JObject g) =
               inr [JInt 1; JInt 2; JInt 3; JInt 4; JInt 5; JInt 6])
    by (vm_compute; reflexivity).
  assert (H2 : forallb is_number [JInt 1; JInt 2; JInt 3; JInt 4; JInt 5; JInt 6] = true)
    by reflexivity.
  split; [exact H1|]. split; [exact H2|].
  destruct (validated_polygon_has_three_pairs _ _ H1) as (H6 & Heven & Hagain).
  split; [exact H6|]. split; [exact Heven|exact (Hagain H2)].
Defined.

Lemma polygon_rejections_witness :
  let geojson : gmap string json :=
    {[ "type" := JStr "FeatureCollection"; "features" := JObject {[ "type" := JStr "Feature" ]} ]} in
  features_raise KeyError (JObject {[ "type" := JStr "Feature" ]}) /\
  validate_polygon (JObject geojson) = inl KeyError.
Proof.
  cbv zeta.
  set (geojson := {[ "type" := JStr "FeatureCollection";
                     "features" := JObject {[ "type" := JStr "Feature" ]} ]}
                  : gmap string json).
  assert (H : features_raise KeyError (JObject {[ "type" := JStr "Feature" ]})).
  { right. split; [reflexivity|]. eexists. split; [reflexivity|]. vm_compute. reflexivity. }
  split; [exact H|].
  exact (proj2 (polygon_rejections (JObject geojson) KeyError) geojson _
           eq_refl eq_refl eq_refl H).
Defined.
